(** * Diagnostic helpers of the DoubleML tutorial notebooks

    The notebooks define three small helpers of their own:

    - [pred_acc_irm]: per-repetition accuracy of the nuisance predictions of
      an interactive regression model (Python and R variants);
    - [rep_propscore_plot]: per-repetition histogram of the propensity
      predictions (Python and R variants);
    - [pred_acc_plr]: accuracy of a nuisance component of a partially linear
      model (R only).

    Numbers are real numbers ([R]): rounding of machine floats is not part of
    this development.  Arrays are indexed from 0 in the Python module and in
    the loops of the R module (where the R source counts from 1). *)

From Stdlib Require Import Ascii String DecimalString DecimalNat.
From Stdlib Require Import Reals Lra Lia Bool Arith PeanoNat List.
Import ListNotations.

Open Scope string_scope.
Open Scope list_scope.
Open Scope R_scope.

(** ** Outcomes of a call *)

(** A call returns a value, raises, or leaves the part of a library's
    behaviour that neither the repository nor its specification fixes. *)
Inductive outcome (E A : Type) : Type :=
| Return (a : A)
| Raise (e : E)
| Unspecified.

Arguments Return {E A} a.
Arguments Raise {E A} e.
Arguments Unspecified {E A}.

Definition bind {E A B : Type} (c : outcome E A) (k : A -> outcome E B)
  : outcome E B :=
  match c with
  | Return a => k a
  | Raise e => Raise e
  | Unspecified => Unspecified
  end.

Notation "x <- c ;; k" := (bind c (fun x => k))
  (at level 61, c at next level, right associativity).

(** [for i in idx: s = body(i, s)] *)
Fixpoint for_loop {E S : Type} (idx : list nat)
  (body : nat -> S -> outcome E S) (s : S) : outcome E S :=
  match idx with
  | [] => Return s
  | i :: rest => s' <- body i s ;; for_loop rest body s'
  end.

(** [for i in range(n)] *)
Definition for_range {E S : Type} (n : nat)
  (body : nat -> S -> outcome E S) (s : S) : outcome E S :=
  for_loop (seq 0 n) body s.

(** ** Real-number helpers *)

Definition Reqb (a b : R) : bool := if Req_dec_T a b then true else false.
Definition Rleb (a b : R) : bool := if Rle_dec a b then true else false.
Definition Rltb (a b : R) : bool := if Rlt_dec a b then true else false.

Definition sum_list (l : list R) : R := fold_right Rplus 0 l.

Definition mean (l : list R) : R := sum_list l / INR (length l).

(** Pairwise combination of two vectors of the same length. *)
Fixpoint map2 {A B C : Type} (f : A -> B -> C) (a : list A) (b : list B)
  : list C :=
  match a, b with
  | x :: a', y :: b' => f x y :: map2 f a' b'
  | _, _ => []
  end.

(** [np.clip(x, lo, hi)], and the clamping of the R metric library *)
Definition clip (x lo hi : R) : R := Rmax lo (Rmin x hi).

(** Replace the entry at index [i]; the list is unchanged out of range. *)
Fixpoint set_nth {A : Type} (i : nat) (v : A) (l : list A) : list A :=
  match l, i with
  | [], _ => []
  | _ :: l', O => v :: l'
  | x :: l', S i' => x :: set_nth i' v l'
  end.

(** [str(n)] *)
Definition str (n : nat) : string := NilEmpty.string_of_uint (Nat.to_uint n).

(** ** The quantities the specification names *)

(** Root-mean-squared error [sqrt(mean((y - pred)^2))]. *)
Definition rmse_of (y pred : list R) : R :=
  sqrt (mean (map2 (fun a b => (a - b) ^ 2) y pred)).

(** Binary log-loss [-mean(d*log(p) + (1-d)*log(1-p))] with the
    probabilities clamped to [[eps, 1 - eps]]. *)
Definition logloss_of (eps : R) (d p : list R) : R :=
  - mean (map2 (fun dj pj =>
                  let q := clip pj eps (1 - eps) in
                  dj * ln q + (1 - dj) * ln (1 - q)) d p).

(** Bucket [k] of [bins] equal-width buckets over [[lo, hi]]. *)
Definition bin_edge (lo hi : R) (bins k : nat) : R :=
  lo + (hi - lo) * INR k / INR bins.

(** Every bucket is closed on the left and open on the right, except the
    last one, which also holds its right edge. *)
Definition in_bin (lo hi : R) (bins k : nat) (x : R) : bool :=
  Rleb (bin_edge lo hi bins k) x &&
  (if (S k =? bins)%nat
   then Rleb x (bin_edge lo hi bins (S k))
   else Rltb x (bin_edge lo hi bins (S k))).

Definition count_if (f : R -> bool) (x : list R) : nat :=
  length (filter f x).

(** A histogram is a sequence of (lower bound, upper bound, count). *)
Definition histogram : Type := list (R * R * nat).



(** Modelled from the spec: the histogram routine of the plotting library
    ([ax.hist(x, range=[lo,hi], bins=bins, density=False)]) is not part of
    the repository.  It partitions [[lo, hi]] into [bins] equal-width buckets
    and counts the values of [x] falling in each; values outside the range
    fall in no bucket. *)
Definition hist (x : list R) (lo hi : R) (bins : nat) : histogram :=
  map (fun k => (bin_edge lo hi bins k, bin_edge lo hi bins (S k),
                 count_if (in_bin lo hi bins k) x))
      (seq 0 bins).


(** ** The Python helpers
    (notebooks/Demand/py_elasticity_analysis_tools.ipynb) *)

Module Py.

(** Exceptions.  [ValueError msg] is the one the helper raises itself;
    [LibraryValueError] is a [ValueError] raised inside numpy or inside
    the metric library, whose message is not modelled. *)
Inductive exn : Type :=
| ValueError (msg : string)
| LibraryValueError
| IndexError
| AttributeError
| TypeError.

Definition result (A : Type) : Type := outcome exn A.

(** The library stores the predictions of a nuisance learner as an array
    indexed by [observation, repetition, treatment]. *)
Record ndarray3 : Type := {
  shape0 : nat;
  shape1 : nat;
  shape2 : nat;
  item3 : nat -> nat -> nat -> R
}.

Record ndarray2 : Type := {
  rows : nat;
  cols : nat;
  item2 : nat -> nat -> R
}.

(** [np.zeros((h, w))] and [np.zeros((w,))] *)
Definition zeros2 (h w : nat) : ndarray2 :=
  {| rows := h; cols := w; item2 := fun _ _ => 0 |}.

Definition zeros1 (w : nat) : list R := repeat 0 w.

(** [a.shape[0]]; the attribute is missing on [None]. *)
Definition shape_0 (a : option ndarray3) : result nat :=
  match a with
  | Some a => Return (shape0 a)
  | None => Raise AttributeError
  end.

(** [v[j]] on a vector *)
Definition getitem {A : Type} (v : list A) (j : nat) : result A :=
  match nth_error v j with
  | Some x => Return x
  | None => Raise IndexError
  end.

(** [v[i] = x] on a vector *)
Definition setitem {A : Type} (v : list A) (i : nat) (x : A)
  : result (list A) :=
  if (i <? length v)%nat then Return (set_nth i x v) else Raise IndexError.

(** [a[j, i]] on a three-dimensional array: the vector along the last
    axis. *)
Definition getitem_ji (a : option ndarray3) (j i : nat) : result (list R) :=
  match a with
  | None => Raise TypeError
  | Some a =>
      if (j <? shape0 a)%nat && (i <? shape1 a)%nat
      then Return (map (item3 a j i) (seq 0 (shape2 a)))
      else Raise IndexError
  end.

(** [a[j, i] = v] on a two-dimensional array of floats: [v] has to hold
    exactly one number. *)
Definition setitem_ji (a : ndarray2) (j i : nat) (v : list R)
  : result ndarray2 :=
  if (j <? rows a)%nat && (i <? cols a)%nat then
    match v with
    | [x] =>
        Return {| rows := rows a; cols := cols a;
                  item2 := fun j' i' =>
                    if (j' =? j)%nat && (i' =? i)%nat then x
                    else item2 a j' i' |}
    | _ => Raise LibraryValueError
    end
  else Raise IndexError.

(** [a[:, i]] on a three-dimensional array *)
Definition column3 (a : option ndarray3) (i : nat) : result ndarray2 :=
  match a with
  | None => Raise TypeError
  | Some a =>
      if (i <? shape1 a)%nat
      then Return {| rows := shape0 a; cols := shape2 a;
                     item2 := fun j k => item3 a j i k |}
      else Raise IndexError
  end.

(** [a[:, i]] on a two-dimensional array *)
Definition column2 (a : ndarray2) (i : nat) : result (list R) :=
  if (i <? cols a)%nat
  then Return (map (fun j => item2 a j i) (seq 0 (rows a)))
  else Raise IndexError.

(** The entries of a two-dimensional array in row-major order. *)
Definition ravel (a : ndarray2) : list R :=
  flat_map (fun j => map (item2 a j) (seq 0 (cols a))) (seq 0 (rows a)).

(** [np.reshape(a, n)]: the sizes have to agree. *)
Definition reshape (a : ndarray2) (n : nat) : result (list R) :=
  if (rows a * cols a =? n)%nat then Return (ravel a)
  else Raise LibraryValueError.

(** [np.isin(d, values).all()] *)
Definition isin_all (d values : list R) : bool :=
  forallb (fun x => existsb (Reqb x) values) d.

(** Modelled from the spec: [mean_squared_error(y_true, y_pred,
    squared=False)] of the metric library is not part of the repository.
    It is the root of the mean squared deviation; vectors that cannot be
    paired, or that are empty, are rejected. *)
Definition mean_squared_error (y_true y_pred : list R) (squared : bool)
  : result R :=
  if (length y_true =? length y_pred)%nat && (0 <? length y_true)%nat then
    let mse := mean (map2 (fun a b => (a - b) ^ 2) y_true y_pred) in
    Return (if squared then mse else sqrt mse)
  else Raise LibraryValueError.

(** Modelled from the spec: [log_loss(y_true, y_pred, eps=eps)] of the
    metric library is not part of the repository.  Given one column of
    probabilities of treatment it is the binary log-loss with the
    probabilities clamped to [[eps, 1 - eps]]; vectors that cannot be
    paired, or that are empty, are rejected.  What it makes of a table
    with several columns is not described. *)
Definition log_loss (y_true : list R) (y_pred : ndarray2) (eps : R)
  : result R :=
  if (cols y_pred =? 1)%nat then
    if (length y_true =? rows y_pred)%nat && (0 <? length y_true)%nat then
      Return (- mean (map2 (fun dj pj =>
                              let q := clip pj eps (1 - eps) in
                              dj * ln q + (1 - dj) * ln (1 - q))
                           y_true (ravel y_pred)))
    else Raise LibraryValueError
  else Unspecified.

Record DoubleMLData : Type := {
  y : list R;
  d : list R
}.

Record DoubleMLIRM : Type := {
  _dml_data : DoubleMLData;
  predictions : string -> option ndarray3;
  n_rep : nat
}.

Definition pred_acc_irm (DoubleML : DoubleMLIRM) (prop : bool)
  : result (list R) :=
  (* export data and predictions of the DoubleML model *)
  let y := y (_dml_data DoubleML) in
  let d := d (_dml_data DoubleML) in
  let g0 := predictions DoubleML "ml_g0" in
  let g1 := predictions DoubleML "ml_g1" in
  let m := predictions DoubleML "ml_m" in
  (* dimensions of prediction array *)
  h <- shape_0 g0 ;;
  let w := n_rep DoubleML in
  (* check whether treatment is binary *)
  if negb (isin_all d [0; 1]) then
    Raise (ValueError "Treatment must be a binary variable.")
  else
    (* prepare array to store prediction accuracy measure values *)
    let pred_acc_array := zeros1 w in
    if negb prop then
      (* export an array with correctly picked prediction values *)
      export_pred_array <-
        for_range w (fun i a =>
          for_range h (fun j a =>
            dj <- getitem d j ;;
            if Reqb dj 0 then
              v <- getitem_ji g0 j i ;; setitem_ji a j i v
            else
              v <- getitem_ji g1 j i ;; setitem_ji a j i v) a)
          (zeros2 h w) ;;
      (* fill array that contains rmse of each repetition *)
      for_range w (fun i acc =>
        col <- column2 export_pred_array i ;;
        r <- mean_squared_error y col false ;;
        setitem acc i r) pred_acc_array
    else
      (* fill array that contains log loss of each repetition *)
      for_range w (fun i acc =>
        mi <- column3 m i ;;
        r <- log_loss d mi 0.025 ;;
        setitem acc i r) pred_acc_array.

(** One subplot: the histograms drawn on it and its labels. *)
Record axes : Type := {
  artists : list histogram;
  title : string;
  xlabel : string;
  ylabel : string
}.

Definition new_axes : axes :=
  {| artists := []; title := ""; xlabel := ""; ylabel := "" |}.

(** [ax.hist(x, range=[lo, hi], bins=bins, density=False)] *)
Definition ax_hist (ax : axes) (x : list R) (lo hi : R) (bins : nat) : axes :=
  {| artists := artists ax ++ [hist x lo hi bins];
     title := title ax; xlabel := xlabel ax; ylabel := ylabel ax |}.

Definition set_title (ax : axes) (s : string) : axes :=
  {| artists := artists ax; title := s;
     xlabel := xlabel ax; ylabel := ylabel ax |}.

Definition set_xlabel (ax : axes) (s : string) : axes :=
  {| artists := artists ax; title := title ax;
     xlabel := s; ylabel := ylabel ax |}.

Definition set_ylabel (ax : axes) (s : string) : axes :=
  {| artists := artists ax; title := title ax;
     xlabel := xlabel ax; ylabel := s |}.

(** The figure shown by [plt.show()]: one subplot per entry. *)
Definition figure : Type := list axes.

Definition rep_propscore_plot (DoubleML : DoubleMLIRM) : result figure :=
  (* export nuisance part from the DoubleML model *)
  let m := predictions DoubleML "ml_m" in
  (* dimensions of nuisance array *)
  h <- shape_0 m ;;
  let rep := n_rep DoubleML in
  let i := 0%nat in
  if (1 <? rep)%nat then
    (* fig, ax = plt.subplots(1, rep) *)
    for_range rep (fun i ax =>
      mi <- column3 m i ;;
      x <- reshape mi h ;;
      a <- getitem ax i ;;
      let a := ax_hist a x 0 1 25 in
      let a := set_title a ("repetition " ++ str (i + 1))%string in
      let a := set_xlabel a "prop_score" in
      let a := set_ylabel a "count" in
      setitem ax i a) (repeat new_axes rep)
  else
    (* fig, ax = plt.subplots() *)
    let ax := new_axes in
    mi <- column3 m i ;;
    x <- reshape mi h ;;
    let ax := ax_hist ax x 0 1 25 in
    mi <- column3 m i ;;
    x <- reshape mi h ;;
    let ax := ax_hist ax x 0 1 25 in
    let ax := set_title ax ("repetition " ++ str (i + 1))%string in
    let ax := set_xlabel ax "prop_score" in
    let ax := set_ylabel ax "count" in
    Return [ax].

End Py.

(** ** The R helpers
    (notebooks/AB_test/R_double_ml_abtest_workflow.Rmd and
    notebooks/Demand/R_elasticity_analysis.Rmd) *)

Module Rl.

(** Conditions.  [simpleError msg] is what [stop(msg)] signals in the
    helpers; [library_error] is an error signalled by R's arithmetic or
    inside the metric library, whose message is not modelled. *)
Inductive condition : Type :=
| simpleError (msg : string)
| library_error.

Definition result (A : Type) : Type := outcome condition A.

(** Stored predictions: an array indexed by
    [observation, repetition, treatment]. *)
Record array3 : Type := {
  dim1 : nat;
  dim2 : nat;
  dim3 : nat;
  entry3 : nat -> nat -> nat -> R
}.

Record matrix : Type := {
  nrow : nat;
  ncol : nat;
  entry : nat -> nat -> R
}.

Record DoubleMLData : Type := {
  n_treat : nat;
  n_obs : nat;
  y_col : string;
  treat_col : string;
  data_model : string -> option (list R)
}.

(** The fields of a fitted model object that the helpers read. *)
Record DoubleML : Type := {
  data : DoubleMLData;
  n_rep : nat;
  coef : list R;
  predictions : string -> option array3
}.

(** [data_model[[name]]]: a column that does not exist is [NULL], a vector
    of length zero. *)
Definition column (dt : string -> option (list R)) (name : string) : list R :=
  match dt name with
  | Some v => v
  | None => []
  end.

(** [matrix(a[,,1], ncol = w)] for an array of [w] columns with at least
    one row and one treatment slice: the first slice as a matrix.  For
    other shapes R drops or recycles dimensions; this is left open. *)
Definition first_slice (a : option array3) (w : nat) : result matrix :=
  match a with
  | Some a =>
      if (0 <? dim1 a)%nat && (dim2 a =? w)%nat && (0 <? w)%nat
         && (0 <? dim3 a)%nat
      then Return {| nrow := dim1 a; ncol := w;
                     entry := fun j i => entry3 a j i 0 |}
      else Unspecified
  | None => Unspecified
  end.

(** [m[, j]] *)
Definition mcol (m : matrix) (j : nat) : list R :=
  map (fun r => entry m r j) (seq 0 (nrow m)).

(** [all(unique(d) %in% values)] *)
Definition all_in (d values : list R) : bool :=
  forallb (fun x => existsb (Reqb x) values) (nodup Req_dec_T d).

(** [v * m] for a vector and a matrix.  A vector with one entry per row
    is recycled down every column.  A vector of another length is recycled
    over the entries of the matrix, which the row index walks fastest (R
    warns when the lengths do not divide); a vector longer than the matrix
    is an error of R's arithmetic.  A vector of length zero and a matrix
    with a single entry are left open. *)
Definition vec_times_matrix (v : list R) (m : matrix) : result matrix :=
  if (length v =? nrow m)%nat then
    Return {| nrow := nrow m; ncol := ncol m;
              entry := fun j i => nth j v 0 * entry m j i |}
  else if (length v =? 0)%nat || (nrow m * ncol m =? 1)%nat then Unspecified
  else if (nrow m * ncol m <? length v)%nat then Raise library_error
  else
    Return {| nrow := nrow m; ncol := ncol m;
              entry := fun j i =>
                nth ((j + nrow m * i) mod length v) v 0 * entry m j i |}.

(** [a + b] on matrices: the shapes have to agree. *)
Definition matrix_plus (a b : matrix) : result matrix :=
  if (nrow a =? nrow b)%nat && (ncol a =? ncol b)%nat then
    Return {| nrow := nrow a; ncol := ncol a;
              entry := fun j i => entry a j i + entry b j i |}
  else Raise library_error.

(** [apply(m, 2, f)] *)
Fixpoint apply_columns (m : matrix) (f : list R -> result R) (js : list nat)
  : result (list R) :=
  match js with
  | [] => Return []
  | j :: rest =>
      r <- f (mcol m j) ;;
      rs <- apply_columns m f rest ;;
      Return (r :: rs)
  end.

(** Modelled from the spec: [mlr3measures::rmse(truth, response)] is not
    part of the repository.  It is the root of the mean squared deviation;
    vectors that cannot be paired, or that are empty, are rejected. *)
Definition rmse (truth response : list R) : result R :=
  if (length truth =? length response)%nat && (0 <? length truth)%nat then
    Return (sqrt (mean (map2 (fun a b => (a - b) ^ 2) truth response)))
  else Raise library_error.

(** The clamping bound the metric library uses when the caller passes
    none. *)
Definition logloss_default_eps : R := / 10 ^ 15.

(** Modelled from the spec: [mlr3measures::logloss(truth, prob)] is not
    part of the repository.  [prob] has one row per observation with the
    probabilities of class "0" and of class "1"; the loss is minus the mean
    logarithm of the clamped probability of the observed class.  Inputs
    that cannot be paired, or that are empty, are rejected. *)
Definition logloss (truth : list R) (prob : list (R * R)) (eps : R)
  : result R :=
  if (length truth =? length prob)%nat && (0 <? length truth)%nat then
    Return (- mean (map2 (fun dj p =>
                            ln (clip (if Reqb dj 0 then fst p else snd p)
                                     eps (1 - eps)))
                         truth prob))
  else Raise library_error.

Definition pred_acc_irm (obj : DoubleML) (prop : bool)
  : result (list (option R)) :=
  if (1 <? n_treat (data obj))%nat then
    Raise (simpleError "Number of treatment variable is > 1. Helper function for nuisance accuracy is only implemented for 1 treatment variable.")
  else
    let h := n_obs (data obj) in
    let w := n_rep obj in
    let y := column (data_model (data obj)) (y_col (data obj)) in
    let d := column (data_model (data obj)) (treat_col (data obj)) in
    g0 <- first_slice (predictions obj "ml_g0") w ;;
    g1 <- first_slice (predictions obj "ml_g1") w ;;
    m <- first_slice (predictions obj "ml_m") w ;;
    if negb (all_in d [0; 1]) then
      Raise (simpleError "Treatment must be a binary variable.")
    else if negb prop then
      dg1 <- vec_times_matrix d g1 ;;
      dg0 <- vec_times_matrix (map (fun x => 1 - x) d) g0 ;;
      export_pred <- matrix_plus dg1 dg0 ;;
      (* Calculate MSE for every repetition *)
      pred_acc <- apply_columns export_pred (fun x => rmse y x)
                    (seq 0 (ncol export_pred)) ;;
      Return (map Some pred_acc)
    else
      (* pred_acc = rep(NA, w) *)
      for_range w (fun j pred_acc =>
        let class_probs :=
          combine (map (fun p => 1 - p) (mcol m j)) (mcol m j) in
        r <- logloss d class_probs logloss_default_eps ;;
        Return (set_nth j (Some r) pred_acc)) (repeat None w).

(** A table of the data-table library: its columns, each with its name. *)
Definition data_table : Type := list (string * list R).

(** The entries of the first treatment slice of an array, the row index
    walking fastest. *)
Definition slice_entries (a : array3) : list R :=
  flat_map (fun i => map (fun j => entry3 a j i 0) (seq 0 (dim1 a)))
           (seq 0 (dim2 a)).

(** [data.table(a[,,1])].  The subscript drops every dimension of extent
    one: of an array with several rows and several columns the first slice
    is a matrix and gives one table column per column, named V1, V2, ...;
    with a single row, or a single column, the slice is a plain vector and
    gives the one column V1.  A slice that does not exist is an error; an
    array without rows or columns, and predictions that are not stored, are
    left open. *)
Definition slice_table (a : option array3) : result data_table :=
  match a with
  | Some a =>
      if (dim3 a =? 0)%nat then Raise library_error
      else if (dim1 a =? 0)%nat || (dim2 a =? 0)%nat then Unspecified
      else if (dim1 a =? 1)%nat || (dim2 a =? 1)%nat then
        Return [("V1", slice_entries a)]
      else
        Return (map (fun i =>
                       (("V" ++ str (S i))%string,
                        map (fun j => entry3 a j i 0) (seq 0 (dim1 a))))
                    (seq 0 (dim2 a)))
  | None => Unspecified
  end.

(** [1:w]: counting up from 1 to [w], and down from 1 to 0 when [w] is 0. *)
Definition one_to (w : nat) : list nat :=
  match w with
  | O => [1; 0]%nat
  | _ => seq 1 w
  end.

(** [paste(s, v)] *)
Definition paste (s : string) (v : list nat) : list string :=
  map (fun i => (s ++ " " ++ str i)%string) v.

(** [colnames(m) = value] on a table: as many names as columns, or the
    data-table library refuses. *)
Definition set_colnames (m : data_table) (value : list string)
  : result data_table :=
  if (length value =? length m)%nat
  then Return (map (fun nc => (fst nc, snd (snd nc))) (combine value m))
  else Raise library_error.

(** A table in long format: the levels of the factor [variable], and the
    rows (variable, value). *)
Record long_table : Type := {
  levels : list string;
  rows : list (string * R)
}.

(** [melt(m, measure.vars = names(m))]: one row per entry, column by
    column; the names of the columns are the levels, in their order. *)
Definition melt (m : data_table) : long_table :=
  {| levels := map fst m;
     rows := flat_map (fun c => map (fun v => (fst c, v)) (snd c)) m |}.

(** What the returned plot object describes: the melted table, the number
    of bins of the histogram layer, the limits of the x axis and the
    variable of the facets. *)
Record ggplot : Type := {
  plot_data : long_table;
  bins : nat;
  xlim : R * R;
  facet_grid : string
}.

Definition rep_propscore_plot (obj : DoubleML) : result ggplot :=
  if (1 <? n_treat (data obj))%nat then
    Raise (simpleError "Number of treatment variable is > 1. Helper function for nuisance accuracy is only implemented for 1 treatment variable.")
  else
    m <- slice_table (predictions obj "ml_m") ;;
    m <- set_colnames m (paste "Repetition" (one_to (n_rep obj))) ;;
    let m := melt m in
    Return {| plot_data := m; bins := 25; xlim := (0, 1);
              facet_grid := "variable" |}.

(** The plot object is a description; the plotting library bins the values
    when the plot is built to be shown.  What follows is the documented
    binning of its histogram statistic ([stat_bin] with [bins] given and
    neither [center] nor [boundary]), which is not part of the repository.
    Over the limits [[lo, hi]] of the x scale, [bins >= 2] bins have the
    width [(hi - lo) / (bins - 1)]; the first is centred on [lo] and the
    last on [hi], so break [k] lies half a width below [lo] plus [k]
    widths.  The library's tolerance of 1e-8 widths at the breaks is below
    the level of this model. *)
Definition stat_break (lo hi : R) (bins k : nat) : R :=
  lo + (hi - lo) * (INR k - 1 / 2) / INR (bins - 1).






(** [theta * d] on vectors: the shorter one is recycled; the product with
    a vector of length zero has length zero. *)
Definition vec_times (a b : list R) : list R :=
  match a, b with
  | [], _ | _, [] => []
  | _, _ =>
      map (fun k => nth (k mod length a) a 0 * nth (k mod length b) b 0)
          (seq 0 (Nat.max (length a) (length b)))
  end.

(** [v + a] for a vector and an array: the vector is recycled over the
    entries of the array, which the first index walks fastest; a vector
    longer than the array is an error, and a vector of length zero is left
    open. *)
Definition vec_plus_array (v : list R) (a : array3) : result array3 :=
  let size := (dim1 a * dim2 a * dim3 a)%nat in
  if (size <? length v)%nat then Raise library_error
  else if (length v =? 0)%nat then Unspecified
  else
    Return {| dim1 := dim1 a; dim2 := dim2 a; dim3 := dim3 a;
              entry3 := fun j i k =>
                nth ((j + dim1 a * (i + dim2 a * k)) mod length v) v 0
                + entry3 a j i k |}.

(** The entries of an array as a vector, first index fastest; [NULL] has
    none. *)
Definition as_vector (a : option array3) : list R :=
  match a with
  | None => []
  | Some a =>
      flat_map (fun k =>
        flat_map (fun i => map (fun j => entry3 a j i k) (seq 0 (dim1 a)))
                 (seq 0 (dim2 a)))
        (seq 0 (dim3 a))
  end.

Definition pred_acc_plr (obj : DoubleML) (nuis : string) : result R :=
  (* Export data, fitted coefficient and predictions of the DoubleML model *)
  let y := column (data_model (data obj)) (y_col (data obj)) in
  let d := column (data_model (data obj)) (treat_col (data obj)) in
  let theta := coef obj in
  let ml_nuis := predictions obj nuis in
  (* Dimensions of prediction array *)
  let h := n_obs (data obj) in
  export_pred <-
    (if String.eqb nuis "ml_l" then
       match ml_nuis with
       | Some a => r <- vec_plus_array (vec_times theta d) a ;; Return (Some r)
       | None => Return None
       end
     else if String.eqb nuis "ml_m" then Return ml_nuis
     else Return None) ;;
  rmse y (as_vector ml_nuis).

End Rl.

(** ** Cells around the helpers: Python
    (notebooks/Demand/py_elasticity_analysis_tools.ipynb and the uplift
    notebook) *)

Module PyCells.

Inductive pandas_error : Type :=
| KeyError.

(** [columns.drop(labels).to_list()] of the data-frame library: the labels
    of the index without the given ones, in their order; a given label that
    is no label of the index is a [KeyError]. *)
Definition drop (columns labels : list string)
  : outcome pandas_error (list string) :=
  if forallb (fun l => existsb (String.eqb l) columns) labels
  then Return (filter (fun c => negb (existsb (String.eqb c) labels)) columns)
  else Raise KeyError.

(** [feature_names = demand_data.columns.drop([...]).to_list()], as a
    function of the columns of the data set. *)
Definition feature_names (columns : list string)
  : outcome pandas_error (list string) :=
  drop columns ["Quantity"; "revenue"; "UnitPrice"; "dLnQ"; "dLnP"].

(** [features_base = list(df.columns.values)[2:]] *)
Definition features_base (columns : list string) : list string :=
  skipn 2 columns.

(** A float that may be NaN. *)
Definition isnan (x : option R) : bool :=
  match x with
  | None => true
  | Some _ => false
  end.

(** [a[mask]] for a boolean mask, which has to be as long as [a]. *)
Definition getitem_mask {A : Type} (a : list A) (mask : list bool)
  : Py.result (list A) :=
  if (length a =? length mask)%nat
  then Return (map fst (filter snd (combine a mask)))
  else Raise Py.IndexError.

(** The metric library rejects an array that holds NaN. *)
Fixpoint finite (a : list (option R)) : Py.result (list R) :=
  match a with
  | [] => Return []
  | None :: _ => Raise Py.LibraryValueError
  | Some x :: a' => xs <- finite a' ;; Return (x :: xs)
  end.

(** A vector handed to the metric library counts as one column. *)
Definition as_column (l : list R) : Py.ndarray2 :=
  {| Py.rows := length l; Py.cols := 1; Py.item2 := fun j _ => nth j l 0 |}.

(** [logloss(y_true, y_pred)] of the uplift notebook.  [eps] is the
    clamping bound the metric library uses when the caller passes none. *)
Definition logloss (eps : R) (y_true y_pred : list (option R))
  : Py.result R :=
  let subset := map (fun x => negb (isnan x)) y_true in
  yt <- getitem_mask y_true subset ;;
  yp <- getitem_mask y_pred subset ;;
  yt <- finite yt ;;
  yp <- finite yp ;;
  Py.log_loss yt (as_column yp) eps.

End PyCells.

(** ** Cells around the helpers: R
    (notebooks/Demand/R_elasticity_analysis.Rmd and
    notebooks/AB_test/R_double_ml_abtest_workflow.Rmd) *)

Module RCells.

(** [x != y] on character vectors: element by element, the shorter vector
    recycled; with a vector of length zero the result has length zero. *)
Definition neq (x y : list string) : list bool :=
  match x, y with
  | [], _ | _, [] => []
  | _, _ =>
      map (fun i => negb (String.eqb (nth (i mod length x) x "")
                                     (nth (i mod length y) y "")))
          (seq 0 (Nat.max (length x) (length y)))
  end.

(** [x[mask]] for a logical mask: the mask is recycled when it is shorter
    than [x]; where it is longer, a [TRUE] selects [NA] ([None]). *)
Definition index_logical (x : list string) (mask : list bool)
  : list (option string) :=
  match mask with
  | [] => []
  | _ =>
      flat_map (fun i => if nth (i mod length mask) mask false
                         then [nth_error x i] else [])
               (seq 0 (Nat.max (length x) (length mask)))
  end.

(** [feature_names = names(demand_data)[names(demand_data) != c(...)]], as
    a function of the names of the data set. *)
Definition feature_names (names : list string) : list (option string) :=
  index_logical names
    (neq names ["Quantity"; "revenue"; "UnitPrice"; "dLnP"; "dLnQ"]).

(** Whether a string holds the character [c]. *)
Fixpoint has_char (c : Ascii.ascii) (s : string) : bool :=
  match s with
  | EmptyString => false
  | String a s' => Ascii.eqb a c || has_char c s'
  end.

(** [grep(pattern, x)] for a pattern of one plain letter: the positions
    (counted from 0 here) of the elements that hold the letter. *)
Definition grep (c : Ascii.ascii) (x : list string) : list nat :=
  filter (fun i => has_char c (nth i x "")) (seq 0 (length x)).

(** [x[positions]] *)
Definition index_positions (x : list string) (positions : list nat)
  : list (option string) :=
  map (nth_error x) positions.

(** [features_base = colnames(df)[grep("V", colnames(df))]] *)
Definition features_base (colnames : list string) : list (option string) :=
  index_positions colnames (grep "V"%char colnames).

End RCells.

(** ** Vocabulary of the statements *)

(** A treatment vector is binary when it holds only 0 and 1. *)
Definition binary (d : list R) : Prop := Forall (fun x => x = 0 \/ x = 1) d.

(** The treated-arm prediction where the treatment is 1, the control-arm
    prediction otherwise. *)
Definition blend (d c0 c1 : list R) : list R :=
  map2 (fun dj ab => if Reqb dj 1 then snd ab else fst ab) d (combine c0 c1).

(** A stored Python array that is a prediction matrix of shape [[n, w]]:
    [n] observations, [w] repetitions, a single treatment. *)
Definition py_matrix (a : option Py.ndarray3) (n w : nat) : Prop :=
  match a with
  | Some a => Py.shape0 a = n /\ Py.shape1 a = w /\ Py.shape2 a = 1%nat
  | None => False
  end.

(** Column [i] of a stored Python array (first treatment). *)
Definition py_col (a : option Py.ndarray3) (i : nat) : list R :=
  match a with
  | Some a => map (fun j => Py.item3 a j i 0) (seq 0 (Py.shape0 a))
  | None => []
  end.

(** The same for the arrays of the R objects. *)
Definition r_matrix (a : option Rl.array3) (n w : nat) : Prop :=
  match a with
  | Some a => Rl.dim1 a = n /\ Rl.dim2 a = w /\ (0 < Rl.dim3 a)%nat
  | None => False
  end.

Definition r_col (a : option Rl.array3) (i : nat) : list R :=
  match a with
  | Some a => map (fun j => Rl.entry3 a j i 0) (seq 0 (Rl.dim1 a))
  | None => []
  end.

(** Arrays given by their rows (observation by observation), with a single
    treatment slice. *)
Definition py_array (n w : nat) (rows : list (list R)) : Py.ndarray3 :=
  {| Py.shape0 := n; Py.shape1 := w; Py.shape2 := 1;
     Py.item3 := fun j i _ => nth i (nth j rows []) 0 |}.

Definition r_array (n w : nat) (rows : list (list R)) : Rl.array3 :=
  {| Rl.dim1 := n; Rl.dim2 := w; Rl.dim3 := 1;
     Rl.entry3 := fun j i _ => nth i (nth j rows []) 0 |}.

(** A lookup table with the three nuisance components of the interactive
    regression model. *)
Definition table {A : Type} (g0 g1 m : option A) (key : string) : option A :=
  if String.eqb key "ml_g0" then g0
  else if String.eqb key "ml_g1" then g1
  else if String.eqb key "ml_m" then m
  else None.

Definition py_model (y d : list R) (g0 g1 m : option Py.ndarray3) (w : nat)
  : Py.DoubleMLIRM :=
  {| Py._dml_data := {| Py.y := y; Py.d := d |};
     Py.predictions := table g0 g1 m;
     Py.n_rep := w |}.

Definition r_data (t : nat) (y d : list R) : Rl.DoubleMLData :=
  {| Rl.n_treat := t; Rl.n_obs := length y;
     Rl.y_col := "y"; Rl.treat_col := "d";
     Rl.data_model := fun name =>
       if String.eqb name "y" then Some y
       else if String.eqb name "d" then Some d
       else None |}.

Definition r_model (t : nat) (y d : list R) (g0 g1 m : option Rl.array3)
  (w : nat) : Rl.DoubleML :=
  {| Rl.data := r_data t y d; Rl.n_rep := w; Rl.coef := [];
     Rl.predictions := table g0 g1 m |}.

(** Outcome and treatment columns of an R object. *)
Definition r_y (obj : Rl.DoubleML) : list R :=
  Rl.column (Rl.data_model (Rl.data obj)) (Rl.y_col (Rl.data obj)).

Definition r_d (obj : Rl.DoubleML) : list R :=
  Rl.column (Rl.data_model (Rl.data obj)) (Rl.treat_col (Rl.data obj)).

(** ** The worked examples of the specification *)

(** Outcomes [1,2,3,4], treatments [0,1,0,1], control-arm predictions
    [1,1,1,1], treated-arm predictions [2,2,2,2], one repetition. *)
Definition py_example_regression : Py.DoubleMLIRM :=
  py_model [1; 2; 3; 4] [0; 1; 0; 1]
    (Some (py_array 4 1 [[1]; [1]; [1]; [1]]))
    (Some (py_array 4 1 [[2]; [2]; [2]; [2]]))
    None 1.

Definition r_example_regression (m : option Rl.array3) : Rl.DoubleML :=
  r_model 1 [1; 2; 3; 4] [0; 1; 0; 1]
    (Some (r_array 4 1 [[1]; [1]; [1]; [1]]))
    (Some (r_array 4 1 [[2]; [2]; [2]; [2]]))
    m 1.

(** Treatments [0,1], propensity predictions [0.1, 0.9], one repetition. *)
Definition py_example_propensity : Py.DoubleMLIRM :=
  py_model [0; 0] [0; 1]
    (Some (py_array 2 1 [[0]; [0]]))
    (Some (py_array 2 1 [[0]; [0]]))
    (Some (py_array 2 1 [[1 / 10]; [9 / 10]])) 1.

Definition r_example_propensity : Rl.DoubleML :=
  r_model 1 [0; 0] [0; 1]
    (Some (r_array 2 1 [[0]; [0]]))
    (Some (r_array 2 1 [[0]; [0]]))
    (Some (r_array 2 1 [[1 / 10]; [9 / 10]])) 1.

(** Treatments [0,1] and propensity predictions [0.01, 0.99], nearer to 0
    and 1 than 0.025, one repetition. *)
Definition r_example_extreme : Rl.DoubleML :=
  r_model 1 [0; 0] [0; 1]
    (Some (r_array 2 1 [[0]; [0]]))
    (Some (r_array 2 1 [[0]; [0]]))
    (Some (r_array 2 1 [[1 / 100]; [99 / 100]])) 1.

(** A treatment vector holding the value 2. *)
Definition py_example_nonbinary : Py.DoubleMLIRM :=
  py_model [1; 2] [0; 2]
    (Some (py_array 2 1 [[1]; [1]]))
    (Some (py_array 2 1 [[2]; [2]]))
    (Some (py_array 2 1 [[1 / 2]; [1 / 2]])) 1.

Definition r_example_nonbinary : Rl.DoubleML :=
  r_model 1 [1; 2] [0; 2]
    (Some (r_array 2 1 [[1]; [1]]))
    (Some (r_array 2 1 [[2]; [2]]))
    (Some (r_array 2 1 [[1 / 2]; [1 / 2]])) 1.

(** A Python array with [t] treatment slices, every entry [v]. *)
Definition py_constant (n w t : nat) (v : R) : Py.ndarray3 :=
  {| Py.shape0 := n; Py.shape1 := w; Py.shape2 := t;
     Py.item3 := fun _ _ _ => v |}.

(** Two treatment variables, three observations, one repetition. *)
Definition py_example_two_treatments : Py.DoubleMLIRM :=
  py_model [1; 2; 3] [0; 1; 0]
    (Some (py_constant 3 1 2 1))
    (Some (py_constant 3 1 2 2))
    (Some (py_constant 3 1 2 (1 / 2))) 1.

Definition r_example_two_treatments : Rl.DoubleML :=
  r_model 2 [1; 2; 3] [0; 1; 0]
    (Some {| Rl.dim1 := 3; Rl.dim2 := 1; Rl.dim3 := 2;
             Rl.entry3 := fun _ _ _ => 1 |})
    (Some {| Rl.dim1 := 3; Rl.dim2 := 1; Rl.dim3 := 2;
             Rl.entry3 := fun _ _ _ => 2 |})
    (Some {| Rl.dim1 := 3; Rl.dim2 := 1; Rl.dim3 := 2;
             Rl.entry3 := fun _ _ _ => 1 / 2 |}) 1.

(** The metric of one repetition: log-loss of the propensity column in
    propensity mode, root-mean-squared error of the blended regression
    columns otherwise. *)
Definition accuracy_of (prop : bool) (eps : R) (y d c0 c1 cm : list R) : R :=
  if prop then logloss_of eps d cm else rmse_of y (blend d c0 c1).

(** Valid input of the accuracy helpers: [n] observations with a binary
    treatment and three prediction matrices of shape [[n, repetitions]]. *)
Definition py_valid (M : Py.DoubleMLIRM) (n : nat) : Prop :=
  length (Py.y (Py._dml_data M)) = n /\
  length (Py.d (Py._dml_data M)) = n /\
  (0 < n)%nat /\
  binary (Py.d (Py._dml_data M)) /\
  py_matrix (Py.predictions M "ml_g0") n (Py.n_rep M) /\
  py_matrix (Py.predictions M "ml_g1") n (Py.n_rep M) /\
  py_matrix (Py.predictions M "ml_m") n (Py.n_rep M).

Definition r_valid (obj : Rl.DoubleML) (n : nat) : Prop :=
  (Rl.n_treat (Rl.data obj) <= 1)%nat /\
  length (r_y obj) = n /\
  length (r_d obj) = n /\
  (0 < n)%nat /\
  (0 < Rl.n_rep obj)%nat /\
  binary (r_d obj) /\
  r_matrix (Rl.predictions obj "ml_g0") n (Rl.n_rep obj) /\
  r_matrix (Rl.predictions obj "ml_g1") n (Rl.n_rep obj) /\
  r_matrix (Rl.predictions obj "ml_m") n (Rl.n_rep obj).

(** The subplot of repetition [i]: the histogram of its column over [[0,1]]
    in 25 buckets, drawn [copies] times, and its labels. *)
Definition py_subplot (copies : nat) (x : list R) (i : nat) : Py.axes :=
  {| Py.artists := repeat (hist x 0 1 25) copies;
     Py.title := ("repetition " ++ str (i + 1))%string;
     Py.xlabel := "prop_score";
     Py.ylabel := "count" |}.

(** Propensity predictions [0.02, 0.5, 0.98], one repetition. *)
Definition py_example_histogram : Py.DoubleMLIRM :=
  py_model [0; 0; 0] [0; 1; 0] None None
    (Some (py_array 3 1 [[0.02]; [0.5]; [0.98]])) 1.

(** The same fitted object with another coefficient vector. *)
Definition with_coef (obj : Rl.DoubleML) (theta : list R) : Rl.DoubleML :=
  {| Rl.data := Rl.data obj;
     Rl.n_rep := Rl.n_rep obj;
     Rl.coef := theta;
     Rl.predictions := Rl.predictions obj |}.

(** A partially linear model with one observation: outcome 3, treatment 1,
    coefficient 2 and stored prediction 1 for both nuisance components. *)
Definition r_example_plr : Rl.DoubleML :=
  {| Rl.data := r_data 1 [3] [1];
     Rl.n_rep := 1;
     Rl.coef := [2];
     Rl.predictions := fun key =>
       if String.eqb key "ml_l" then Some (r_array 1 1 [[1]])
       else if String.eqb key "ml_m" then Some (r_array 1 1 [[1]])
       else None |}.

(** One observation (outcome 1, treated), one repetition; the stored
    treated-arm predictions have two rows. *)
Definition py_example_surplus_rows : Py.DoubleMLIRM :=
  py_model [1] [1]
    (Some (py_array 1 1 [[1]]))
    (Some (py_array 2 1 [[2]; [3]]))
    None 1.

(** A call fails when it raises. *)
Definition raises {E A : Type} (c : outcome E A) : Prop :=
  exists e, c = Raise e.

(** The regression example with stored propensity predictions as well. *)
Definition py_example_regression_full : Py.DoubleMLIRM :=
  py_model [1; 2; 3; 4] [0; 1; 0; 1]
    (Some (py_array 4 1 [[1]; [1]; [1]; [1]]))
    (Some (py_array 4 1 [[2]; [2]; [2]; [2]]))
    (Some (py_array 4 1 [[1 / 2]; [1 / 2]; [1 / 2]; [1 / 2]])) 1.

(** ** Vocabulary of the further properties *)

(** The same R object with another treatment column. *)
Definition r_with_treatment (obj : Rl.DoubleML) (d : list R) : Rl.DoubleML :=
  {| Rl.data :=
       {| Rl.n_treat := Rl.n_treat (Rl.data obj);
          Rl.n_obs := Rl.n_obs (Rl.data obj);
          Rl.y_col := Rl.y_col (Rl.data obj);
          Rl.treat_col := Rl.treat_col (Rl.data obj);
          Rl.data_model := fun name =>
            if String.eqb name (Rl.treat_col (Rl.data obj)) then Some d
            else Rl.data_model (Rl.data obj) name |};
     Rl.n_rep := Rl.n_rep obj;
     Rl.coef := Rl.coef obj;
     Rl.predictions := Rl.predictions obj |}.

(** A Python object and an R object that hold the same data: the same
    outcomes, treatments and number of repetitions, and the same columns
    of stored predictions. *)
Definition same_inputs (M : Py.DoubleMLIRM) (obj : Rl.DoubleML) : Prop :=
  Py.y (Py._dml_data M) = r_y obj /\
  Py.d (Py._dml_data M) = r_d obj /\
  Py.n_rep M = Rl.n_rep obj /\
  forall key i, (i < Py.n_rep M)%nat ->
    py_col (Py.predictions M key) i = r_col (Rl.predictions obj key) i.

(** The regression example in R, with stored propensity predictions. *)
Definition r_example_regression_full : Rl.DoubleML :=
  r_example_regression
    (Some (r_array 4 1 [[1 / 2]; [1 / 2]; [1 / 2]; [1 / 2]])).

(** The regression example without stored treated-arm predictions. *)
Definition py_example_no_g1 : Py.DoubleMLIRM :=
  py_model [1; 2; 3; 4] [0; 1; 0; 1]
    (Some (py_array 4 1 [[1]; [1]; [1]; [1]]))
    None None 1.

(** One row of the vectors handed to the metric of the uplift notebook:
    a target with its prediction, or no target (NaN) and any prediction
    (possibly NaN). *)
Inductive row : Type :=
| Observed (target prediction : R)
| Missing (prediction : option R).

Definition y_true_of (rows : list row) : list (option R) :=
  map (fun r => match r with
                | Observed t _ => Some t
                | Missing _ => None
                end) rows.

Definition y_pred_of (rows : list row) : list (option R) :=
  map (fun r => match r with
                | Observed _ p => Some p
                | Missing p => p
                end) rows.

Definition observed_targets (rows : list row) : list R :=
  flat_map (fun r => match r with
                     | Observed t _ => [t]
                     | Missing _ => []
                     end) rows.

Definition observed_predictions (rows : list row) : list R :=
  flat_map (fun r => match r with
                     | Observed _ p => [p]
                     | Missing _ => []
                     end) rows.

(** The names the demand notebooks leave out of the features, in the order
    of the R notebook. *)
Definition left_out : list string :=
  ["Quantity"; "revenue"; "UnitPrice"; "dLnP"; "dLnQ"].





(** Two observations (outcomes [1,2], treatments [0,1]) and one
    repetition; every stored prediction matrix has three rows. *)
Definition py_example_three_rows : Py.DoubleMLIRM :=
  py_model [1; 2] [0; 1]
    (Some (py_array 3 1 [[1]; [1]; [1]]))
    (Some (py_array 3 1 [[2]; [2]; [2]]))
    (Some (py_array 3 1 [[1 / 2]; [1 / 2]; [1 / 2]])) 1.

Definition r_example_three_rows : Rl.DoubleML :=
  r_model 1 [1; 2] [0; 1]
    (Some (r_array 3 1 [[1]; [1]; [1]]))
    (Some (r_array 3 1 [[2]; [2]; [2]]))
    (Some (r_array 3 1 [[1 / 2]; [1 / 2]; [1 / 2]])) 1.

(** Outcomes [1,2,3,4], treatments [0,1,0,1] and two repetitions.  In the
    first the control-arm predictions are [1,1,1,1], the treated-arm
    predictions [2,2,2,2] and the propensity predictions all 1/2; in the
    second both regression columns are [1,2,3,4] and the propensity
    predictions [0.1, 0.9, 0.1, 0.9]. *)
Definition py_example_two_repetitions : Py.DoubleMLIRM :=
  py_model [1; 2; 3; 4] [0; 1; 0; 1]
    (Some (py_array 4 2 [[1; 1]; [1; 2]; [1; 3]; [1; 4]]))
    (Some (py_array 4 2 [[2; 1]; [2; 2]; [2; 3]; [2; 4]]))
    (Some (py_array 4 2 [[1 / 2; 1 / 10]; [1 / 2; 9 / 10];
                         [1 / 2; 1 / 10]; [1 / 2; 9 / 10]])) 2.

Definition r_example_two_repetitions : Rl.DoubleML :=
  r_model 1 [1; 2; 3; 4] [0; 1; 0; 1]
    (Some (r_array 4 2 [[1; 1]; [1; 2]; [1; 3]; [1; 4]]))
    (Some (r_array 4 2 [[2; 1]; [2; 2]; [2; 3]; [2; 4]]))
    (Some (r_array 4 2 [[1 / 2; 1 / 10]; [1 / 2; 9 / 10];
                        [1 / 2; 1 / 10]; [1 / 2; 9 / 10]])) 2.

(** * Properties *)

(** ** Loops *)

Lemma for_loop_invariant {E S : Type} (P : nat -> S -> Prop)
  (body : nat -> S -> outcome E S) (k a : nat) (s : S) :
  P a s ->
  (forall i s, (a <= i < a + k)%nat -> P i s ->
               exists s', body i s = Return s' /\ P (Datatypes.S i) s') ->
  exists s', for_loop (seq a k) body s = Return s' /\ P (a + k)%nat s'.
Proof.
  revert a s. induction k as [|k IH]; intros a s H0 Hstep.
  - exists s. rewrite Nat.add_0_r. split; [reflexivity | exact H0].
  - destruct (Hstep a s ltac:(lia) H0) as (s1 & Hb & H1).
    destruct (IH (Datatypes.S a) s1 H1) as (s2 & Hl & H2).
    + intros i s' Hi. apply Hstep. lia.
    + exists s2. cbn [seq for_loop]. rewrite Hb. cbn [bind].
      split; [exact Hl|]. now replace (a + Datatypes.S k)%nat
        with (Datatypes.S a + k)%nat by lia.
Qed.

Lemma for_range_invariant {E S : Type} (P : nat -> S -> Prop)
  (body : nat -> S -> outcome E S) (n : nat) (s : S) :
  P 0%nat s ->
  (forall i s, (i < n)%nat -> P i s ->
               exists s', body i s = Return s' /\ P (Datatypes.S i) s') ->
  exists s', for_range n body s = Return s' /\ P n s'.
Proof.
  intros H0 Hstep.
  apply (for_loop_invariant P body n 0 s H0).
  intros i s' Hi. apply Hstep. lia.
Qed.

(** A loop whose first iteration does not return ends there. *)
Lemma for_range_first {E S : Type} (body : nat -> S -> outcome E S)
  (n : nat) (s : S) :
  (0 < n)%nat -> (forall s', body 0%nat s <> Return s') ->
  for_range n body s = body 0%nat s.
Proof.
  intros Hn Hb. destruct n as [|n]; [lia|].
  unfold for_range. cbn [seq for_loop].
  destruct (body 0%nat s) as [s'| e |] eqn:Hs; try reflexivity.
  now elim (Hb s').
Qed.

Lemma set_nth_length {A : Type} (i : nat) (v : A) (l : list A) :
  length (set_nth i v l) = length l.
Proof.
  revert i. induction l as [|x l IH]; intros [|i]; cbn; auto.
Qed.

Lemma set_nth_app {A : Type} (l1 : list A) (x v : A) (l2 : list A) :
  set_nth (length l1) v (l1 ++ x :: l2) = l1 ++ v :: l2.
Proof. induction l1 as [|a l1 IH]; cbn; [reflexivity | now rewrite IH]. Qed.

(** [for i in range(w): acc[i] = v(i)] on a vector of length [w] leaves
    the values in order. *)
Lemma fill_loop {E A : Type} (body : nat -> list A -> outcome E (list A))
  (v : nat -> A) (k a : nat) (rest : list A) :
  length rest = k ->
  (forall i acc, (a <= i < a + k)%nat -> length acc = (a + k)%nat ->
                 body i acc = Return (set_nth i (v i) acc)) ->
  for_loop (seq a k) body (map v (seq 0 a) ++ rest)
  = Return (map v (seq 0 (a + k))).
Proof.
  revert a rest. induction k as [|k IH]; intros a rest Hlen Hbody.
  - destruct rest; [|discriminate]. cbn. now rewrite app_nil_r, Nat.add_0_r.
  - destruct rest as [|x rest]; [discriminate|].
    cbn [seq for_loop]. rewrite Hbody.
    + cbn [bind].
      pose proof (set_nth_app (map v (seq 0 a)) x (v a) rest) as Hset.
      rewrite length_map, length_seq in Hset. rewrite Hset.
      replace (map v (seq 0 a) ++ v a :: rest)
        with (map v (seq 0 (Datatypes.S a)) ++ rest)
        by now rewrite seq_S, map_app, <- app_assoc.
      replace (a + Datatypes.S k)%nat with (Datatypes.S a + k)%nat by lia.
      apply IH; [now injection Hlen|].
      intros i acc Hi Hl. apply Hbody; lia.
    + lia.
    + rewrite length_app, length_map, length_seq. cbn [length] in *. lia.
Qed.

Lemma fill_range {E A : Type} (body : nat -> list A -> outcome E (list A))
  (v : nat -> A) (w : nat) (init : list A) :
  length init = w ->
  (forall i acc, (i < w)%nat -> length acc = w ->
                 body i acc = Return (set_nth i (v i) acc)) ->
  for_range w body init = Return (map v (seq 0 w)).
Proof.
  intros Hlen Hbody.
  apply (fill_loop body v w 0 init Hlen).
  intros i acc Hi Hl. apply Hbody; lia.
Qed.

(** ** Booleans on real numbers *)

Lemma Reqb_true (a b : R) : a = b -> Reqb a b = true.
Proof. intros H. unfold Reqb. destruct (Req_dec_T a b); [reflexivity | contradiction]. Qed.

Lemma Reqb_false (a b : R) : a <> b -> Reqb a b = false.
Proof. intros H. unfold Reqb. destruct (Req_dec_T a b); [contradiction | reflexivity]. Qed.

Lemma Reqb_eq (a b : R) : Reqb a b = true <-> a = b.
Proof.
  unfold Reqb. destruct (Req_dec_T a b); split; intros; auto; discriminate.
Qed.

Lemma Rleb_true (a b : R) : a <= b -> Rleb a b = true.
Proof. intros H. unfold Rleb. destruct (Rle_dec a b); [reflexivity | contradiction]. Qed.

Lemma Rleb_false (a b : R) : b < a -> Rleb a b = false.
Proof. intros H. unfold Rleb. destruct (Rle_dec a b); [lra | reflexivity]. Qed.

Lemma Rltb_true (a b : R) : a < b -> Rltb a b = true.
Proof. intros H. unfold Rltb. destruct (Rlt_dec a b); [reflexivity | contradiction]. Qed.

Lemma Rltb_false (a b : R) : b <= a -> Rltb a b = false.
Proof. intros H. unfold Rltb. destruct (Rlt_dec a b); [lra | reflexivity]. Qed.

Lemma binary_01 (x : R) : x = 0 \/ x = 1 <-> existsb (Reqb x) [0; 1] = true.
Proof.
  cbn. rewrite orb_false_r, orb_true_iff, !Reqb_eq. tauto.
Qed.

Lemma binary_isin (d : list R) : binary d <-> Py.isin_all d [0; 1] = true.
Proof.
  unfold binary, Py.isin_all. rewrite forallb_forall, Forall_forall.
  split; intros H x Hx; apply binary_01, H, Hx.
Qed.

Lemma binary_all_in (d : list R) : binary d <-> Rl.all_in d [0; 1] = true.
Proof.
  unfold binary, Rl.all_in. rewrite forallb_forall, Forall_forall.
  split; intros H x Hx; apply binary_01, H.
  - exact (proj1 (nodup_In Req_dec_T d x) Hx).
  - exact (proj2 (nodup_In Req_dec_T d x) Hx).
Qed.

Lemma binary_nth (d : list R) (j : nat) :
  binary d -> (j < length d)%nat -> nth j d 0 = 0 \/ nth j d 0 = 1.
Proof.
  intros Hb Hj. unfold binary in Hb. rewrite Forall_forall in Hb.
  apply Hb, nth_In, Hj.
Qed.

(** ** Vectors *)

Lemma map2_seq {A B C : Type} (f : A -> B -> C) (da : A)
  (l : list A) (g : nat -> B) (a : nat) :
  map2 f l (map g (seq a (length l)))
  = map (fun j => f (nth (j - a) l da) (g j)) (seq a (length l)).
Proof.
  revert a. induction l as [|x l IH]; intros a; [reflexivity|].
  cbn [length seq map map2]. rewrite Nat.sub_diag. cbn [nth]. f_equal.
  rewrite IH. apply map_ext_in. intros j Hj. apply in_seq in Hj.
  replace (j - a)%nat with (Datatypes.S (j - Datatypes.S a)) by lia.
  reflexivity.
Qed.

Lemma map2_seq0 {A B C : Type} (f : A -> B -> C) (da : A)
  (l : list A) (g : nat -> B) (n : nat) :
  length l = n ->
  map2 f l (map g (seq 0 n)) = map (fun j => f (nth j l da) (g j)) (seq 0 n).
Proof.
  intros <-. rewrite (map2_seq f da). apply map_ext. intros j.
  now rewrite Nat.sub_0_r.
Qed.

Lemma combine_map_seq {B C : Type} (g0 : nat -> B) (g1 : nat -> C) (a n : nat) :
  combine (map g0 (seq a n)) (map g1 (seq a n))
  = map (fun j => (g0 j, g1 j)) (seq a n).
Proof.
  revert a. induction n as [|n IH]; intros a; cbn; [reflexivity|].
  now rewrite IH.
Qed.

Lemma map2_length {A B C : Type} (f : A -> B -> C) (a : list A) (b : list B) :
  length a = length b -> length (map2 f a b) = length a.
Proof.
  revert b. induction a as [|x a IH]; intros [|y b] H; cbn in *;
    try discriminate; auto.
Qed.

(** The treated-arm prediction under treatment, the control-arm
    prediction otherwise, entry by entry. *)
Lemma blend_columns (d : list R) (f0 f1 : nat -> R) (n : nat) :
  length d = n ->
  blend d (map f0 (seq 0 n)) (map f1 (seq 0 n))
  = map (fun j => if Reqb (nth j d 0) 1 then f1 j else f0 j) (seq 0 n).
Proof.
  intros Hn. unfold blend. rewrite combine_map_seq.
  now rewrite (map2_seq0 _ 0 d _ n Hn).
Qed.

(** ** The Python accuracy helper, regression branch *)

Section PyRegression.

Variables (d : list R) (g0 g1 : Py.ndarray3) (n w : nat).
Hypothesis Hd : length d = n.
Hypothesis Hg0 : py_matrix (Some g0) n w.
Hypothesis Hg1 : py_matrix (Some g1) n w.

(** The value the two nested loops store at [j, i]. *)
Let pick (j i : nat) : R :=
  if Reqb (nth j d 0) 0 then Py.item3 g0 j i 0 else Py.item3 g1 j i 0.

Lemma py_getitem_d (j : nat) :
  (j < n)%nat -> Py.getitem d j = Return (nth j d 0).
Proof.
  intros Hj. unfold Py.getitem.
  rewrite (nth_error_nth' d 0) by lia. reflexivity.
Qed.

Lemma py_getitem_ji (g : Py.ndarray3) (j i : nat) :
  py_matrix (Some g) n w -> (j < n)%nat -> (i < w)%nat ->
  Py.getitem_ji (Some g) j i = Return [Py.item3 g j i 0].
Proof.
  intros (H0 & H1 & H2) Hj Hi. unfold Py.getitem_ji.
  rewrite H0, H1, H2.
  rewrite (proj2 (Nat.ltb_lt j n) Hj), (proj2 (Nat.ltb_lt i w) Hi).
  reflexivity.
Qed.

Lemma py_export_loop :
  exists a,
    for_range w (fun i a =>
      for_range n (fun j a =>
        dj <- Py.getitem d j ;;
        if Reqb dj 0 then
          v <- Py.getitem_ji (Some g0) j i ;; Py.setitem_ji a j i v
        else
          v <- Py.getitem_ji (Some g1) j i ;; Py.setitem_ji a j i v) a)
      (Py.zeros2 n w) = Return a
    /\ Py.rows a = n /\ Py.cols a = w
    /\ forall j i, (j < n)%nat -> (i < w)%nat -> Py.item2 a j i = pick j i.
Proof.
  set (P := fun (i : nat) (a : Py.ndarray2) =>
    Py.rows a = n /\ Py.cols a = w /\
    forall j i', (j < n)%nat -> (i' < i)%nat -> Py.item2 a j i' = pick j i').
  destruct (for_range_invariant (E := Py.exn) P
    (fun i a =>
      for_range n (fun j a =>
        dj <- Py.getitem d j ;;
        if Reqb dj 0 then
          v <- Py.getitem_ji (Some g0) j i ;; Py.setitem_ji a j i v
        else
          v <- Py.getitem_ji (Some g1) j i ;; Py.setitem_ji a j i v) a)
    w (Py.zeros2 n w)) as (a & Ha & Hr & Hc & Hitem).
  - repeat split. intros; lia.
  - intros i a Hi (Hr & Hc & Hdone).
    set (Q := fun (j : nat) (a : Py.ndarray2) =>
      Py.rows a = n /\ Py.cols a = w /\
      (forall j' i', (j' < n)%nat -> (i' < i)%nat ->
                     Py.item2 a j' i' = pick j' i') /\
      (forall j', (j' < j)%nat -> Py.item2 a j' i = pick j' i)).
    destruct (for_range_invariant (E := Py.exn) Q
      (fun j a =>
        dj <- Py.getitem d j ;;
        if Reqb dj 0 then
          v <- Py.getitem_ji (Some g0) j i ;; Py.setitem_ji a j i v
        else
          v <- Py.getitem_ji (Some g1) j i ;; Py.setitem_ji a j i v)
      n a) as (a' & Ha' & Hr' & Hc' & Hold & Hnew).
    + repeat split; auto. intros; lia.
    + intros j b Hj (Hrb & Hcb & Hold & Hnew).
      rewrite (py_getitem_d j Hj). cbn [bind].
      exists {| Py.rows := Py.rows b; Py.cols := Py.cols b;
                Py.item2 := fun j' i' =>
                  if (j' =? j)%nat && (i' =? i)%nat then pick j i
                  else Py.item2 b j' i' |}.
      split.
      * unfold pick.
        destruct (Reqb (nth j d 0) 0);
          rewrite py_getitem_ji by assumption; cbn [bind];
          unfold Py.setitem_ji; rewrite Hrb, Hcb;
          rewrite (proj2 (Nat.ltb_lt j n) Hj), (proj2 (Nat.ltb_lt i w) Hi);
          reflexivity.
      * repeat split; cbn [Py.rows Py.cols Py.item2]; auto.
        -- intros j' i' Hj' Hi'.
           replace (i' =? i)%nat with false
             by (symmetry; apply Nat.eqb_neq; lia).
           rewrite andb_false_r. now apply Hold.
        -- intros j' Hj'. rewrite Nat.eqb_refl, andb_true_r.
           destruct (Nat.eqb_spec j' j) as [->|Hne]; [reflexivity|].
           apply Hnew. lia.
    + exists a'. split; [exact Ha'|]. repeat split; auto.
      intros j i' Hj Hi'.
      destruct (Nat.eq_dec i' i) as [->|Hne]; [now apply Hnew|].
      apply Hold; [assumption | lia].
  - exists a. repeat split; auto.
Qed.

End PyRegression.

Lemma py_regression_result (M : Py.DoubleMLIRM) (n : nat) :
  let y := Py.y (Py._dml_data M) in
  let d := Py.d (Py._dml_data M) in
  let g0 := Py.predictions M "ml_g0" in
  let g1 := Py.predictions M "ml_g1" in
  length y = n -> length d = n -> (0 < n)%nat -> binary d ->
  py_matrix g0 n (Py.n_rep M) -> py_matrix g1 n (Py.n_rep M) ->
  Py.pred_acc_irm M false
  = Return (map (fun i => rmse_of y (blend d (py_col g0 i) (py_col g1 i)))
                (seq 0 (Py.n_rep M))).
Proof.
  intros y d g0 g1 Hy Hd Hn Hb Hg0 Hg1.
  unfold Py.pred_acc_irm. fold y d g0 g1.
  destruct g0 as [a0|] eqn:E0; [|contradiction].
  destruct g1 as [a1|] eqn:E1; [|contradiction].
  pose proof Hg0 as (H00 & H01 & H02). pose proof Hg1 as (H10 & H11 & H12).
  cbn [Py.shape_0 bind]. rewrite H00.
  rewrite (proj1 (binary_isin d) Hb). cbn [negb].
  destruct (py_export_loop d a0 a1 n (Py.n_rep M) Hd Hg0 Hg1)
    as (a & Ha & Hr & Hc & Hitem).
  rewrite Ha. cbn [bind].
  apply fill_range.
  - unfold Py.zeros1. apply repeat_length.
  - intros i acc Hi Hacc.
    unfold Py.column2. rewrite Hc, (proj2 (Nat.ltb_lt _ _) Hi). cbn [bind].
    unfold Py.mean_squared_error.
    rewrite length_map, length_seq, Hr, Hy, Nat.eqb_refl,
      (proj2 (Nat.ltb_lt _ _) Hn).
    cbn [andb bind]. unfold Py.setitem.
    rewrite Hacc, (proj2 (Nat.ltb_lt _ _) Hi).
    do 2 f_equal. unfold rmse_of. do 3 f_equal.
    cbn [py_col]. rewrite H00, H10, blend_columns by assumption.
    apply map_ext_in. intros j Hj. apply in_seq in Hj.
    rewrite Hitem by lia.
    destruct (binary_nth d j Hb ltac:(lia)) as [-> | ->].
    + rewrite (Reqb_true 0 0), (Reqb_false 0 1); [reflexivity | lra | reflexivity].
    + rewrite (Reqb_false 1 0), (Reqb_true 1 1); [reflexivity | reflexivity | lra].
Qed.

(** ** The R accuracy helper, regression branch *)

Lemma r_first_slice (a : option Rl.array3) (n w : nat) :
  (0 < n)%nat -> (0 < w)%nat -> r_matrix a n w ->
  exists M, Rl.first_slice a w = Return M /\ Rl.nrow M = n /\ Rl.ncol M = w
            /\ forall i, Rl.mcol M i = r_col a i.
Proof.
  intros Hn Hw Ha. destruct a as [a|]; [|contradiction].
  destruct Ha as (H1 & H2 & H3). unfold Rl.first_slice.
  rewrite H1, H2, Nat.eqb_refl.
  rewrite (proj2 (Nat.ltb_lt _ _) Hn), (proj2 (Nat.ltb_lt _ _) Hw),
    (proj2 (Nat.ltb_lt _ _) H3).
  cbn [andb]. eexists. split; [reflexivity|].
  repeat split. intros i. unfold Rl.mcol, r_col. cbn. now rewrite H1.
Qed.

Lemma r_apply_columns (m : Rl.matrix) (f : list R -> Rl.result R)
  (v : nat -> R) (js : list nat) :
  (forall j, In j js -> f (Rl.mcol m j) = Return (v j)) ->
  Rl.apply_columns m f js = Return (map v js).
Proof.
  induction js as [|j js IH]; intros H; [reflexivity|].
  cbn [Rl.apply_columns map]. rewrite (H j (or_introl eq_refl)). cbn [bind].
  rewrite IH by (intros j' Hj'; apply H; now right). reflexivity.
Qed.

Lemma nth_map_in {A B : Type} (f : A -> B) (l : list A) (j : nat) (a : A) (b : B) :
  (j < length l)%nat -> nth j (map f l) b = f (nth j l a).
Proof.
  intros Hj. rewrite (nth_indep _ b (f a)) by now rewrite length_map.
  apply map_nth.
Qed.

Lemma r_regression_result (obj : Rl.DoubleML) (n : nat) :
  let y := r_y obj in
  let d := r_d obj in
  let g0 := Rl.predictions obj "ml_g0" in
  let g1 := Rl.predictions obj "ml_g1" in
  let m := Rl.predictions obj "ml_m" in
  (Rl.n_treat (Rl.data obj) <= 1)%nat ->
  length y = n -> length d = n -> (0 < n)%nat -> (0 < Rl.n_rep obj)%nat ->
  binary d ->
  r_matrix g0 n (Rl.n_rep obj) -> r_matrix g1 n (Rl.n_rep obj) ->
  r_matrix m n (Rl.n_rep obj) ->
  Rl.pred_acc_irm obj false
  = Return (map (fun i => Some (rmse_of y (blend d (r_col g0 i) (r_col g1 i))))
                (seq 0 (Rl.n_rep obj))).
Proof.
  intros y d g0 g1 m Ht Hy Hd Hn Hw Hb Hg0 Hg1 Hm.
  unfold Rl.pred_acc_irm. fold y d g0 g1 m.
  rewrite (proj2 (Nat.ltb_ge _ _) Ht).
  destruct (r_first_slice g0 n _ Hn Hw Hg0) as (M0 & E0 & R0 & C0 & K0).
  destruct (r_first_slice g1 n _ Hn Hw Hg1) as (M1 & E1 & R1 & C1 & K1).
  destruct (r_first_slice m n _ Hn Hw Hm) as (Mm & Em & Rm & Cm & Km).
  fold (r_y obj) (r_d obj). fold y d.
  rewrite E0, E1, Em. cbn [bind].
  rewrite (proj1 (binary_all_in d) Hb). cbn [negb].
  unfold Rl.vec_times_matrix. rewrite Hd, R1, Nat.eqb_refl. cbn [bind].
  rewrite length_map, Hd, R0, Nat.eqb_refl. cbn [bind].
  unfold Rl.matrix_plus. cbn [Rl.nrow Rl.ncol].
  rewrite C0, C1, !Nat.eqb_refl. cbn [andb bind Rl.ncol].
  rewrite (r_apply_columns _ _
    (fun i => rmse_of y (blend d (r_col g0 i) (r_col g1 i)))).
  - cbn [bind]. now rewrite map_map.
  - intros i Hi. apply in_seq in Hi. unfold Rl.rmse, Rl.mcol.
    cbn [Rl.nrow Rl.entry]. rewrite length_map, length_seq, Hy, Nat.eqb_refl.
    rewrite (proj2 (Nat.ltb_lt _ _) Hn). cbn [andb]. f_equal.
    unfold rmse_of. do 3 f_equal.
    rewrite <- K0, <- K1. unfold Rl.mcol. rewrite R0, R1.
    rewrite blend_columns by assumption.
    apply map_ext_in. intros j Hj. apply in_seq in Hj.
    rewrite (nth_map_in _ d j 0 0) by lia.
    destruct (binary_nth d j Hb ltac:(lia)) as [-> | ->].
    + rewrite (Reqb_false 0 1) by lra. ring.
    + rewrite (Reqb_true 1 1) by reflexivity. ring.
Qed.

(** ** Regression mode *)

Lemma binary_cons (x : R) (d : list R) :
  x = 0 \/ x = 1 -> binary d -> binary (x :: d).
Proof. intros Hx Hd. now constructor. Qed.

Lemma binary_nil : binary [].
Proof. constructor. Qed.

Create HintDb binary.
#[local] Hint Resolve binary_cons binary_nil : binary.

Ltac binary := auto 10 with binary.

(** Decide the comparisons of concrete numbers left in the goal. *)
Ltac decide_reals :=
  repeat match goal with
  | |- context [Reqb ?a ?b] =>
      first [ rewrite (Reqb_true a b) by lra
            | rewrite (Reqb_false a b) by lra ]
  | |- context [Rleb ?a ?b] =>
      first [ rewrite (Rleb_true a b) by lra
            | rewrite (Rleb_false a b) by lra ]
  | |- context [Rltb ?a ?b] =>
      first [ rewrite (Rltb_true a b) by lra
            | rewrite (Rltb_false a b) by lra ]
  end.

Lemma example_rmse :
  rmse_of [1; 2; 3; 4] (blend [0; 1; 0; 1] [1; 1; 1; 1] [2; 2; 2; 2]) = sqrt 2.
Proof.
  unfold rmse_of, blend. cbn [combine map2 fst snd]. decide_reals.
  cbn [map2]. f_equal. unfold mean, sum_list. cbn [fold_right length INR].
  field.
Qed.

(** C1.  Regression mode returns, for each repetition, the root-mean-squared
    error of the outcomes against the blend of the two prediction columns
    (treated-arm prediction where the treatment is 1, control-arm prediction
    otherwise), in the Python and in the R helper; on the worked example the
    result is [sqrt 2]. *)
Theorem C1_regression_rmse :
  (forall (M : Py.DoubleMLIRM) (n : nat),
      let y := Py.y (Py._dml_data M) in
      let d := Py.d (Py._dml_data M) in
      let g0 := Py.predictions M "ml_g0" in
      let g1 := Py.predictions M "ml_g1" in
      length y = n -> length d = n -> (0 < n)%nat -> binary d ->
      py_matrix g0 n (Py.n_rep M) -> py_matrix g1 n (Py.n_rep M) ->
      Py.pred_acc_irm M false
      = Return (map (fun i => rmse_of y (blend d (py_col g0 i) (py_col g1 i)))
                    (seq 0 (Py.n_rep M))))
  /\ (forall (obj : Rl.DoubleML) (n : nat),
      let y := r_y obj in
      let d := r_d obj in
      let g0 := Rl.predictions obj "ml_g0" in
      let g1 := Rl.predictions obj "ml_g1" in
      let m := Rl.predictions obj "ml_m" in
      (Rl.n_treat (Rl.data obj) <= 1)%nat ->
      length y = n -> length d = n -> (0 < n)%nat ->
      (0 < Rl.n_rep obj)%nat -> binary d ->
      r_matrix g0 n (Rl.n_rep obj) -> r_matrix g1 n (Rl.n_rep obj) ->
      r_matrix m n (Rl.n_rep obj) ->
      Rl.pred_acc_irm obj false
      = Return (map (fun i =>
                       Some (rmse_of y (blend d (r_col g0 i) (r_col g1 i))))
                    (seq 0 (Rl.n_rep obj))))
  /\ Py.pred_acc_irm py_example_regression false = Return [sqrt 2]
  /\ (forall m, r_matrix m 4 1 ->
      Rl.pred_acc_irm (r_example_regression m) false = Return [Some (sqrt 2)]).
Proof.
  split; [exact py_regression_result|].
  split; [exact r_regression_result|].
  split.
  - rewrite (py_regression_result py_example_regression 4);
      try reflexivity; try lia; try (cbn; binary); try (cbn; auto).
    cbn [seq map Py.n_rep py_example_regression py_model].
    f_equal. f_equal. apply example_rmse.
  - intros m Hm.
    rewrite (r_regression_result (r_example_regression m) 4);
      try reflexivity; try lia; try (cbn; binary); try (cbn; auto with arith).
    cbn [seq map Rl.n_rep r_example_regression r_model].
    do 3 f_equal. apply example_rmse.
Qed.

(** ** Propensity mode *)

Lemma flat_map_singleton {A B : Type} (f : A -> B) (l : list A) :
  flat_map (fun x => [f x]) l = map f l.
Proof. induction l as [|x l IH]; cbn; [reflexivity | now rewrite IH]. Qed.

Lemma py_ravel_column (a : Py.ndarray2) :
  Py.cols a = 1%nat ->
  Py.ravel a = map (fun j => Py.item2 a j 0) (seq 0 (Py.rows a)).
Proof.
  intros H. unfold Py.ravel. rewrite H. cbn [seq map].
  apply flat_map_singleton.
Qed.

Lemma py_column3 (m : option Py.ndarray3) (n w i : nat) :
  py_matrix m n w -> (i < w)%nat ->
  exists s, Py.column3 m i = Return s /\ Py.rows s = n /\ Py.cols s = 1%nat
            /\ Py.ravel s = py_col m i.
Proof.
  intros Hm Hi. destruct m as [a|]; [|contradiction].
  destruct Hm as (H0 & H1 & H2). unfold Py.column3.
  rewrite H1, (proj2 (Nat.ltb_lt _ _) Hi).
  eexists. split; [reflexivity|]. cbn [Py.rows Py.cols].
  repeat split; auto.
  rewrite py_ravel_column by exact H2. reflexivity.
Qed.

Lemma py_propensity_result (M : Py.DoubleMLIRM) (n : nat) :
  let d := Py.d (Py._dml_data M) in
  let m := Py.predictions M "ml_m" in
  Py.predictions M "ml_g0" <> None ->
  length d = n -> (0 < n)%nat -> binary d ->
  py_matrix m n (Py.n_rep M) ->
  Py.pred_acc_irm M true
  = Return (map (fun i => logloss_of 0.025 d (py_col m i))
                (seq 0 (Py.n_rep M))).
Proof.
  intros d m Hg0 Hd Hn Hb Hm.
  unfold Py.pred_acc_irm. fold d m.
  destruct (Py.predictions M "ml_g0") as [a0|]; [|congruence].
  cbn [Py.shape_0 bind].
  rewrite (proj1 (binary_isin d) Hb). cbn [negb].
  apply fill_range.
  - unfold Py.zeros1. apply repeat_length.
  - intros i acc Hi Hacc.
    destruct (py_column3 m n _ i Hm Hi) as (s & Es & Rs & Cs & Vs).
    rewrite Es. cbn [bind]. unfold Py.log_loss.
    rewrite Cs, Rs, Hd, !Nat.eqb_refl, (proj2 (Nat.ltb_lt _ _) Hn).
    cbn [andb bind]. unfold Py.setitem.
    rewrite Hacc, (proj2 (Nat.ltb_lt _ _) Hi). rewrite Vs. reflexivity.
Qed.

(** Clamping the complement is the complement of clamping. *)
Lemma clip_complement (p eps : R) :
  eps <= 1 / 2 -> clip (1 - p) eps (1 - eps) = 1 - clip p eps (1 - eps).
Proof.
  intros He. unfold clip.
  unfold Rmin; destruct (Rle_dec (1 - p) (1 - eps)), (Rle_dec p (1 - eps));
    unfold Rmax;
    repeat match goal with
           | |- context [Rle_dec ?a ?b] => destruct (Rle_dec a b)
           end; lra.
Qed.

Lemma default_eps_small : 0 < Rl.logloss_default_eps <= 1 / 2.
Proof.
  unfold Rl.logloss_default_eps.
  assert (H : 2 <= 10 ^ 15).
  { change (10 ^ 15) with (10 * 10 ^ 14).
    pose proof (pow_R1_Rle 10 14 ltac:(lra)). lra. }
  split.
  - apply Rinv_0_lt_compat. lra.
  - replace (1 / 2) with (/ 2) by lra.
    apply Rinv_le_contravar; lra.
Qed.

Lemma r_propensity_result (obj : Rl.DoubleML) (n : nat) :
  let d := r_d obj in
  let g0 := Rl.predictions obj "ml_g0" in
  let g1 := Rl.predictions obj "ml_g1" in
  let m := Rl.predictions obj "ml_m" in
  (Rl.n_treat (Rl.data obj) <= 1)%nat ->
  length d = n -> (0 < n)%nat -> (0 < Rl.n_rep obj)%nat -> binary d ->
  r_matrix g0 n (Rl.n_rep obj) -> r_matrix g1 n (Rl.n_rep obj) ->
  r_matrix m n (Rl.n_rep obj) ->
  Rl.pred_acc_irm obj true
  = Return (map (fun i =>
                   Some (logloss_of Rl.logloss_default_eps d (r_col m i)))
                (seq 0 (Rl.n_rep obj))).
Proof.
  intros d g0 g1 m Ht Hd Hn Hw Hb Hg0 Hg1 Hm.
  unfold Rl.pred_acc_irm. fold g0 g1 m.
  rewrite (proj2 (Nat.ltb_ge _ _) Ht).
  destruct (r_first_slice g0 n _ Hn Hw Hg0) as (M0 & E0 & R0 & C0 & K0).
  destruct (r_first_slice g1 n _ Hn Hw Hg1) as (M1 & E1 & R1 & C1 & K1).
  destruct (r_first_slice m n _ Hn Hw Hm) as (Mm & Em & Rm & Cm & Km).
  fold (r_d obj). fold d.
  rewrite E0, E1, Em. cbn [bind].
  rewrite (proj1 (binary_all_in d) Hb). cbn [negb].
  apply fill_range.
  - apply repeat_length.
  - intros i acc Hi Hacc. unfold Rl.logloss.
    rewrite length_combine, length_map, Nat.min_id.
    unfold Rl.mcol at 1. rewrite length_map, length_seq, Rm, Hd, Nat.eqb_refl.
    rewrite (proj2 (Nat.ltb_lt _ _) Hn). cbn [andb bind].
    do 3 f_equal. unfold logloss_of. do 2 f_equal.
    rewrite Km. unfold r_col. destruct m as [a|]; [|contradiction].
    destruct Hm as (H1 & H2 & H3). rewrite H1.
    rewrite map_map, combine_map_seq.
    rewrite !(map2_seq0 _ 0 d _ n Hd).
    apply map_ext_in. intros j Hj. apply in_seq in Hj. cbn [fst snd].
    destruct (binary_nth d j Hb ltac:(lia)) as [-> | ->].
    + rewrite (Reqb_true 0 0) by reflexivity.
      rewrite clip_complement by apply default_eps_small. ring.
    + rewrite (Reqb_false 1 0) by lra. ring.
Qed.

(** ** Bounds on logarithms *)

Lemma ln_below_line (s : R) : 0 < s -> s <> 1 -> ln s < s - 1.
Proof.
  intros Hs Hne.
  assert (Hln : ln s <> 0).
  { intros H0. apply Hne. rewrite <- (exp_ln s Hs), H0. apply exp_0. }
  pose proof (exp_ineq1 (ln s) Hln) as H. rewrite (exp_ln s Hs) in H. lra.
Qed.

Lemma ln_monotone (a b : R) : 0 < a -> a <= b -> ln a <= ln b.
Proof.
  intros Ha [Hlt | ->]; [|lra].
  left. now apply ln_increasing.
Qed.

Lemma ln_below_power (x s : R) (k : nat) :
  0 < x -> 0 < s -> s <> 1 -> (0 < k)%nat -> x <= s ^ k ->
  ln x < INR k * (s - 1).
Proof.
  intros Hx Hs Hne Hk Hle.
  apply Rle_lt_trans with (ln (s ^ k)).
  - now apply ln_monotone.
  - rewrite (ln_pow s Hs k). apply Rmult_lt_compat_l.
    + now apply lt_0_INR.
    + now apply ln_below_line.
Qed.

Lemma example_logloss_bounds : 105 / 1000 < - ln (9 / 10) < 106 / 1000.
Proof.
  split.
  - assert (H : ln (9 / 10) < INR 16 * (3179 / 3200 - 1)).
    { apply ln_below_power; try lra; try lia. }
    cbn [INR] in H. lra.
  - assert (H : ln (10 / 9) < INR 16 * (8053 / 8000 - 1)).
    { apply ln_below_power; try lra; try lia. }
    replace (9 / 10) with (/ (10 / 9)) by lra.
    rewrite ln_Rinv by lra. cbn [INR] in H. lra.
Qed.

(** Resolve the clamping of concrete numbers. *)
Ltac decide_clip :=
  unfold clip;
  repeat first [ rewrite Rmin_left by lra | rewrite Rmin_right by lra
               | rewrite Rmax_left by lra | rewrite Rmax_right by lra ].

Lemma default_eps_tiny : 0 < Rl.logloss_default_eps <= 1 / 100.
Proof.
  unfold Rl.logloss_default_eps.
  assert (H : 100 <= 10 ^ 15).
  { change (10 ^ 15) with (10 * (10 * 10 ^ 13)).
    pose proof (pow_R1_Rle 10 13 ltac:(lra)). lra. }
  split.
  - apply Rinv_0_lt_compat. lra.
  - replace (1 / 100) with (/ 100) by lra.
    apply Rinv_le_contravar; lra.
Qed.

(** Log-loss of one control and one treated observation whose
    probabilities the clamping leaves alone. *)
Lemma logloss_pair (eps p q : R) :
  eps <= p <= 1 - eps -> eps <= q <= 1 - eps ->
  logloss_of eps [0; 1] [p; q] = - ((ln (1 - p) + ln q) / 2).
Proof.
  intros Hp Hq. unfold logloss_of, mean, sum_list.
  cbn [map2 fold_right length INR]. decide_clip. field.
Qed.

Lemma example_logloss (eps : R) :
  eps <= 1 / 10 -> logloss_of eps [0; 1] [1 / 10; 9 / 10] = - ln (9 / 10).
Proof.
  intros He. rewrite logloss_pair by lra.
  replace (1 - 1 / 10) with (9 / 10) by lra. field.
Qed.

Lemma extreme_logloss_clamped :
  logloss_of 0.025 [0; 1] [1 / 100; 99 / 100] = - ln (975 / 1000).
Proof.
  unfold logloss_of, mean, sum_list.
  cbn [map2 fold_right length INR]. decide_clip.
  replace (1 - 0.025) with (975 / 1000) by lra. field.
Qed.

Lemma extreme_logloss_default :
  logloss_of Rl.logloss_default_eps [0; 1] [1 / 100; 99 / 100]
  = - ln (99 / 100).
Proof.
  pose proof default_eps_tiny as He.
  rewrite logloss_pair by lra.
  replace (1 - 1 / 100) with (99 / 100) by lra. field.
Qed.

(** C2, counterexample.  On treatments [0,1] and predictions [0.01, 0.99]
    the R helper does not return the log-loss clamped at 0.025: it passes
    no bound to the metric library. *)
Lemma C2_counterexample :
  Rl.pred_acc_irm r_example_extreme true
  <> Return [Some (logloss_of 0.025 [0; 1] [1 / 100; 99 / 100])].
Proof.
  rewrite (r_propensity_result r_example_extreme 2);
    try reflexivity; try lia; try (cbn; binary); try (cbn; auto with arith).
  cbn [seq map Rl.n_rep r_example_extreme r_model].
  change (r_d r_example_extreme) with [0; 1].
  change (r_col (Rl.predictions r_example_extreme "ml_m") 0)
    with [1 / 100; 99 / 100].
  rewrite extreme_logloss_default, extreme_logloss_clamped.
  intros H. injection H as H.
  assert (Hlt : ln (975 / 1000) < ln (99 / 100))
    by (apply ln_increasing; lra).
  lra.
Qed.

(** C2 as amended.  Propensity mode returns, for each repetition, the
    binary log-loss of that repetition's column; the Python helper clamps
    the probabilities with the fixed bound 0.025, the R helper with the
    default bound of its metric library.  On the worked example both return
    [- ln 0.9], which lies between 0.105 and 0.106. *)
Theorem C2_propensity_logloss :
  (forall (M : Py.DoubleMLIRM) (n : nat),
      let d := Py.d (Py._dml_data M) in
      let m := Py.predictions M "ml_m" in
      Py.predictions M "ml_g0" <> None ->
      length d = n -> (0 < n)%nat -> binary d ->
      py_matrix m n (Py.n_rep M) ->
      Py.pred_acc_irm M true
      = Return (map (fun i => logloss_of 0.025 d (py_col m i))
                    (seq 0 (Py.n_rep M))))
  /\ (forall (obj : Rl.DoubleML) (n : nat),
      let d := r_d obj in
      let g0 := Rl.predictions obj "ml_g0" in
      let g1 := Rl.predictions obj "ml_g1" in
      let m := Rl.predictions obj "ml_m" in
      (Rl.n_treat (Rl.data obj) <= 1)%nat ->
      length d = n -> (0 < n)%nat -> (0 < Rl.n_rep obj)%nat -> binary d ->
      r_matrix g0 n (Rl.n_rep obj) -> r_matrix g1 n (Rl.n_rep obj) ->
      r_matrix m n (Rl.n_rep obj) ->
      Rl.pred_acc_irm obj true
      = Return (map (fun i =>
                       Some (logloss_of Rl.logloss_default_eps d (r_col m i)))
                    (seq 0 (Rl.n_rep obj))))
  /\ Py.pred_acc_irm py_example_propensity true = Return [- ln (9 / 10)]
  /\ Rl.pred_acc_irm r_example_propensity true = Return [Some (- ln (9 / 10))]
  /\ 105 / 1000 < - ln (9 / 10) < 106 / 1000.
Proof.
  split; [exact py_propensity_result|].
  split; [exact r_propensity_result|].
  split; [|split; [|exact example_logloss_bounds]].
  - rewrite (py_propensity_result py_example_propensity 2);
      try reflexivity; try lia; try (cbn; binary); try (cbn; auto);
      try discriminate.
    cbn [seq map Py.n_rep py_example_propensity py_model].
    change (Py.d (Py._dml_data py_example_propensity)) with [0; 1].
    change (py_col (Py.predictions py_example_propensity "ml_m") 0)
      with [1 / 10; 9 / 10].
    rewrite example_logloss by lra. reflexivity.
  - rewrite (r_propensity_result r_example_propensity 2);
      try reflexivity; try lia; try (cbn; binary); try (cbn; auto with arith).
    cbn [seq map Rl.n_rep r_example_propensity r_model].
    change (r_d r_example_propensity) with [0; 1].
    change (r_col (Rl.predictions r_example_propensity "ml_m") 0)
      with [1 / 10; 9 / 10].
    pose proof default_eps_tiny.
    rewrite example_logloss by lra. reflexivity.
Qed.

(** ** Treatments that are not binary *)

Lemma not_binary_isin (d : list R) :
  ~ binary d -> Py.isin_all d [0; 1] = false.
Proof.
  intros H. destruct (Py.isin_all d [0; 1]) eqn:E; [|reflexivity].
  elim H. now apply binary_isin.
Qed.

Lemma not_binary_all_in (d : list R) :
  ~ binary d -> Rl.all_in d [0; 1] = false.
Proof.
  intros H. destruct (Rl.all_in d [0; 1]) eqn:E; [|reflexivity].
  elim H. now apply binary_all_in.
Qed.

Lemma not_binary_with_2 (x : R) : ~ binary [x; 2].
Proof.
  intros H. inversion H as [|a l _ H2]; subst.
  inversion H2 as [|b l' [Hb | Hb] _]; lra.
Qed.

(** C3.  A treatment vector with a value other than 0 and 1 makes the
    helper raise its "Treatment must be a binary variable." error, in
    either mode, and no accuracy is computed.  (The Python helper first
    reads the shape of the stored control-arm predictions; the R helper
    first passes its single-treatment guard and slices the stored
    predictions.) *)
Theorem C3_nonbinary_treatment_rejected :
  (forall (M : Py.DoubleMLIRM) (prop : bool),
      Py.predictions M "ml_g0" <> None ->
      ~ binary (Py.d (Py._dml_data M)) ->
      Py.pred_acc_irm M prop
      = Raise (Py.ValueError "Treatment must be a binary variable."))
  /\ (forall (obj : Rl.DoubleML) (prop : bool) (n : nat),
      (Rl.n_treat (Rl.data obj) <= 1)%nat ->
      (0 < n)%nat -> (0 < Rl.n_rep obj)%nat ->
      r_matrix (Rl.predictions obj "ml_g0") n (Rl.n_rep obj) ->
      r_matrix (Rl.predictions obj "ml_g1") n (Rl.n_rep obj) ->
      r_matrix (Rl.predictions obj "ml_m") n (Rl.n_rep obj) ->
      ~ binary (r_d obj) ->
      Rl.pred_acc_irm obj prop
      = Raise (Rl.simpleError "Treatment must be a binary variable."))
  /\ (forall prop, Py.pred_acc_irm py_example_nonbinary prop
      = Raise (Py.ValueError "Treatment must be a binary variable."))
  /\ (forall prop, Rl.pred_acc_irm r_example_nonbinary prop
      = Raise (Rl.simpleError "Treatment must be a binary variable.")).
Proof.
  assert (HPy : forall (M : Py.DoubleMLIRM) (prop : bool),
      Py.predictions M "ml_g0" <> None ->
      ~ binary (Py.d (Py._dml_data M)) ->
      Py.pred_acc_irm M prop
      = Raise (Py.ValueError "Treatment must be a binary variable.")).
  { intros M prop Hg0 Hd. unfold Py.pred_acc_irm.
    destruct (Py.predictions M "ml_g0") as [a0|]; [|congruence].
    cbn [Py.shape_0 bind]. now rewrite (not_binary_isin _ Hd). }
  assert (HR : forall (obj : Rl.DoubleML) (prop : bool) (n : nat),
      (Rl.n_treat (Rl.data obj) <= 1)%nat ->
      (0 < n)%nat -> (0 < Rl.n_rep obj)%nat ->
      r_matrix (Rl.predictions obj "ml_g0") n (Rl.n_rep obj) ->
      r_matrix (Rl.predictions obj "ml_g1") n (Rl.n_rep obj) ->
      r_matrix (Rl.predictions obj "ml_m") n (Rl.n_rep obj) ->
      ~ binary (r_d obj) ->
      Rl.pred_acc_irm obj prop
      = Raise (Rl.simpleError "Treatment must be a binary variable.")).
  { intros obj prop n Ht Hn Hw Hg0 Hg1 Hm Hd. unfold Rl.pred_acc_irm.
    rewrite (proj2 (Nat.ltb_ge _ _) Ht).
    destruct (r_first_slice _ n _ Hn Hw Hg0) as (M0 & E0 & _).
    destruct (r_first_slice _ n _ Hn Hw Hg1) as (M1 & E1 & _).
    destruct (r_first_slice _ n _ Hn Hw Hm) as (Mm & Em & _).
    rewrite E0, E1, Em. cbn [bind]. fold (r_d obj).
    now rewrite (not_binary_all_in _ Hd). }
  split; [exact HPy|]. split; [exact HR|]. split.
  - intros prop. apply HPy; [discriminate | apply not_binary_with_2].
  - intros prop. apply (HR _ prop 2%nat); try (cbn; lia);
      try (cbn; auto with arith).
    apply not_binary_with_2.
Qed.

(** ** More than one treatment variable *)

Lemma r_pred_acc_guard (obj : Rl.DoubleML) (prop : bool) :
  (1 < Rl.n_treat (Rl.data obj))%nat ->
  Rl.pred_acc_irm obj prop
  = Raise (Rl.simpleError "Number of treatment variable is > 1. Helper function for nuisance accuracy is only implemented for 1 treatment variable.").
Proof.
  intros H. unfold Rl.pred_acc_irm.
  now rewrite (proj2 (Nat.ltb_lt _ _) H).
Qed.

Lemma r_propscore_guard (obj : Rl.DoubleML) :
  (1 < Rl.n_treat (Rl.data obj))%nat ->
  Rl.rep_propscore_plot obj
  = Raise (Rl.simpleError "Number of treatment variable is > 1. Helper function for nuisance accuracy is only implemented for 1 treatment variable.").
Proof.
  intros H. unfold Rl.rep_propscore_plot.
  now rewrite (proj2 (Nat.ltb_lt _ _) H).
Qed.

(** With several treatment slices a column of the stored array no longer
    has one entry per observation, and reshaping it fails. *)
Lemma py_propscore_slices (M : Py.DoubleMLIRM) (m : Py.ndarray3) :
  Py.predictions M "ml_m" = Some m ->
  (1 < Py.shape2 m)%nat -> (0 < Py.shape0 m)%nat ->
  Py.rep_propscore_plot M
  = Raise (if (0 <? Py.shape1 m)%nat
           then Py.LibraryValueError else Py.IndexError).
Proof.
  intros Hm Ht Hh. unfold Py.rep_propscore_plot. rewrite Hm.
  cbn [Py.shape_0 bind].
  assert (Hfirst :
    (mi <- Py.column3 (Some m) 0 ;; Py.reshape mi (Py.shape0 m))
    = Raise (if (0 <? Py.shape1 m)%nat
             then Py.LibraryValueError else Py.IndexError)).
  { unfold Py.column3. destruct (0 <? Py.shape1 m)%nat; [|reflexivity].
    cbn [bind]. unfold Py.reshape. cbn [Py.rows Py.cols].
    replace (Py.shape0 m * Py.shape2 m =? Py.shape0 m)%nat with false;
      [reflexivity|].
    symmetry. apply Nat.eqb_neq. nia. }
  destruct (1 <? Py.n_rep M)%nat eqn:Hrep.
  - apply Nat.ltb_lt in Hrep. rewrite for_range_first.
    + unfold Py.column3 in *. destruct (0 <? Py.shape1 m)%nat;
        [|reflexivity].
      cbn [bind] in *. now rewrite Hfirst.
    + lia.
    + intros s'. unfold Py.column3 in *.
      destruct (0 <? Py.shape1 m)%nat; [|discriminate].
      cbn [bind] in *. rewrite Hfirst. discriminate.
  - unfold Py.column3 in *. destruct (0 <? Py.shape1 m)%nat;
      [|reflexivity].
    cbn [bind] in *. now rewrite Hfirst.
Qed.

(** C5.  With more than one treatment variable the propensity-score
    summarizer fails instead of producing histograms: the R helper stops at
    its guard, and the Python helper fails when it reshapes a column of the
    stored predictions, which then holds one entry per observation and
    treatment. *)
Theorem C5_summarizer_single_treatment :
  (forall obj : Rl.DoubleML,
      (1 < Rl.n_treat (Rl.data obj))%nat ->
      Rl.rep_propscore_plot obj
      = Raise (Rl.simpleError "Number of treatment variable is > 1. Helper function for nuisance accuracy is only implemented for 1 treatment variable."))
  /\ (forall (M : Py.DoubleMLIRM) (m : Py.ndarray3),
      Py.predictions M "ml_m" = Some m ->
      (1 < Py.shape2 m)%nat -> (0 < Py.shape0 m)%nat ->
      Py.rep_propscore_plot M
      = Raise (if (0 <? Py.shape1 m)%nat
               then Py.LibraryValueError else Py.IndexError))
  /\ Rl.rep_propscore_plot r_example_two_treatments
     = Raise (Rl.simpleError "Number of treatment variable is > 1. Helper function for nuisance accuracy is only implemented for 1 treatment variable.")
  /\ Py.rep_propscore_plot py_example_two_treatments
     = Raise Py.LibraryValueError.
Proof.
  split; [exact r_propscore_guard|].
  split; [exact py_propscore_slices|].
  split.
  - apply r_propscore_guard. cbn. lia.
  - rewrite (py_propscore_slices _ (py_constant 3 1 2 (1 / 2)));
      try reflexivity; cbn; lia.
Qed.

(** ** One value per repetition, in order *)

Lemma nth_error_map_seq {A : Type} (f : nat -> A) (w i : nat) :
  (i < w)%nat -> nth_error (map f (seq 0 w)) i = Some (f i).
Proof.
  intros Hi. rewrite nth_error_map, nth_error_seq.
  now rewrite (proj2 (Nat.ltb_lt _ _) Hi).
Qed.

Lemma py_pred_acc_valid (M : Py.DoubleMLIRM) (n : nat) (prop : bool) :
  py_valid M n ->
  Py.pred_acc_irm M prop
  = Return (map (fun i =>
              accuracy_of prop 0.025
                (Py.y (Py._dml_data M)) (Py.d (Py._dml_data M))
                (py_col (Py.predictions M "ml_g0") i)
                (py_col (Py.predictions M "ml_g1") i)
                (py_col (Py.predictions M "ml_m") i))
            (seq 0 (Py.n_rep M))).
Proof.
  intros (Hy & Hd & Hn & Hb & Hg0 & Hg1 & Hm). destruct prop.
  - apply (py_propensity_result M n); auto.
    destruct (Py.predictions M "ml_g0"); [discriminate | contradiction].
  - now apply (py_regression_result M n).
Qed.

Lemma r_pred_acc_valid (obj : Rl.DoubleML) (n : nat) (prop : bool) :
  r_valid obj n ->
  Rl.pred_acc_irm obj prop
  = Return (map (fun i =>
              Some (accuracy_of prop Rl.logloss_default_eps
                      (r_y obj) (r_d obj)
                      (r_col (Rl.predictions obj "ml_g0") i)
                      (r_col (Rl.predictions obj "ml_g1") i)
                      (r_col (Rl.predictions obj "ml_m") i)))
            (seq 0 (Rl.n_rep obj))).
Proof.
  intros (Ht & Hy & Hd & Hn & Hw & Hb & Hg0 & Hg1 & Hm). destruct prop.
  - now apply (r_propensity_result obj n).
  - now apply (r_regression_result obj n).
Qed.

(** C6.  On valid input with [r] repetitions the helper returns exactly [r]
    values, and the value at position [i] is the metric computed from
    column [i] of the prediction matrices (and the observed outcomes and
    treatments) alone. *)
Theorem C6_one_metric_per_repetition :
  (forall (M : Py.DoubleMLIRM) (n : nat) (prop : bool),
      py_valid M n ->
      exists l,
        Py.pred_acc_irm M prop = Return l /\
        length l = Py.n_rep M /\
        forall i, (i < Py.n_rep M)%nat ->
          nth_error l i
          = Some (accuracy_of prop 0.025
                    (Py.y (Py._dml_data M)) (Py.d (Py._dml_data M))
                    (py_col (Py.predictions M "ml_g0") i)
                    (py_col (Py.predictions M "ml_g1") i)
                    (py_col (Py.predictions M "ml_m") i)))
  /\ (forall (obj : Rl.DoubleML) (n : nat) (prop : bool),
      r_valid obj n ->
      exists l,
        Rl.pred_acc_irm obj prop = Return l /\
        length l = Rl.n_rep obj /\
        forall i, (i < Rl.n_rep obj)%nat ->
          nth_error l i
          = Some (Some (accuracy_of prop Rl.logloss_default_eps
                          (r_y obj) (r_d obj)
                          (r_col (Rl.predictions obj "ml_g0") i)
                          (r_col (Rl.predictions obj "ml_g1") i)
                          (r_col (Rl.predictions obj "ml_m") i)))).
Proof.
  split.
  - intros M n prop Hv. eexists. split; [now apply (py_pred_acc_valid M n)|].
    split; [now rewrite length_map, length_seq|].
    intros i Hi. now rewrite nth_error_map_seq.
  - intros obj n prop Hv. eexists. split; [now apply (r_pred_acc_valid obj n)|].
    split; [now rewrite length_map, length_seq|].
    intros i Hi. now rewrite nth_error_map_seq.
Qed.

(** ** The log-loss is finite and non-negative *)

Lemma sum_list_bounds (l : list R) (a b : R) :
  Forall (fun t => a <= t <= b) l ->
  a * INR (length l) <= sum_list l <= b * INR (length l).
Proof.
  induction 1 as [|t l Ht _ IH].
  - cbn. lra.
  - cbn [sum_list fold_right length]. fold (sum_list l).
    rewrite S_INR. lra.
Qed.

Lemma mean_bounds (l : list R) (a b : R) :
  (0 < length l)%nat -> Forall (fun t => a <= t <= b) l ->
  a <= mean l <= b.
Proof.
  intros Hlen Hall. pose proof (sum_list_bounds l a b Hall) as [Hlo Hhi].
  assert (Hpos : 0 < INR (length l)) by now apply lt_0_INR.
  unfold mean. split.
  - apply Rmult_le_reg_r with (INR (length l)); [exact Hpos|].
    unfold Rdiv. rewrite Rmult_assoc, Rinv_l by lra. lra.
  - apply Rmult_le_reg_r with (INR (length l)); [exact Hpos|].
    unfold Rdiv. rewrite Rmult_assoc, Rinv_l by lra. lra.
Qed.

Lemma Forall_map2 {A B C : Type} (P : A -> Prop) (Q : C -> Prop)
  (f : A -> B -> C) (a : list A) (b : list B) :
  (forall x y, P x -> Q (f x y)) -> Forall P a -> Forall Q (map2 f a b).
Proof.
  intros Hf Ha. revert b. induction Ha as [|x a Hx _ IH]; intros [|y b];
    cbn; constructor; auto.
Qed.

Lemma clip_bounds (x eps : R) :
  eps <= 1 / 2 -> eps <= clip x eps (1 - eps) <= 1 - eps.
Proof.
  intros He. unfold clip.
  unfold Rmin; destruct (Rle_dec x (1 - eps));
    unfold Rmax;
    repeat match goal with
           | |- context [Rle_dec ?a ?b] => destruct (Rle_dec a b)
           end; lra.
Qed.

Lemma ln_between (eps q : R) :
  0 < eps -> eps <= q <= 1 - eps -> ln eps <= ln q <= 0.
Proof.
  intros He [Hlo Hhi]. split.
  - now apply ln_monotone.
  - rewrite <- ln_1. apply ln_monotone; lra.
Qed.

Lemma logloss_bounds (eps : R) (d p : list R) :
  0 < eps <= 1 / 2 -> binary d -> length d = length p ->
  (0 < length d)%nat ->
  0 <= logloss_of eps d p <= - ln eps.
Proof.
  intros [He0 He] Hb Hlen Hpos. unfold logloss_of.
  assert (H : ln eps
              <= mean (map2 (fun dj pj =>
                         let q := clip pj eps (1 - eps) in
                         dj * ln q + (1 - dj) * ln (1 - q)) d p)
              <= 0).
  { apply mean_bounds.
    - now rewrite map2_length.
    - apply (Forall_map2 (fun x => x = 0 \/ x = 1)); [|exact Hb].
      intros x y Hx. cbv zeta.
      pose proof (clip_bounds y eps He) as Hq.
      pose proof (ln_between eps _ He0 Hq) as H1.
      assert (Hq' : eps <= 1 - clip y eps (1 - eps) <= 1 - eps) by lra.
      pose proof (ln_between eps _ He0 Hq') as H2.
      destruct Hx as [-> | ->]; lra. }
  lra.
Qed.

Lemma eps_025 : 0 < 0.025 <= 1 / 2.
Proof. lra. Qed.

Lemma py_col_length (a : option Py.ndarray3) (n w i : nat) :
  py_matrix a n w -> length (py_col a i) = n.
Proof.
  destruct a as [a|]; [|contradiction]. intros (H0 & _).
  cbn. now rewrite length_map, length_seq.
Qed.

Lemma r_col_length (a : option Rl.array3) (n w i : nat) :
  r_matrix a n w -> length (r_col a i) = n.
Proof.
  destruct a as [a|]; [|contradiction]. intros (H0 & _).
  cbn. now rewrite length_map, length_seq.
Qed.

(** C7.  For a binary treatment vector every log-loss the helper returns is
    non-negative and bounded by minus the logarithm of the clamping bound,
    hence finite: every probability reaches the logarithm clamped into
    [[eps, 1 - eps]]. *)
Theorem C7_logloss_finite_nonnegative :
  (forall (M : Py.DoubleMLIRM) (n : nat),
      let d := Py.d (Py._dml_data M) in
      Py.predictions M "ml_g0" <> None ->
      length d = n -> (0 < n)%nat -> binary d ->
      py_matrix (Py.predictions M "ml_m") n (Py.n_rep M) ->
      exists l,
        Py.pred_acc_irm M true = Return l /\
        length l = Py.n_rep M /\
        Forall (fun v => 0 <= v <= - ln 0.025) l)
  /\ (forall (obj : Rl.DoubleML) (n : nat),
      r_valid obj n ->
      exists l,
        Rl.pred_acc_irm obj true = Return (map Some l) /\
        length l = Rl.n_rep obj /\
        Forall (fun v => 0 <= v <= - ln Rl.logloss_default_eps) l).
Proof.
  split.
  - intros M n d Hg0 Hd Hn Hb Hm. eexists.
    split; [now apply (py_propensity_result M n)|].
    split; [now rewrite length_map, length_seq|].
    apply Forall_forall. intros v Hv. apply in_map_iff in Hv.
    destruct Hv as (i & <- & _).
    apply logloss_bounds; auto using eps_025.
    + fold d. rewrite (py_col_length _ n (Py.n_rep M)); auto.
    + fold d. lia.
  - intros obj n (Ht & Hy & Hd & Hn & Hw & Hb & Hg0 & Hg1 & Hm).
    exists (map (fun i => logloss_of Rl.logloss_default_eps (r_d obj)
                            (r_col (Rl.predictions obj "ml_m") i))
                (seq 0 (Rl.n_rep obj))).
    split; [|split].
    + rewrite map_map. now apply (r_propensity_result obj n).
    + now rewrite length_map, length_seq.
    + apply Forall_forall. intros v Hv. apply in_map_iff in Hv.
      destruct Hv as (i & <- & _).
      apply logloss_bounds; auto using default_eps_small.
      * rewrite (r_col_length _ n (Rl.n_rep obj)); auto.
      * lia.
Qed.

(** ** The propensity-score summarizer *)

Lemma nth_error_set_nth_eq {A : Type} (i : nat) (v : A) (l : list A) :
  (i < length l)%nat -> nth_error (set_nth i v l) i = Some v.
Proof.
  revert i. induction l as [|x l IH]; intros [|i] Hi; cbn in *;
    try lia; auto.
  apply IH. lia.
Qed.

Lemma nth_error_set_nth_neq {A : Type} (i k : nat) (v : A) (l : list A) :
  k <> i -> nth_error (set_nth i v l) k = nth_error l k.
Proof.
  revert i k. induction l as [|x l IH]; intros [|i] [|k] Hne; cbn;
    try reflexivity; try congruence.
  apply IH. congruence.
Qed.

Lemma nth_error_all {A : Type} (l : list A) (f : nat -> A) (w : nat) :
  length l = w ->
  (forall k, (k < w)%nat -> nth_error l k = Some (f k)) ->
  l = map f (seq 0 w).
Proof.
  intros Hlen H. apply nth_error_ext. intros k.
  destruct (Nat.lt_ge_cases k w) as [Hk | Hk].
  - now rewrite H, nth_error_map_seq.
  - rewrite (proj2 (nth_error_None _ _)) by lia.
    symmetry. apply nth_error_None. rewrite length_map, length_seq. lia.
Qed.

Lemma py_reshape_column (m : option Py.ndarray3) (n w i : nat) :
  py_matrix m n w -> (i < w)%nat ->
  (mi <- Py.column3 m i ;; Py.reshape mi n) = Return (py_col m i).
Proof.
  intros Hm Hi. destruct (py_column3 m n w i Hm Hi) as (s & Es & Rs & Cs & Vs).
  rewrite Es. cbn [bind]. unfold Py.reshape.
  now rewrite Rs, Cs, Nat.mul_1_r, Nat.eqb_refl, Vs.
Qed.

Lemma py_propscore_result (M : Py.DoubleMLIRM) (n : nat) :
  let m := Py.predictions M "ml_m" in
  py_matrix m n (Py.n_rep M) -> (1 <= Py.n_rep M)%nat ->
  Py.rep_propscore_plot M
  = Return (if (1 <? Py.n_rep M)%nat
            then map (fun i => py_subplot 1 (py_col m i) i)
                     (seq 0 (Py.n_rep M))
            else [py_subplot 2 (py_col m 0) 0]).
Proof.
  intros m Hm Hw. unfold Py.rep_propscore_plot. fold m.
  assert (Hh : Py.shape_0 m = Return n).
  { destruct m as [a|]; [|contradiction]. destruct Hm as (H0 & _).
    cbn. now rewrite H0. }
  rewrite Hh. cbn [bind].
  destruct (1 <? Py.n_rep M)%nat eqn:Hrep.
  - set (w := Py.n_rep M) in *.
    set (v := fun i => py_subplot 1 (py_col m i) i).
    set (P := fun (i : nat) (ax : list Py.axes) =>
      length ax = w /\
      (forall k, (k < i)%nat -> nth_error ax k = Some (v k)) /\
      (forall k, (i <= k < w)%nat -> nth_error ax k = Some Py.new_axes)).
    match goal with
    | |- for_range w ?body ?init = _ =>
        destruct (for_range_invariant (E := Py.exn) P body w init)
          as (fig & Hfig & Hlen & Hdone & _)
    end.
    + repeat split.
      * apply repeat_length.
      * intros; lia.
      * intros k Hk. rewrite (nth_error_nth' _ Py.new_axes)
          by (rewrite repeat_length; lia).
        now rewrite nth_repeat.
    + intros i ax Hi (Hlen & Hdone & Htodo).
      exists (set_nth i (v i) ax). split.
      * pose proof (py_reshape_column m n w i Hm Hi) as Hcol.
        destruct (Py.column3 m i) as [mi| |]; try discriminate.
        cbn [bind] in *. rewrite Hcol. cbn [bind].
        unfold Py.getitem. rewrite (Htodo i) by lia. cbn [bind].
        unfold Py.setitem. rewrite Hlen, (proj2 (Nat.ltb_lt _ _) Hi).
        reflexivity.
      * repeat split.
        -- now rewrite set_nth_length.
        -- intros k Hk. destruct (Nat.eq_dec k i) as [->|Hne].
           ++ apply nth_error_set_nth_eq. lia.
           ++ rewrite nth_error_set_nth_neq by exact Hne. apply Hdone. lia.
        -- intros k Hk. rewrite nth_error_set_nth_neq by lia.
           apply Htodo. lia.
    + rewrite Hfig. f_equal. now apply nth_error_all.
  - apply Nat.ltb_ge in Hrep.
    assert (Hone : Py.n_rep M = 1%nat) by lia.
    pose proof (py_reshape_column m n _ 0%nat Hm ltac:(lia)) as Hcol.
    destruct (Py.column3 m 0) as [mi| |]; try discriminate.
    cbn [bind] in *. rewrite Hcol. cbn [bind]. reflexivity.
Qed.

(** ** Buckets *)





Section Buckets.

Variables (lo hi : R) (bins : nat).
Hypothesis Hrange : lo <= hi.
Hypothesis Hbins : (0 < bins)%nat.

Let e (k : nat) : R := bin_edge lo hi bins k.









End Buckets.




Lemma flat_map_ext_seq {B : Type} (f g : nat -> list B) (a n : nat) :
  (forall i, (a <= i < a + n)%nat -> f i = g i) ->
  flat_map f (seq a n) = flat_map g (seq a n).
Proof.
  revert a. induction n as [|n IH]; intros a H; [reflexivity|].
  cbn [seq flat_map]. rewrite (H a) by lia. f_equal.
  apply IH. intros i Hi. apply H. lia.
Qed.

(** *** The table and the plot object of the R helper *)













(** *** The bins of the plotting library of the R helper *)

Section StatBins.

Variables (lo hi : R) (bins : nat).
Hypothesis Hlim : lo < hi.
Hypothesis Hbins : (2 <= bins)%nat.

Let b (k : nat) : R := Rl.stat_break lo hi bins k.









End StatBins.










(** ** The accuracy helper of the partially linear model *)

Lemma vec_times_length (a b : list R) :
  length (Rl.vec_times a b)
  = match a, b with
    | [], _ | _, [] => 0%nat
    | _, _ => Nat.max (length a) (length b)
    end.
Proof.
  destruct a as [|x a], b as [|z b]; try reflexivity.
  unfold Rl.vec_times. now rewrite length_map, length_seq.
Qed.

Lemma vec_times_length_coef (theta theta' d : list R) :
  length theta' = length theta ->
  length (Rl.vec_times theta' d) = length (Rl.vec_times theta d).
Proof.
  intros H. rewrite !vec_times_length.
  destruct theta, theta', d; cbn [length] in *;
    try discriminate; try reflexivity; lia.
Qed.

(** Whether adding a vector to an array succeeds depends on the length of
    the vector only. *)
Lemma vec_plus_array_discarded {B : Type} (v v' : list R) (a : Rl.array3)
  (k : Rl.result B) :
  length v' = length v ->
  bind (r <- Rl.vec_plus_array v' a ;; Return (Some r)) (fun _ => k)
  = bind (r <- Rl.vec_plus_array v a ;; Return (Some r)) (fun _ => k).
Proof.
  intros H. unfold Rl.vec_plus_array. rewrite H.
  destruct (_ <? _)%nat; [reflexivity|].
  destruct (_ =? _)%nat; reflexivity.
Qed.

Lemma r_as_vector_column (a : Rl.array3) :
  Rl.dim2 a = 1%nat -> Rl.dim3 a = 1%nat ->
  Rl.as_vector (Some a) = r_col (Some a) 0.
Proof.
  intros H2 H3. unfold Rl.as_vector, r_col. rewrite H2, H3.
  cbn [seq flat_map]. now rewrite !app_nil_r.
Qed.

Lemma example_plr_rmse : rmse_of [3] [1] = 2.
Proof.
  unfold rmse_of, mean, sum_list. cbn [map2 fold_right length INR].
  replace (((3 - 1) ^ 2 + 0) / 1) with (2 * 2) by field.
  apply sqrt_square. lra.
Qed.

(** C10.  [pred_acc_plr] returns the root-mean-squared error of the
    outcomes against the stored predictions of the requested component
    themselves.  The blend [theta*d + ml_nuis] is computed and dropped: two
    objects that differ only in the fitted coefficient give the same
    result.  On the example (outcome 3, treatment 1, coefficient 2, stored
    prediction 1) the result is 2, not the error 0 of the blend. *)
Theorem C10_pred_acc_plr_ignores_theta :
  (forall (obj : Rl.DoubleML) (nuis : string) (theta' : list R),
      length theta' = length (Rl.coef obj) ->
      Rl.pred_acc_plr (with_coef obj theta') nuis = Rl.pred_acc_plr obj nuis)
  /\ (forall (obj : Rl.DoubleML) (nuis : string) (a : Rl.array3) (n : nat),
      Rl.predictions obj nuis = Some a ->
      Rl.dim1 a = n -> Rl.dim2 a = 1%nat -> Rl.dim3 a = 1%nat ->
      length (r_y obj) = n -> length (r_d obj) = n -> (0 < n)%nat ->
      (0 < length (Rl.coef obj) <= n)%nat ->
      Rl.pred_acc_plr obj nuis
      = Return (rmse_of (r_y obj) (r_col (Some a) 0)))
  /\ Rl.pred_acc_plr r_example_plr "ml_l" = Return 2
  /\ rmse_of [3] (map2 Rplus (Rl.vec_times [2] [1]) [1]) = 0.
Proof.
  assert (Hgen : forall (obj : Rl.DoubleML) (nuis : string) (a : Rl.array3)
                        (n : nat),
      Rl.predictions obj nuis = Some a ->
      Rl.dim1 a = n -> Rl.dim2 a = 1%nat -> Rl.dim3 a = 1%nat ->
      length (r_y obj) = n -> length (r_d obj) = n -> (0 < n)%nat ->
      (0 < length (Rl.coef obj) <= n)%nat ->
      Rl.pred_acc_plr obj nuis
      = Return (rmse_of (r_y obj) (r_col (Some a) 0))).
  { intros obj nuis a n Ha H1 H2 H3 Hy Hd Hn Hc.
    unfold Rl.pred_acc_plr. rewrite Ha. fold (r_y obj) (r_d obj).
    assert (Hrmse : Rl.rmse (r_y obj) (Rl.as_vector (Some a))
                    = Return (rmse_of (r_y obj) (r_col (Some a) 0))).
    { rewrite r_as_vector_column by assumption. unfold Rl.rmse.
      rewrite (r_col_length (Some a) n 1), Hy, Nat.eqb_refl
        by (cbn; repeat split; auto; lia).
      now rewrite (proj2 (Nat.ltb_lt _ _) Hn). }
    destruct (String.eqb nuis "ml_l").
    + unfold Rl.vec_plus_array. rewrite vec_times_length, H1, H2, H3.
      destruct (Rl.coef obj) as [|t ts] eqn:Et; [cbn in Hc; lia|].
      destruct (r_d obj) as [|z zs] eqn:Ed; [cbn in Hd; lia|].
      replace (n * 1 * 1 <? Nat.max (length (t :: ts)) (length (z :: zs)))%nat
        with false by (symmetry; apply Nat.ltb_ge; lia).
      replace (Nat.max (length (t :: ts)) (length (z :: zs)) =? 0)%nat
        with false by (symmetry; apply Nat.eqb_neq; cbn [length]; lia).
      cbn [bind]. exact Hrmse.
    + destruct (String.eqb nuis "ml_m"); cbn [bind]; exact Hrmse. }
  split; [|split; [exact Hgen|split]].
  - intros obj nuis theta' Hlen. unfold Rl.pred_acc_plr.
    cbn [with_coef Rl.data Rl.coef Rl.predictions].
    destruct (String.eqb nuis "ml_l"); [|reflexivity].
    destruct (Rl.predictions obj nuis) as [a|]; [|reflexivity].
    apply vec_plus_array_discarded.
    now apply vec_times_length_coef.
  - rewrite (Hgen r_example_plr "ml_l" (r_array 1 1 [[1]]) 1%nat);
      try reflexivity; try (cbn; lia).
    f_equal. apply example_plr_rmse.
  - unfold Rl.vec_times. cbn [length Nat.max seq map nth map2].
    unfold rmse_of, mean, sum_list. cbn [map2 fold_right length INR].
    cbn [Nat.modulo Nat.divmod fst snd Nat.sub nth].
    replace (((3 - (2 * 1 + 1)) ^ 2 + 0) / 1) with 0 by field.
    apply sqrt_0.
Qed.

(** ** Shapes that do not fit *)

Lemma for_loop_specified {E S : Type} (idx : list nat)
  (body : nat -> S -> outcome E S) (s : S) :
  (forall i s, body i s <> Unspecified) ->
  for_loop idx body s <> Unspecified.
Proof.
  intros Hb. revert s. induction idx as [|i idx IH]; intros s; cbn.
  - discriminate.
  - destruct (body i s) as [s'|e|] eqn:Eb; cbn.
    + apply IH.
    + discriminate.
    + now elim (Hb i s).
Qed.

Lemma for_loop_returns_each {E S : Type} (idx : list nat)
  (body : nat -> S -> outcome E S) (s s' : S) :
  for_loop idx body s = Return s' ->
  forall i, In i idx -> exists si si', body i si = Return si'.
Proof.
  revert s. induction idx as [|k idx IH]; intros s Hret i Hi; [easy|].
  cbn in Hret. destruct (body k s) as [s1|e|] eqn:Eb; cbn in Hret;
    try discriminate.
  destruct Hi as [<- | Hi]; [now exists s, s1|].
  now apply (IH s1).
Qed.

Lemma for_loop_preserves {E S : Type} (P : S -> Prop) (idx : list nat)
  (body : nat -> S -> outcome E S) (s s' : S) :
  (forall i s s', P s -> body i s = Return s' -> P s') ->
  P s -> for_loop idx body s = Return s' -> P s'.
Proof.
  intros Hb. revert s. induction idx as [|k idx IH]; intros s Hs Hret.
  - cbn in Hret. now injection Hret as <-.
  - cbn in Hret. destruct (body k s) as [s1|e|] eqn:Eb; cbn in Hret;
      try discriminate.
    apply (IH s1); [|exact Hret]. now apply (Hb k s).
Qed.

(** C4, counterexample.  One observation and a stored treated-arm matrix of
    two rows: the Python helper returns an accuracy. *)
Lemma C4_counterexample :
  (exists g1,
      Py.predictions py_example_surplus_rows "ml_g1" = Some g1 /\
      Py.shape0 g1 = 2%nat /\
      length (Py.y (Py._dml_data py_example_surplus_rows)) = 1%nat)
  /\ Py.pred_acc_irm py_example_surplus_rows false = Return [1].
Proof.
  split.
  - eexists. split; [reflexivity|]. split; reflexivity.
  - unfold Py.pred_acc_irm.
    cbn [py_example_surplus_rows py_model Py._dml_data Py.predictions
         Py.n_rep Py.y Py.d table String.eqb Ascii.eqb Bool.eqb
         Py.shape_0 py_array Py.shape0 bind].
    unfold Py.isin_all. cbn [forallb existsb]. decide_reals.
    cbn [orb andb negb]. unfold for_range.
    cbn [seq for_loop Py.getitem nth_error bind]. decide_reals.
    cbn [Py.getitem_ji Py.shape0 Py.shape1 Py.shape2 Nat.ltb Nat.leb andb
         seq map bind Py.item3 nth Py.setitem_ji Py.zeros2 Py.rows Py.cols
         Py.column2 Py.item2 Nat.eqb py_array].
    unfold Py.mean_squared_error, mean, sum_list.
    cbn [length map2 fold_right INR Nat.eqb Nat.ltb Nat.leb andb bind
         Py.setitem Py.zeros1 repeat set_nth].
    do 2 f_equal.
    replace (((1 - 2) ^ 2 + 0) / 1) with (1 * 1) by field.
    apply sqrt_square. lra.
Qed.

Section PyExport.

Variables (d : list R) (g0 g1 : option Py.ndarray3).

(** One step of the inner loop of the regression branch. *)
Let cell (i j : nat) (a : Py.ndarray2) : Py.result Py.ndarray2 :=
  dj <- Py.getitem d j ;;
  if Reqb dj 0 then
    v <- Py.getitem_ji g0 j i ;; Py.setitem_ji a j i v
  else
    v <- Py.getitem_ji g1 j i ;; Py.setitem_ji a j i v.

Let export (h w : nat) : Py.result Py.ndarray2 :=
  for_range w (fun i a => for_range h (fun j a => cell i j a) a)
    (Py.zeros2 h w).

Lemma py_setitem_ji_cases (a : Py.ndarray2) (j i : nat) (v : list R) :
  (exists x, v = [x] /\ exists a',
      Py.setitem_ji a j i v = Return a' /\
      Py.rows a' = Py.rows a /\ Py.cols a' = Py.cols a)
  \/ raises (Py.setitem_ji a j i v).
Proof.
  unfold Py.setitem_ji.
  destruct ((j <? Py.rows a)%nat && (i <? Py.cols a)%nat);
    [|right; now eexists].
  destruct v as [|x [|x' v]]; [right; now eexists | | right; now eexists].
  left. exists x. split; [reflexivity|]. eexists. split; [reflexivity|].
  split; reflexivity.
Qed.

Lemma py_getitem_ji_cases (g : option Py.ndarray3) (j i : nat) :
  (exists a, g = Some a /\
      Py.getitem_ji g j i = Return (map (Py.item3 a j i) (seq 0 (Py.shape2 a))))
  \/ raises (Py.getitem_ji g j i).
Proof.
  unfold Py.getitem_ji. destruct g as [a|]; [|right; now eexists].
  destruct ((j <? Py.shape0 a)%nat && (i <? Py.shape1 a)%nat);
    [|right; now eexists].
  left. now exists a.
Qed.

Lemma py_fetch_store_cases (g : option Py.ndarray3) (a : Py.ndarray2)
  (j i : nat) :
  (exists a3 a', g = Some a3 /\ Py.shape2 a3 = 1%nat /\
      (v <- Py.getitem_ji g j i ;; Py.setitem_ji a j i v) = Return a' /\
      Py.rows a' = Py.rows a /\ Py.cols a' = Py.cols a)
  \/ raises (v <- Py.getitem_ji g j i ;; Py.setitem_ji a j i v).
Proof.
  destruct (py_getitem_ji_cases g j i) as [(a3 & Hg & Hget) | (e & He)].
  - rewrite Hget. cbn [bind].
    destruct (py_setitem_ji_cases a j i
                (map (Py.item3 a3 j i) (seq 0 (Py.shape2 a3))))
      as [(x & Hx & a' & Hset & Hr & Hc) | Hraise]; [|now right].
    left. exists a3, a'. repeat split; auto.
    apply (f_equal (@length R)) in Hx.
    now rewrite length_map, length_seq in Hx.
  - right. exists e. now rewrite He.
Qed.

Lemma py_cell_cases (i j : nat) (a : Py.ndarray2) :
  (exists dj a', nth_error d j = Some dj /\
      cell i j a = Return a' /\
      Py.rows a' = Py.rows a /\ Py.cols a' = Py.cols a /\
      exists a3, (if Reqb dj 0 then g0 else g1) = Some a3 /\
                 Py.shape2 a3 = 1%nat)
  \/ raises (cell i j a).
Proof.
  unfold cell, Py.getitem.
  destruct (nth_error d j) as [dj|]; [|right; now eexists].
  cbn [bind]. destruct (Reqb dj 0) eqn:Edj.
  - destruct (py_fetch_store_cases g0 a j i)
      as [(a3 & a' & Hg & Ht & Hret & Hr & Hc) | Hraise]; [|now right].
    left. exists dj, a'. repeat split; auto.
    exists a3. rewrite Edj. split; [exact Hg | exact Ht].
  - destruct (py_fetch_store_cases g1 a j i)
      as [(a3 & a' & Hg & Ht & Hret & Hr & Hc) | Hraise]; [|now right].
    left. exists dj, a'. repeat split; auto.
    exists a3. rewrite Edj. split; [exact Hg | exact Ht].
Qed.

Lemma py_cell_specified (i j : nat) (a : Py.ndarray2) :
  cell i j a <> Unspecified.
Proof.
  destruct (py_cell_cases i j a) as [(dj & a' & _ & H & _) | (e & H)];
    rewrite H; discriminate.
Qed.

Lemma py_export_specified (h w : nat) : export h w <> Unspecified.
Proof.
  apply for_loop_specified. intros i a.
  apply for_loop_specified. intros j a'. apply py_cell_specified.
Qed.

Lemma py_export_shape (h w : nat) (a : Py.ndarray2) :
  export h w = Return a -> Py.rows a = h /\ Py.cols a = w.
Proof.
  apply (for_loop_preserves (fun a => Py.rows a = h /\ Py.cols a = w)).
  - intros i s s' Hs.
    apply (for_loop_preserves (fun a => Py.rows a = h /\ Py.cols a = w));
      [|exact Hs].
    intros j b b' (Hr & Hc) Hcell.
    destruct (py_cell_cases i j b)
      as [(dj & b2 & _ & H & Hr2 & Hc2 & _) | (e & H)];
      rewrite H in Hcell; [|discriminate].
    injection Hcell as <-. split; congruence.
  - now split.
Qed.

(** If the loops finish, every cell [j < h] of column 0 was stored. *)
Lemma py_export_returns_cell (h w : nat) (a : Py.ndarray2) (j : nat) :
  export h w = Return a -> (0 < w)%nat -> (j < h)%nat ->
  exists b b', cell 0 j b = Return b'.
Proof.
  intros Hret Hw Hj.
  destruct (for_loop_returns_each _ _ _ _ Hret 0%nat) as (s & s' & Hinner).
  - apply in_seq. lia.
  - apply (for_loop_returns_each _ _ _ _ Hinner j). apply in_seq. lia.
Qed.

End PyExport.

Lemma raises_bind_raise {E A B : Type} (e : E) (k : A -> outcome E B) :
  raises (bind (Raise e) k).
Proof. now exists e. Qed.

(** The metric rejects a column whose length is not the number of
    outcomes, so the second loop fails at its first step. *)
Lemma py_second_loop_raises (y : list R) (a : Py.ndarray2) (w : nat)
  (init : list R) :
  Py.cols a = w -> (0 < w)%nat -> length y <> Py.rows a ->
  raises (for_range w (fun i acc =>
            col <- Py.column2 a i ;;
            r <- Py.mean_squared_error y col false ;;
            Py.setitem acc i r) init).
Proof.
  intros Hc Hw Hne.
  assert (Hfirst : (col <- Py.column2 a 0 ;;
                    r <- Py.mean_squared_error y col false ;;
                    Py.setitem init 0 r) = Raise Py.LibraryValueError).
  { unfold Py.column2. rewrite Hc, (proj2 (Nat.ltb_lt _ _) Hw). cbn [bind].
    unfold Py.mean_squared_error. rewrite length_map, length_seq.
    rewrite (proj2 (Nat.eqb_neq _ _) Hne). reflexivity. }
  rewrite for_range_first; [rewrite Hfirst; now eexists | exact Hw |].
  intros s'. rewrite Hfirst. discriminate.
Qed.

(** Regression mode: a control-arm matrix whose row count is not the
    number of observations makes the helper fail. *)
Lemma py_regression_rows_mismatch (M : Py.DoubleMLIRM) (n : nat) :
  length (Py.y (Py._dml_data M)) = n ->
  length (Py.d (Py._dml_data M)) = n ->
  (0 < Py.n_rep M)%nat ->
  (forall a0, Py.predictions M "ml_g0" = Some a0 -> Py.shape0 a0 <> n) ->
  raises (Py.pred_acc_irm M false).
Proof.
  intros Hy Hd Hw Hrows. unfold Py.pred_acc_irm.
  destruct (Py.predictions M "ml_g0") as [a0|] eqn:E0;
    [|apply raises_bind_raise].
  specialize (Hrows a0 eq_refl). cbn [Py.shape_0 bind].
  destruct (Py.isin_all _ _); cbn [negb]; [|now eexists].
  set (d := Py.d (Py._dml_data M)) in *.
  set (g1 := Py.predictions M "ml_g1").
  pose proof (py_export_specified d (Some a0) g1 (Py.shape0 a0) (Py.n_rep M))
    as Hspec.
  pose proof (py_export_shape d (Some a0) g1 (Py.shape0 a0) (Py.n_rep M))
    as Hshape.
  pose proof (py_export_returns_cell d (Some a0) g1 (Py.shape0 a0)
                (Py.n_rep M)) as Hcell.
  cbv zeta in Hspec, Hshape, Hcell.
  match goal with
  | |- raises (bind ?L _) => destruct L as [a|e|] eqn:EL
  end; [|apply raises_bind_raise|now elim Hspec].
  destruct (Hshape a eq_refl) as (Hr & Hc). cbn [bind].
  destruct (Nat.lt_ge_cases n (Py.shape0 a0)) as [Hlt | Hge].
  - exfalso. destruct (Hcell a n eq_refl Hw Hlt) as (b & b' & Hb).
    destruct (py_cell_cases d (Some a0) g1 0 n b)
      as [(dj & b2 & Hnth & _) | (e & He)].
    + assert (nth_error d n = None) by (apply nth_error_None; lia).
      congruence.
    + cbv zeta in He. rewrite He in Hb. discriminate.
  - apply py_second_loop_raises; auto. lia.
Qed.

(** Regression mode: stored predictions with more (or fewer) than one
    treatment slice make the helper fail. *)
Lemma py_regression_slices (M : Py.DoubleMLIRM) (n : nat) (a0 : Py.ndarray3) :
  length (Py.y (Py._dml_data M)) = n ->
  length (Py.d (Py._dml_data M)) = n ->
  (0 < n)%nat -> (0 < Py.n_rep M)%nat ->
  Py.predictions M "ml_g0" = Some a0 -> Py.shape2 a0 <> 1%nat ->
  (forall a1, Py.predictions M "ml_g1" = Some a1 -> Py.shape2 a1 <> 1%nat) ->
  raises (Py.pred_acc_irm M false).
Proof.
  intros Hy Hd Hn Hw E0 Ht0 Ht1. unfold Py.pred_acc_irm. rewrite E0.
  cbn [Py.shape_0 bind].
  destruct (Py.isin_all _ _); cbn [negb]; [|now eexists].
  set (d := Py.d (Py._dml_data M)) in *.
  set (g1 := Py.predictions M "ml_g1") in *.
  pose proof (py_export_specified d (Some a0) g1 (Py.shape0 a0) (Py.n_rep M))
    as Hspec.
  pose proof (py_export_shape d (Some a0) g1 (Py.shape0 a0) (Py.n_rep M))
    as Hshape.
  pose proof (py_export_returns_cell d (Some a0) g1 (Py.shape0 a0)
                (Py.n_rep M)) as Hcell.
  cbv zeta in Hspec, Hshape, Hcell.
  match goal with
  | |- raises (bind ?L _) => destruct L as [a|e|] eqn:EL
  end; [|apply raises_bind_raise|now elim Hspec].
  destruct (Hshape a eq_refl) as (Hr & Hc). cbn [bind].
  destruct (Nat.eq_dec (Py.shape0 a0) 0) as [Hz | Hnz].
  - apply py_second_loop_raises; auto. lia.
  - exfalso.
    destruct (Hcell a 0%nat eq_refl Hw ltac:(lia)) as (b & b' & Hb).
    destruct (py_cell_cases d (Some a0) g1 0 0 b)
      as [(dj & b2 & _ & _ & _ & _ & a3 & Hsel & Ht) | (e & He)].
    + destruct (Reqb dj 0).
      * injection Hsel as <-. contradiction.
      * now apply (Ht1 a3).
    + cbv zeta in He. rewrite He in Hb. discriminate.
Qed.

(** Propensity mode: a propensity matrix whose row count is not the number
    of observations makes the helper fail. *)
Lemma py_propensity_rows_mismatch (M : Py.DoubleMLIRM) (n : nat) :
  length (Py.d (Py._dml_data M)) = n ->
  (0 < Py.n_rep M)%nat ->
  (forall m, Py.predictions M "ml_m" = Some m ->
             Py.shape2 m = 1%nat /\ Py.shape0 m <> n) ->
  raises (Py.pred_acc_irm M true).
Proof.
  intros Hd Hw Hm. unfold Py.pred_acc_irm.
  destruct (Py.predictions M "ml_g0") as [a0|];
    [|apply raises_bind_raise].
  cbn [Py.shape_0 bind].
  destruct (Py.isin_all _ _); cbn [negb]; [|now eexists].
  assert (Hfirst : exists e, forall acc,
    (mi <- Py.column3 (Py.predictions M "ml_m") 0 ;;
     r <- Py.log_loss (Py.d (Py._dml_data M)) mi 0.025 ;;
     Py.setitem acc 0 r) = Raise e).
  { unfold Py.column3.
    destruct (Py.predictions M "ml_m") as [m|]; [|now eexists].
    destruct (Hm m eq_refl) as (Ht & Hrows).
    destruct (0 <? Py.shape1 m)%nat; [|now eexists].
    exists Py.LibraryValueError. intros acc. cbn [bind]. unfold Py.log_loss.
    cbn [Py.rows Py.cols]. rewrite Ht, Hd. cbn [Nat.eqb].
    now rewrite (proj2 (Nat.eqb_neq _ _) (not_eq_sym Hrows)). }
  destruct Hfirst as (e & He). exists e.
  rewrite for_range_first; [apply He | exact Hw |].
  intros s'. rewrite He. discriminate.
Qed.

(** The R helper, propensity mode: the metric rejects a column of class
    probabilities that has not one row per treatment entry. *)
Lemma r_propensity_rows_mismatch (obj : Rl.DoubleML) (n r0 r1 rm : nat) :
  (Rl.n_treat (Rl.data obj) <= 1)%nat ->
  length (r_d obj) = n ->
  (0 < Rl.n_rep obj)%nat ->
  (0 < r0)%nat -> (0 < r1)%nat -> (0 < rm)%nat ->
  r_matrix (Rl.predictions obj "ml_g0") r0 (Rl.n_rep obj) ->
  r_matrix (Rl.predictions obj "ml_g1") r1 (Rl.n_rep obj) ->
  r_matrix (Rl.predictions obj "ml_m") rm (Rl.n_rep obj) ->
  rm <> n ->
  raises (Rl.pred_acc_irm obj true).
Proof.
  intros Ht Hd Hw H0 H1 Hm Hg0 Hg1 Hgm Hne. unfold Rl.pred_acc_irm.
  rewrite (proj2 (Nat.ltb_ge _ _) Ht).
  destruct (r_first_slice _ r0 _ H0 Hw Hg0) as (M0 & E0 & _).
  destruct (r_first_slice _ r1 _ H1 Hw Hg1) as (M1 & E1 & _).
  destruct (r_first_slice _ rm _ Hm Hw Hgm) as (Mm & Em & Rm & _).
  rewrite E0, E1, Em. cbn [bind]. fold (r_d obj).
  destruct (Rl.all_in (r_d obj) [0; 1]); cbn [negb]; [|now eexists].
  assert (Hfirst : forall acc,
    (r <- Rl.logloss (r_d obj)
           (combine (map (fun p => 1 - p) (Rl.mcol Mm 0)) (Rl.mcol Mm 0))
           Rl.logloss_default_eps ;;
     Return (set_nth 0 (Some r) acc))
    = Raise (A := list (option R)) Rl.library_error).
  { intros acc. unfold Rl.logloss.
    rewrite length_combine, length_map, Nat.min_id.
    unfold Rl.mcol. rewrite length_map, length_seq, Rm, Hd.
    now rewrite (proj2 (Nat.eqb_neq _ _) (not_eq_sym Hne)). }
  exists Rl.library_error.
  rewrite for_range_first; [apply Hfirst | exact Hw |].
  intros s'. rewrite Hfirst. discriminate.
Qed.

Lemma r_vec_times_matrix_cases (v : list R) (M : Rl.matrix) :
  (0 < length v)%nat -> (1 < Rl.nrow M * Rl.ncol M)%nat ->
  (exists P, Rl.vec_times_matrix v M = Return P /\
             Rl.nrow P = Rl.nrow M /\ Rl.ncol P = Rl.ncol M)
  \/ raises (Rl.vec_times_matrix v M).
Proof.
  intros Hv HM. unfold Rl.vec_times_matrix.
  destruct (length v =? Rl.nrow M)%nat.
  - left. eexists. split; [reflexivity|]. split; reflexivity.
  - rewrite (proj2 (Nat.eqb_neq (length v) 0)) by lia.
    rewrite (proj2 (Nat.eqb_neq (Rl.nrow M * Rl.ncol M) 1)) by lia.
    cbn [orb]. destruct (Rl.nrow M * Rl.ncol M <? length v)%nat.
    + right. now eexists.
    + left. eexists. split; [reflexivity|]. split; reflexivity.
Qed.

(** The R helper, regression mode: matrices whose row count is not the
    number of observations are recycled against the treatment, or refused
    by the arithmetic; what is left fails in the sum or in the metric. *)
Lemma r_regression_rows_mismatch (obj : Rl.DoubleML) (n r0 r1 rm : nat) :
  (Rl.n_treat (Rl.data obj) <= 1)%nat ->
  length (r_y obj) = n -> length (r_d obj) = n ->
  (0 < n)%nat -> (0 < Rl.n_rep obj)%nat ->
  (0 < r0)%nat -> (0 < r1)%nat -> (0 < rm)%nat ->
  r_matrix (Rl.predictions obj "ml_g0") r0 (Rl.n_rep obj) ->
  r_matrix (Rl.predictions obj "ml_g1") r1 (Rl.n_rep obj) ->
  r_matrix (Rl.predictions obj "ml_m") rm (Rl.n_rep obj) ->
  (1 < r0 * Rl.n_rep obj)%nat -> (1 < r1 * Rl.n_rep obj)%nat ->
  r0 <> n \/ r1 <> n ->
  raises (Rl.pred_acc_irm obj false).
Proof.
  intros Ht Hy Hd Hn Hw H0 H1 Hm Hg0 Hg1 Hgm Hs0 Hs1 Hne.
  unfold Rl.pred_acc_irm. rewrite (proj2 (Nat.ltb_ge _ _) Ht).
  destruct (r_first_slice _ r0 _ H0 Hw Hg0) as (M0 & E0 & R0 & C0 & _).
  destruct (r_first_slice _ r1 _ H1 Hw Hg1) as (M1 & E1 & R1 & C1 & _).
  destruct (r_first_slice _ rm _ Hm Hw Hgm) as (Mm & Em & _).
  rewrite E0, E1, Em. cbn [bind]. fold (r_d obj) (r_y obj).
  destruct (Rl.all_in (r_d obj) [0; 1]); cbn [negb]; [|now eexists].
  destruct (r_vec_times_matrix_cases (r_d obj) M1)
    as [(P1 & EP1 & RP1 & CP1) | (e & He)];
    [lia | rewrite R1, C1; exact Hs1 | | exists e; now rewrite He].
  rewrite EP1. cbn [bind].
  destruct (r_vec_times_matrix_cases (map (fun x => 1 - x) (r_d obj)) M0)
    as [(P0 & EP0 & RP0 & CP0) | (e & He)];
    [rewrite length_map; lia | rewrite R0, C0; exact Hs0 |
     | exists e; now rewrite He].
  rewrite EP0. cbn [bind]. unfold Rl.matrix_plus.
  rewrite RP1, RP0, CP1, CP0, R1, R0, C1, C0, Nat.eqb_refl, andb_true_r.
  destruct (Nat.eqb_spec r1 r0) as [Heq | Hdiff]; [|now eexists].
  cbn [bind Rl.ncol].
  destruct (Rl.n_rep obj) as [|w]; [lia|].
  cbn [seq Rl.apply_columns]. unfold Rl.rmse at 1.
  unfold Rl.mcol at 1. cbn [Rl.nrow].
  rewrite length_map, length_seq, Hy.
  rewrite (proj2 (Nat.eqb_neq n r1)) by lia.
  now eexists.
Qed.

(** C4 as amended.  With more than one treatment variable the R helper
    stops at its guard, in either mode.  The Python helper has no check of
    its own, but fails with an error of the array or metric library when,
    in regression mode, the control-arm matrix has a row count other than
    the number of observations or the stored predictions do not have
    exactly one treatment slice, and when, in propensity mode, the
    propensity matrix has a row count other than the number of observations
    (one repetition at least in each case).  The R helper, with a single
    treatment and at least one repetition, fails in propensity mode when
    the propensity matrix has a row count other than the number of
    observations, and in regression mode when the control-arm or the
    treated-arm matrix, of more than one entry, has. *)
Theorem C4_shape_errors :
  (forall (obj : Rl.DoubleML) (prop : bool),
      (1 < Rl.n_treat (Rl.data obj))%nat ->
      Rl.pred_acc_irm obj prop
      = Raise (Rl.simpleError "Number of treatment variable is > 1. Helper function for nuisance accuracy is only implemented for 1 treatment variable."))
  /\ (forall (M : Py.DoubleMLIRM) (n : nat),
      length (Py.y (Py._dml_data M)) = n ->
      length (Py.d (Py._dml_data M)) = n ->
      (0 < Py.n_rep M)%nat ->
      (forall a0, Py.predictions M "ml_g0" = Some a0 -> Py.shape0 a0 <> n) ->
      raises (Py.pred_acc_irm M false))
  /\ (forall (M : Py.DoubleMLIRM) (n : nat),
      length (Py.d (Py._dml_data M)) = n ->
      (0 < Py.n_rep M)%nat ->
      (forall m, Py.predictions M "ml_m" = Some m ->
                 Py.shape2 m = 1%nat /\ Py.shape0 m <> n) ->
      raises (Py.pred_acc_irm M true))
  /\ (forall (M : Py.DoubleMLIRM) (n : nat) (a0 : Py.ndarray3),
      length (Py.y (Py._dml_data M)) = n ->
      length (Py.d (Py._dml_data M)) = n ->
      (0 < n)%nat -> (0 < Py.n_rep M)%nat ->
      Py.predictions M "ml_g0" = Some a0 -> Py.shape2 a0 <> 1%nat ->
      (forall a1, Py.predictions M "ml_g1" = Some a1 ->
                  Py.shape2 a1 <> 1%nat) ->
      raises (Py.pred_acc_irm M false))
  /\ (forall (obj : Rl.DoubleML) (n r0 r1 rm : nat),
      (Rl.n_treat (Rl.data obj) <= 1)%nat ->
      length (r_d obj) = n ->
      (0 < Rl.n_rep obj)%nat ->
      (0 < r0)%nat -> (0 < r1)%nat -> (0 < rm)%nat ->
      r_matrix (Rl.predictions obj "ml_g0") r0 (Rl.n_rep obj) ->
      r_matrix (Rl.predictions obj "ml_g1") r1 (Rl.n_rep obj) ->
      r_matrix (Rl.predictions obj "ml_m") rm (Rl.n_rep obj) ->
      rm <> n ->
      raises (Rl.pred_acc_irm obj true))
  /\ (forall (obj : Rl.DoubleML) (n r0 r1 rm : nat),
      (Rl.n_treat (Rl.data obj) <= 1)%nat ->
      length (r_y obj) = n -> length (r_d obj) = n ->
      (0 < n)%nat -> (0 < Rl.n_rep obj)%nat ->
      (0 < r0)%nat -> (0 < r1)%nat -> (0 < rm)%nat ->
      r_matrix (Rl.predictions obj "ml_g0") r0 (Rl.n_rep obj) ->
      r_matrix (Rl.predictions obj "ml_g1") r1 (Rl.n_rep obj) ->
      r_matrix (Rl.predictions obj "ml_m") rm (Rl.n_rep obj) ->
      (1 < r0 * Rl.n_rep obj)%nat -> (1 < r1 * Rl.n_rep obj)%nat ->
      r0 <> n \/ r1 <> n ->
      raises (Rl.pred_acc_irm obj false)).
Proof.
  split; [exact r_pred_acc_guard|].
  split; [exact py_regression_rows_mismatch|].
  split; [exact py_propensity_rows_mismatch|].
  split; [exact py_regression_slices|].
  split; [exact r_propensity_rows_mismatch|].
  exact r_regression_rows_mismatch.
Qed.

(** ** The statements at concrete inputs *)

Lemma C1_regression_rmse_witness :
  Py.pred_acc_irm py_example_regression false
  = Return (map (fun i =>
              rmse_of [1; 2; 3; 4]
                (blend [0; 1; 0; 1]
                   (py_col (Py.predictions py_example_regression "ml_g0") i)
                   (py_col (Py.predictions py_example_regression "ml_g1") i)))
              (seq 0 1)).
Proof.
  apply (proj1 C1_regression_rmse py_example_regression 4%nat).
  - reflexivity.
  - reflexivity.
  - lia.
  - cbn. binary.
  - cbn. auto.
  - cbn. auto.
Defined.

Lemma C2_propensity_logloss_witness :
  Py.pred_acc_irm py_example_propensity true
  = Return (map (fun i =>
              logloss_of 0.025 [0; 1]
                (py_col (Py.predictions py_example_propensity "ml_m") i))
              (seq 0 1)).
Proof.
  apply (proj1 C2_propensity_logloss py_example_propensity 2%nat).
  - discriminate.
  - reflexivity.
  - lia.
  - cbn. binary.
  - cbn. auto.
Defined.

Lemma C3_nonbinary_treatment_rejected_witness :
  Py.pred_acc_irm py_example_nonbinary false
  = Raise (Py.ValueError "Treatment must be a binary variable.").
Proof.
  apply (proj1 C3_nonbinary_treatment_rejected py_example_nonbinary false).
  - discriminate.
  - apply not_binary_with_2.
Defined.

Lemma C4_shape_errors_witness :
  Rl.pred_acc_irm r_example_two_treatments false
  = Raise (Rl.simpleError "Number of treatment variable is > 1. Helper function for nuisance accuracy is only implemented for 1 treatment variable.")
  /\ raises (Py.pred_acc_irm py_example_three_rows false)
  /\ raises (Py.pred_acc_irm py_example_three_rows true)
  /\ raises (Py.pred_acc_irm py_example_two_treatments false)
  /\ raises (Rl.pred_acc_irm r_example_three_rows true)
  /\ raises (Rl.pred_acc_irm r_example_three_rows false).
Proof.
  split; [|split; [|split; [|split; [|split]]]].
  - apply (proj1 C4_shape_errors r_example_two_treatments false).
    cbn. lia.
  - apply (proj1 (proj2 C4_shape_errors) py_example_three_rows 2%nat).
    + reflexivity.
    + reflexivity.
    + cbn. lia.
    + intros a0 H. cbn in H. injection H as <-. cbn. lia.
  - apply (proj1 (proj2 (proj2 C4_shape_errors))
             py_example_three_rows 2%nat).
    + reflexivity.
    + cbn. lia.
    + intros m H. cbn in H. injection H as <-. cbn. split; [reflexivity | lia].
  - apply (proj1 (proj2 (proj2 (proj2 C4_shape_errors)))
             py_example_two_treatments 3%nat (py_constant 3 1 2 1)).
    + reflexivity.
    + reflexivity.
    + lia.
    + cbn. lia.
    + reflexivity.
    + cbn. lia.
    + intros a1 H. cbn in H. injection H as <-. cbn. lia.
  - apply (proj1 (proj2 (proj2 (proj2 (proj2 C4_shape_errors))))
             r_example_three_rows 2%nat 3%nat 3%nat 3%nat).
    + cbn. lia.
    + reflexivity.
    + cbn. lia.
    + lia.
    + lia.
    + lia.
    + cbn. auto.
    + cbn. auto.
    + cbn. auto.
    + lia.
  - apply (proj2 (proj2 (proj2 (proj2 (proj2 C4_shape_errors))))
             r_example_three_rows 2%nat 3%nat 3%nat 3%nat).
    + cbn. lia.
    + reflexivity.
    + reflexivity.
    + lia.
    + cbn. lia.
    + lia.
    + lia.
    + lia.
    + cbn. auto.
    + cbn. auto.
    + cbn. auto.
    + cbn. lia.
    + cbn. lia.
    + left. lia.
Defined.

Lemma C5_summarizer_single_treatment_witness :
  Rl.rep_propscore_plot r_example_two_treatments
  = Raise (Rl.simpleError "Number of treatment variable is > 1. Helper function for nuisance accuracy is only implemented for 1 treatment variable.").
Proof.
  apply (proj1 C5_summarizer_single_treatment r_example_two_treatments).
  cbn. lia.
Defined.

Lemma py_example_regression_valid : py_valid py_example_regression_full 4.
Proof.
  unfold py_valid. cbn. repeat split; auto; try lia; binary.
Defined.

Lemma py_example_two_repetitions_valid :
  py_valid py_example_two_repetitions 4.
Proof.
  unfold py_valid. cbn. repeat split; auto; try lia; binary.
Defined.

Lemma r_example_two_repetitions_valid :
  r_valid r_example_two_repetitions 4.
Proof.
  unfold r_valid. cbn. repeat split; auto; try lia; binary.
Defined.

(** On the example with two repetitions the two columns give different
    values, each at its own position. *)
Lemma example_two_repetitions_values :
  Py.pred_acc_irm py_example_two_repetitions false = Return [sqrt 2; 0]
  /\ Rl.pred_acc_irm r_example_two_repetitions false
     = Return [Some (sqrt 2); Some 0]
  /\ sqrt 2 <> 0.
Proof.
  assert (Hzero : rmse_of [1; 2; 3; 4]
                    (blend [0; 1; 0; 1] [1; 2; 3; 4] [1; 2; 3; 4]) = 0).
  { unfold rmse_of, blend. cbn [combine map2 fst snd]. decide_reals.
    cbn [map2]. unfold mean, sum_list. cbn [fold_right length INR].
    replace ((_ + _) / _) with 0 by field. apply sqrt_0. }
  split; [|split].
  - rewrite (py_pred_acc_valid _ 4 false py_example_two_repetitions_valid).
    cbn [py_example_two_repetitions py_model Py.n_rep seq map accuracy_of
         Py._dml_data Py.y Py.d].
    do 2 f_equal; [exact example_rmse|]. f_equal. exact Hzero.
  - rewrite (r_pred_acc_valid _ 4 false r_example_two_repetitions_valid).
    cbn [r_example_two_repetitions r_model Rl.n_rep seq map accuracy_of].
    do 2 f_equal; [f_equal; exact example_rmse|]. do 2 f_equal. exact Hzero.
  - intros H. apply sqrt_eq_0 in H; lra.
Qed.

Lemma C6_one_metric_per_repetition_witness :
  (exists l,
     Py.pred_acc_irm py_example_two_repetitions false = Return l /\
     length l = 2%nat /\
     forall i, (i < 2)%nat ->
       nth_error l i
       = Some (accuracy_of false 0.025 [1; 2; 3; 4] [0; 1; 0; 1]
                 (py_col (Py.predictions py_example_two_repetitions "ml_g0") i)
                 (py_col (Py.predictions py_example_two_repetitions "ml_g1") i)
                 (py_col (Py.predictions py_example_two_repetitions "ml_m") i)))
  /\ (exists l,
        Rl.pred_acc_irm r_example_two_repetitions true = Return l /\
        length l = 2%nat /\
        forall i, (i < 2)%nat ->
          nth_error l i
          = Some (Some (accuracy_of true Rl.logloss_default_eps
                    [1; 2; 3; 4] [0; 1; 0; 1]
                    (r_col (Rl.predictions r_example_two_repetitions "ml_g0") i)
                    (r_col (Rl.predictions r_example_two_repetitions "ml_g1") i)
                    (r_col (Rl.predictions r_example_two_repetitions "ml_m") i)))).
Proof.
  split.
  - apply (proj1 C6_one_metric_per_repetition
             py_example_two_repetitions 4%nat false).
    exact py_example_two_repetitions_valid.
  - apply (proj2 C6_one_metric_per_repetition
             r_example_two_repetitions 4%nat true).
    exact r_example_two_repetitions_valid.
Defined.

Lemma C7_logloss_finite_nonnegative_witness :
  exists l,
    Py.pred_acc_irm py_example_propensity true = Return l /\
    length l = 1%nat /\
    Forall (fun v => 0 <= v <= - ln 0.025) l.
Proof.
  apply (proj1 C7_logloss_finite_nonnegative py_example_propensity 2%nat).
  - discriminate.
  - reflexivity.
  - lia.
  - cbn. binary.
  - cbn. auto.
Defined.



Lemma C10_pred_acc_plr_ignores_theta_witness :
  Rl.pred_acc_plr (with_coef r_example_plr [5]) "ml_l"
  = Rl.pred_acc_plr r_example_plr "ml_l".
Proof.
  apply (proj1 C10_pred_acc_plr_ignores_theta r_example_plr "ml_l" [5]).
  reflexivity.
Defined.

(** * Further properties of the helpers *)

(** ** Stored predictions that are missing *)

(** X1.  The Python accuracy helper needs the stored control-arm
    predictions in either mode: without them it raises [AttributeError]
    before it looks at the treatment.  In propensity mode missing
    propensity predictions raise [TypeError]; in regression mode missing
    treated-arm predictions make the helper fail as soon as one observation
    is treated. *)
Theorem X1_missing_predictions :
  (forall (M : Py.DoubleMLIRM) (prop : bool),
      Py.predictions M "ml_g0" = None ->
      Py.pred_acc_irm M prop = Raise Py.AttributeError)
  /\ (forall (M : Py.DoubleMLIRM),
      Py.predictions M "ml_g0" <> None ->
      binary (Py.d (Py._dml_data M)) ->
      (0 < Py.n_rep M)%nat ->
      Py.predictions M "ml_m" = None ->
      Py.pred_acc_irm M true = Raise Py.TypeError)
  /\ (forall (M : Py.DoubleMLIRM) (a0 : Py.ndarray3) (j : nat),
      Py.predictions M "ml_g0" = Some a0 ->
      Py.predictions M "ml_g1" = None ->
      (0 < Py.n_rep M)%nat ->
      (j < Py.shape0 a0)%nat ->
      nth_error (Py.d (Py._dml_data M)) j = Some 1 ->
      raises (Py.pred_acc_irm M false)).
Proof.
  split; [|split].
  - intros M prop H. unfold Py.pred_acc_irm. now rewrite H.
  - intros M Hg0 Hb Hw Hm. unfold Py.pred_acc_irm.
    destruct (Py.predictions M "ml_g0") as [a0|]; [|congruence].
    cbn [Py.shape_0 bind]. rewrite (proj1 (binary_isin _) Hb). cbn [negb].
    rewrite Hm. rewrite for_range_first; [reflexivity | exact Hw |].
    intros s'. discriminate.
  - intros M a0 j E0 E1 Hw Hj Hd. unfold Py.pred_acc_irm. rewrite E0, E1.
    cbn [Py.shape_0 bind].
    destruct (Py.isin_all _ _); cbn [negb]; [|now eexists].
    set (d := Py.d (Py._dml_data M)) in *.
    pose proof (py_export_specified d (Some a0) None (Py.shape0 a0)
                  (Py.n_rep M)) as Hspec.
    pose proof (py_export_returns_cell d (Some a0) None (Py.shape0 a0)
                  (Py.n_rep M)) as Hcell.
    cbv zeta in Hspec, Hcell.
    match goal with
    | |- raises (bind ?L _) => destruct L as [a|e|] eqn:EL
    end; [|apply raises_bind_raise|now elim Hspec].
    exfalso. destruct (Hcell a j eq_refl Hw Hj) as (b & b' & Hb).
    destruct (py_cell_cases d (Some a0) None 0 j b)
      as [(dj & b2 & Hnth & _ & _ & _ & a3 & Hsel & _) | (e & He)].
    + rewrite Hd in Hnth. injection Hnth as <-.
      rewrite (Reqb_false 1 0) in Hsel by lra. discriminate.
    + cbv zeta in He. rewrite He in Hb. discriminate.
Qed.

Lemma X1_missing_predictions_witness :
  Py.pred_acc_irm py_example_histogram false = Raise Py.AttributeError
  /\ Py.pred_acc_irm py_example_regression true = Raise Py.TypeError
  /\ raises (Py.pred_acc_irm py_example_no_g1 false).
Proof.
  split; [|split].
  - apply (proj1 X1_missing_predictions). reflexivity.
  - apply (proj1 (proj2 X1_missing_predictions)).
    + discriminate.
    + cbn. binary.
    + cbn. lia.
    + reflexivity.
  - apply (proj2 (proj2 X1_missing_predictions) py_example_no_g1
             (py_array 4 1 [[1]; [1]; [1]; [1]]) 1%nat).
    + reflexivity.
    + reflexivity.
    + cbn. lia.
    + cbn. lia.
    + reflexivity.
Defined.

(** ** The root-mean-squared error *)

Lemma squares_nonneg (y b : list R) :
  Forall (fun t => 0 <= t) (map2 (fun a b => (a - b) ^ 2) y b).
Proof.
  revert b. induction y as [|a y IH]; intros [|c b]; cbn [map2];
    constructor; auto.
  apply pow2_ge_0.
Qed.

Lemma sum_list_nonneg (l : list R) :
  Forall (fun t => 0 <= t) l -> 0 <= sum_list l.
Proof.
  induction 1 as [|t l Ht _ IH]; cbn [sum_list fold_right]; [lra|].
  fold (sum_list l). lra.
Qed.

Lemma squares_sum_zero (y b : list R) :
  length y = length b ->
  sum_list (map2 (fun a b => (a - b) ^ 2) y b) = 0 -> y = b.
Proof.
  revert b. induction y as [|a y IH]; intros [|c b] Hlen Hsum;
    try discriminate; [reflexivity|].
  cbn [map2 sum_list fold_right] in Hsum.
  fold (sum_list (map2 (fun a b => (a - b) ^ 2) y b)) in Hsum.
  pose proof (pow2_ge_0 (a - c)) as H1.
  pose proof (sum_list_nonneg _ (squares_nonneg y b)) as H2.
  assert (Hsq : (a - c) ^ 2 = 0) by lra.
  assert (Hrest : sum_list (map2 (fun a b => (a - b) ^ 2) y b) = 0) by lra.
  f_equal.
  - assert (a - c = 0) by (apply Rsqr_0_uniq; unfold Rsqr; lra). lra.
  - apply IH; [now injection Hlen | exact Hrest].
Qed.

Lemma squares_same (y : list R) :
  sum_list (map2 (fun a b => (a - b) ^ 2) y y) = 0.
Proof.
  induction y as [|a y IH]; cbn [map2 sum_list fold_right]; [reflexivity|].
  fold (sum_list (map2 (fun a b => (a - b) ^ 2) y y)). rewrite IH. ring.
Qed.

Lemma mean_nonneg (l : list R) :
  Forall (fun t => 0 <= t) l -> 0 <= mean l.
Proof.
  intros H. unfold mean. pose proof (sum_list_nonneg l H).
  pose proof (pos_INR (length l)) as [Hp | Hz].
  - apply Rmult_le_pos; [assumption|]. left. now apply Rinv_0_lt_compat.
  - rewrite <- Hz. unfold Rdiv. rewrite Rinv_0. lra.
Qed.

(** The error is 0 exactly when the predictions are the outcomes. *)
Lemma rmse_zero_iff (y b : list R) :
  length y = length b -> (0 < length y)%nat ->
  rmse_of y b = 0 <-> b = y.
Proof.
  intros Hlen Hpos. unfold rmse_of. split.
  - intros H. apply sqrt_eq_0 in H; [|apply mean_nonneg, squares_nonneg].
    unfold mean in H.
    assert (Hn : 0 < INR (length (map2 (fun a b => (a - b) ^ 2) y b))).
    { rewrite map2_length by exact Hlen. now apply lt_0_INR. }
    symmetry. apply squares_sum_zero; [exact Hlen|].
    apply Rmult_eq_reg_r with (/ INR (length (map2 (fun a b => (a - b) ^ 2) y b))).
    + unfold Rdiv in H. rewrite H. ring.
    + apply Rinv_neq_0_compat. lra.
  - intros ->. unfold mean. rewrite squares_same. unfold Rdiv.
    rewrite Rmult_0_l. apply sqrt_0.
Qed.

(** The error is at most the largest deviation. *)
Lemma rmse_bounds (y b : list R) (B : R) :
  length y = length b -> (0 < length y)%nat ->
  Forall2 (fun a c => Rabs (a - c) <= B) y b ->
  0 <= rmse_of y b <= B.
Proof.
  intros Hlen Hpos Hdev. unfold rmse_of. split; [apply sqrt_pos|].
  assert (HB : 0 <= B).
  { destruct Hdev as [|a c y b H _]; [cbn in Hpos; lia|].
    pose proof (Rabs_pos (a - c)). lra. }
  rewrite <- (sqrt_square B HB). apply sqrt_le_1_alt.
  apply (mean_bounds _ 0 (B * B)).
  - now rewrite map2_length.
  - clear Hlen Hpos. induction Hdev as [|a c y b H _ IH]; cbn [map2];
      constructor; auto.
    split; [apply pow2_ge_0|].
    replace ((a - c) ^ 2) with (Rabs (a - c) * Rabs (a - c)).
    + pose proof (Rabs_pos (a - c)). nra.
    + rewrite <- Rabs_mult. rewrite Rabs_pos_eq; [ring|].
      replace ((a - c) * (a - c)) with ((a - c) ^ 2) by ring.
      apply pow2_ge_0.
Qed.

(** X2.  In regression mode the accuracy of a repetition is 0 exactly when
    the selected prediction (treated-arm where treated, control-arm
    otherwise) equals the outcome for every observation. *)
Theorem X2_rmse_zero_iff_exact :
  forall (M : Py.DoubleMLIRM) (n : nat),
    let y := Py.y (Py._dml_data M) in
    let d := Py.d (Py._dml_data M) in
    let g0 := Py.predictions M "ml_g0" in
    let g1 := Py.predictions M "ml_g1" in
    length y = n -> length d = n -> (0 < n)%nat -> binary d ->
    py_matrix g0 n (Py.n_rep M) -> py_matrix g1 n (Py.n_rep M) ->
    exists l,
      Py.pred_acc_irm M false = Return l /\
      forall i, (i < Py.n_rep M)%nat ->
        (nth_error l i = Some 0 <->
         blend d (py_col g0 i) (py_col g1 i) = y).
Proof.
  intros M n y d g0 g1 Hy Hd Hn Hb Hg0 Hg1. eexists.
  split; [now apply (py_regression_result M n)|].
  intros i Hi. rewrite nth_error_map_seq by exact Hi.
  assert (Hlen : length y = length (blend d (py_col g0 i) (py_col g1 i))).
  { unfold blend. rewrite map2_length.
    - lia.
    - rewrite length_combine,
        (py_col_length g0 n (Py.n_rep M)), (py_col_length g1 n (Py.n_rep M))
        by assumption. lia. }
  assert (Hpos : (0 < length y)%nat) by (rewrite Hy; exact Hn).
  split.
  - intros H. injection H as H. now apply rmse_zero_iff in H.
  - intros H. f_equal. now apply rmse_zero_iff.
Qed.

Lemma X2_rmse_zero_iff_exact_witness :
  exists l,
    Py.pred_acc_irm py_example_regression false = Return l /\
    forall i, (i < 1)%nat ->
      (nth_error l i = Some 0 <->
       blend [0; 1; 0; 1]
         (py_col (Py.predictions py_example_regression "ml_g0") i)
         (py_col (Py.predictions py_example_regression "ml_g1") i)
       = [1; 2; 3; 4]).
Proof.
  apply (X2_rmse_zero_iff_exact py_example_regression 4%nat).
  - reflexivity.
  - reflexivity.
  - lia.
  - cbn. binary.
  - cbn. auto.
  - cbn. auto.
Defined.

(** X3.  In regression mode every returned accuracy is non-negative and at
    most the largest absolute deviation between an outcome and its selected
    prediction. *)
Theorem X3_rmse_bounded_by_deviation :
  forall (M : Py.DoubleMLIRM) (n : nat) (B : R),
    let y := Py.y (Py._dml_data M) in
    let d := Py.d (Py._dml_data M) in
    let g0 := Py.predictions M "ml_g0" in
    let g1 := Py.predictions M "ml_g1" in
    length y = n -> length d = n -> (0 < n)%nat -> binary d ->
    py_matrix g0 n (Py.n_rep M) -> py_matrix g1 n (Py.n_rep M) ->
    (forall i, (i < Py.n_rep M)%nat ->
       Forall2 (fun a c => Rabs (a - c) <= B) y
               (blend d (py_col g0 i) (py_col g1 i))) ->
    exists l,
      Py.pred_acc_irm M false = Return l /\
      Forall (fun v => 0 <= v <= B) l.
Proof.
  intros M n B y d g0 g1 Hy Hd Hn Hb Hg0 Hg1 Hdev. eexists.
  split; [now apply (py_regression_result M n)|].
  apply Forall_forall. intros v Hv. apply in_map_iff in Hv.
  destruct Hv as (i & <- & Hi). apply in_seq in Hi.
  specialize (Hdev i ltac:(lia)).
  apply rmse_bounds.
  - exact (Forall2_length Hdev).
  - change (0 < length y)%nat. rewrite Hy. exact Hn.
  - exact Hdev.
Qed.

Lemma X3_rmse_bounded_by_deviation_witness :
  exists l,
    Py.pred_acc_irm py_example_regression false = Return l /\
    Forall (fun v => 0 <= v <= 2) l.
Proof.
  apply (X3_rmse_bounded_by_deviation py_example_regression 4%nat 2).
  - reflexivity.
  - reflexivity.
  - lia.
  - cbn. binary.
  - cbn. auto.
  - cbn. auto.
  - intros i Hi. cbn in Hi. replace i with 0%nat by lia.
    unfold blend. cbn. decide_reals.
    repeat (apply Forall2_cons; [apply Rabs_le; lra|]). apply Forall2_nil.
Defined.

(** ** The log-loss under clamping *)

Lemma mean_constant (c : R) (l : list R) :
  (0 < length l)%nat -> Forall (fun t => t = c) l -> mean l = c.
Proof.
  intros Hlen Hall.
  assert (H : c <= mean l <= c).
  { apply mean_bounds; [exact Hlen|].
    eapply Forall_impl; [|exact Hall]. intros t ->. lra. }
  lra.
Qed.

(** No log-loss is below minus the logarithm of [1 - eps]. *)
Lemma logloss_floor (eps : R) (d p : list R) :
  0 < eps <= 1 / 2 -> binary d -> length d = length p ->
  (0 < length d)%nat ->
  - ln (1 - eps) <= logloss_of eps d p.
Proof.
  intros [He0 He] Hb Hlen Hpos. unfold logloss_of.
  assert (H : ln eps
              <= mean (map2 (fun dj pj =>
                         let q := clip pj eps (1 - eps) in
                         dj * ln q + (1 - dj) * ln (1 - q)) d p)
              <= ln (1 - eps)).
  { apply mean_bounds.
    - now rewrite map2_length.
    - apply (Forall_map2 (fun x => x = 0 \/ x = 1)); [|exact Hb].
      intros x y Hx. cbv zeta.
      pose proof (clip_bounds y eps He) as Hq.
      assert (Hq' : eps <= 1 - clip y eps (1 - eps) <= 1 - eps) by lra.
      assert (H1 : ln eps <= ln (clip y eps (1 - eps)) <= ln (1 - eps))
        by (split; apply ln_monotone; lra).
      assert (H2 : ln eps <= ln (1 - clip y eps (1 - eps)) <= ln (1 - eps))
        by (split; apply ln_monotone; lra).
      destruct Hx as [-> | ->]; lra. }
  lra.
Qed.

(** Predicting every treatment exactly gives that smallest value. *)
Lemma logloss_exact (eps : R) (d : list R) :
  0 < eps <= 1 / 2 -> binary d -> (0 < length d)%nat ->
  logloss_of eps d d = - ln (1 - eps).
Proof.
  intros [He0 He] Hb Hpos. unfold logloss_of. f_equal.
  apply mean_constant.
  - now rewrite map2_length.
  - clear Hpos. induction Hb as [|x d Hx _ IH]; cbn [map2]; constructor; auto.
    cbv zeta. destruct Hx as [-> | ->]; decide_clip.
    + replace (1 - eps) with (1 - eps) by reflexivity. ring.
    + ring.
Qed.

(** X4.  With its bound 0.025 the Python helper never returns a log-loss
    below [- ln 0.975], which is positive; it returns exactly that value
    for a repetition whose predictions equal the observed treatments.
    Both treatment values are taken to be observed. *)
Theorem X4_logloss_floor :
  0 < - ln 0.975 /\
  forall (M : Py.DoubleMLIRM) (n : nat),
    let d := Py.d (Py._dml_data M) in
    let m := Py.predictions M "ml_m" in
    Py.predictions M "ml_g0" <> None ->
    length d = n -> (0 < n)%nat -> binary d -> In 0 d -> In 1 d ->
    py_matrix m n (Py.n_rep M) ->
    exists l,
      Py.pred_acc_irm M true = Return l /\
      Forall (fun v => - ln 0.975 <= v) l /\
      forall i, (i < Py.n_rep M)%nat -> py_col m i = d ->
                nth_error l i = Some (- ln 0.975).
Proof.
  split.
  - assert (ln 0.975 < ln 1) by (apply ln_increasing; lra).
    rewrite ln_1 in H. lra.
  - intros M n d m Hg0 Hd Hn Hb _ _ Hm. eexists.
    split; [now apply (py_propensity_result M n)|].
    replace 0.975 with (1 - 0.025) by lra. split.
    + apply Forall_forall. intros v Hv. apply in_map_iff in Hv.
      destruct Hv as (i & <- & _).
      apply logloss_floor; auto using eps_025.
      * fold d. rewrite (py_col_length _ n (Py.n_rep M)); auto.
      * fold d. rewrite Hd. exact Hn.
    + intros i Hi Hcol. rewrite nth_error_map_seq by exact Hi.
      fold m d. rewrite Hcol. f_equal.
      apply logloss_exact; auto using eps_025.
      rewrite Hd. exact Hn.
Qed.

Lemma X4_logloss_floor_witness :
  exists l,
    Py.pred_acc_irm py_example_propensity true = Return l /\
    Forall (fun v => - ln 0.975 <= v) l /\
    forall i, (i < 1)%nat ->
      py_col (Py.predictions py_example_propensity "ml_m") i = [0; 1] ->
      nth_error l i = Some (- ln 0.975).
Proof.
  apply (proj2 X4_logloss_floor py_example_propensity 2%nat).
  - discriminate.
  - reflexivity.
  - lia.
  - cbn. binary.
  - cbn. auto.
  - cbn. auto.
  - cbn. auto.
Defined.

(** ** The two language variants side by side *)

Lemma clip_inside (x eps : R) :
  eps <= x <= 1 - eps -> clip x eps (1 - eps) = x.
Proof.
  intros H. unfold clip. rewrite Rmin_left by lra. now rewrite Rmax_right by lra.
Qed.

Lemma logloss_inside (eps eps' : R) (d p : list R) :
  eps' <= eps ->
  Forall (fun x => eps <= x <= 1 - eps) p ->
  logloss_of eps' d p = logloss_of eps d p.
Proof.
  intros He Hp. unfold logloss_of. do 2 f_equal.
  revert d. induction Hp as [|x p Hx _ IH]; intros [|dj d]; cbn [map2];
    try reflexivity.
  cbv zeta. rewrite !clip_inside by lra. now rewrite IH.
Qed.

(** X6.  On the same valid data the Python and the R accuracy helper
    return the same values in regression mode. *)
Theorem X6_variants_agree_regression :
  forall (M : Py.DoubleMLIRM) (obj : Rl.DoubleML) (n : nat),
    py_valid M n -> r_valid obj n -> same_inputs M obj ->
    exists l,
      Py.pred_acc_irm M false = Return l /\
      Rl.pred_acc_irm obj false = Return (map Some l).
Proof.
  intros M obj n HM Hobj (Hy & Hd & Hw & Hcols). eexists.
  split; [exact (py_pred_acc_valid M n false HM)|].
  rewrite (r_pred_acc_valid obj n false Hobj), map_map, <- Hw.
  f_equal. apply map_ext_in. intros i Hi. apply in_seq in Hi.
  cbn [accuracy_of]. rewrite Hy, Hd, !Hcols by lia. reflexivity.
Qed.

Lemma example_same_inputs :
  same_inputs py_example_regression_full r_example_regression_full.
Proof.
  repeat split. intros key i Hi. cbn in Hi.
  replace i with 0%nat by lia.
  cbn [py_example_regression_full r_example_regression_full
       r_example_regression py_model r_model Py.predictions Rl.predictions].
  unfold table. repeat (destruct (String.eqb key _); [reflexivity|]).
  reflexivity.
Defined.

Lemma r_example_regression_valid : r_valid r_example_regression_full 4.
Proof.
  unfold r_valid. cbn. repeat split; auto; try lia; binary.
Defined.

Lemma X6_variants_agree_regression_witness :
  exists l,
    Py.pred_acc_irm py_example_regression_full false = Return l /\
    Rl.pred_acc_irm r_example_regression_full false = Return (map Some l).
Proof.
  apply (X6_variants_agree_regression
           py_example_regression_full r_example_regression_full 4%nat).
  - exact py_example_regression_valid.
  - exact r_example_regression_valid.
  - exact example_same_inputs.
Defined.

(** X7.  In propensity mode the two variants return the same values when
    both treatment values are observed and no stored probability lies
    outside [[0.025, 0.975]]; outside that range only the Python helper
    clamps at 0.025. *)
Theorem X7_variants_agree_propensity :
  forall (M : Py.DoubleMLIRM) (obj : Rl.DoubleML) (n : nat),
    py_valid M n -> r_valid obj n -> same_inputs M obj ->
    In 0 (Py.d (Py._dml_data M)) -> In 1 (Py.d (Py._dml_data M)) ->
    (forall i, (i < Py.n_rep M)%nat ->
       Forall (fun p => 0.025 <= p <= 1 - 0.025)
              (py_col (Py.predictions M "ml_m") i)) ->
    exists l,
      Py.pred_acc_irm M true = Return l /\
      Rl.pred_acc_irm obj true = Return (map Some l).
Proof.
  intros M obj n HM Hobj (Hy & Hd & Hw & Hcols) _ _ Hin. eexists.
  split; [exact (py_pred_acc_valid M n true HM)|].
  rewrite (r_pred_acc_valid obj n true Hobj), map_map, <- Hw.
  f_equal. apply map_ext_in. intros i Hi. apply in_seq in Hi.
  cbn [accuracy_of]. rewrite <- Hd, <- Hcols by lia. f_equal.
  apply logloss_inside; [|apply Hin; lia].
  pose proof default_eps_tiny. lra.
Qed.

Lemma X7_variants_agree_propensity_witness :
  exists l,
    Py.pred_acc_irm py_example_regression_full true = Return l /\
    Rl.pred_acc_irm r_example_regression_full true = Return (map Some l).
Proof.
  apply (X7_variants_agree_propensity
           py_example_regression_full r_example_regression_full 4%nat).
  - exact py_example_regression_valid.
  - exact r_example_regression_valid.
  - exact example_same_inputs.
  - cbn. auto.
  - cbn. auto.
  - intros i Hi. cbn in Hi. replace i with 0%nat by lia.
    cbn. repeat (apply Forall_cons; [lra|]). apply Forall_nil.
Defined.

(** ** The layout of the propensity figure *)

(** X8.  The Python summarizer returns one subplot per repetition, titled
    "repetition 1", "repetition 2", ... with the axis labels "prop_score"
    and "count".  With a single repetition the one subplot holds the
    histogram twice; with more repetitions every subplot holds it once. *)
Theorem X8_subplots_and_labels :
  forall (M : Py.DoubleMLIRM) (n : nat),
    py_matrix (Py.predictions M "ml_m") n (Py.n_rep M) ->
    (1 <= Py.n_rep M)%nat ->
    exists fig,
      Py.rep_propscore_plot M = Return fig /\
      length fig = Py.n_rep M /\
      forall i, (i < Py.n_rep M)%nat ->
        exists ax,
          nth_error fig i = Some ax /\
          length (Py.artists ax)
          = (if (Py.n_rep M =? 1)%nat then 2 else 1)%nat /\
          Py.title ax = ("repetition " ++ str (i + 1))%string /\
          Py.xlabel ax = "prop_score" /\
          Py.ylabel ax = "count".
Proof.
  intros M n Hm Hw. rewrite (py_propscore_result M n Hm Hw).
  destruct (1 <? Py.n_rep M)%nat eqn:Hrep.
  - apply Nat.ltb_lt in Hrep. eexists. split; [reflexivity|]. split.
    + now rewrite length_map, length_seq.
    + intros i Hi. eexists. split; [now apply nth_error_map_seq|].
      replace (Py.n_rep M =? 1)%nat with false
        by (symmetry; apply Nat.eqb_neq; lia).
      repeat split.
  - apply Nat.ltb_ge in Hrep. assert (H1 : Py.n_rep M = 1%nat) by lia.
    eexists. split; [reflexivity|]. rewrite H1. split; [reflexivity|].
    intros i Hi. replace i with 0%nat by lia.
    eexists. split; [reflexivity|]. repeat split.
Qed.

Lemma X8_subplots_and_labels_witness :
  exists fig,
    Py.rep_propscore_plot py_example_histogram = Return fig /\
    length fig = 1%nat /\
    forall i, (i < 1)%nat ->
      exists ax,
        nth_error fig i = Some ax /\
        length (Py.artists ax) = 2%nat /\
        Py.title ax = ("repetition " ++ str (i + 1))%string /\
        Py.xlabel ax = "prop_score" /\
        Py.ylabel ax = "count".
Proof.
  apply (X8_subplots_and_labels py_example_histogram 3%nat).
  - cbn. auto.
  - cbn. lia.
Defined.

(** ** More on the helper of the partially linear model *)

(** X9.  For the component "ml_m" the helper of the partially linear
    model scores the stored predictions against the outcome column: the
    treatment column does not enter the result, which is the same whatever
    the treatments are.  For a component without stored predictions the helper
    fails. *)
Theorem X9_pred_acc_plr_treatment_and_missing :
  (forall (obj : Rl.DoubleML) (d' : list R),
      Rl.y_col (Rl.data obj) <> Rl.treat_col (Rl.data obj) ->
      Rl.pred_acc_plr (r_with_treatment obj d') "ml_m"
      = Rl.pred_acc_plr obj "ml_m")
  /\ (forall (obj : Rl.DoubleML) (nuis : string),
      Rl.predictions obj nuis = None ->
      Rl.pred_acc_plr obj nuis = Raise Rl.library_error).
Proof.
  split.
  - intros obj d' Hne. unfold Rl.pred_acc_plr.
    cbn [r_with_treatment Rl.data Rl.predictions Rl.data_model Rl.y_col
         Rl.treat_col String.eqb Ascii.eqb Bool.eqb bind].
    unfold Rl.column at 1. cbn [Rl.data_model].
    rewrite (proj2 (String.eqb_neq _ _) Hne). reflexivity.
  - intros obj nuis Hnone. unfold Rl.pred_acc_plr. rewrite Hnone.
    assert (Hrmse : forall y, Rl.rmse y (Rl.as_vector None)
                              = Raise Rl.library_error).
    { intros y. unfold Rl.rmse. cbn [Rl.as_vector length].
      destruct y; reflexivity. }
    destruct (String.eqb nuis "ml_l"); [cbn [bind]; apply Hrmse|].
    destruct (String.eqb nuis "ml_m"); cbn [bind]; apply Hrmse.
Qed.

Lemma X9_pred_acc_plr_treatment_and_missing_witness :
  Rl.pred_acc_plr (r_with_treatment r_example_plr [7]) "ml_m"
  = Rl.pred_acc_plr r_example_plr "ml_m"
  /\ Rl.pred_acc_plr r_example_plr "ml_g0" = Raise Rl.library_error.
Proof.
  split.
  - apply (proj1 X9_pred_acc_plr_treatment_and_missing).
    cbn. discriminate.
  - apply (proj2 X9_pred_acc_plr_treatment_and_missing).
    reflexivity.
Defined.

(** ** The metric of the uplift notebook *)

Lemma map_nth_seq (l : list R) :
  map (fun j => nth j l 0) (seq 0 (length l)) = l.
Proof.
  apply nth_error_ext. intros k.
  destruct (Nat.lt_ge_cases k (length l)) as [Hk | Hk].
  - rewrite nth_error_map_seq by exact Hk. symmetry.
    now apply nth_error_nth'.
  - rewrite (proj2 (nth_error_None l k)) by exact Hk.
    apply nth_error_None. now rewrite length_map, length_seq.
Qed.

Lemma py_log_loss_vector (yt yp : list R) (eps : R) :
  length yt = length yp -> (0 < length yt)%nat ->
  Py.log_loss yt (PyCells.as_column yp) eps = Return (logloss_of eps yt yp).
Proof.
  intros Hlen Hpos. unfold Py.log_loss. cbn [PyCells.as_column Py.cols Py.rows].
  rewrite Hlen, !Nat.eqb_refl, <- Hlen, (proj2 (Nat.ltb_lt _ _) Hpos).
  cbn [andb]. rewrite py_ravel_column by reflexivity.
  cbn [PyCells.as_column Py.rows Py.item2]. now rewrite map_nth_seq.
Qed.

Lemma mask_targets (rows : list row) :
  map fst (filter snd
    (combine (y_true_of rows)
             (map (fun x => negb (PyCells.isnan x)) (y_true_of rows))))
  = map Some (observed_targets rows).
Proof.
  induction rows as [|[t p | p] rows IH]; cbn;
    [reflexivity | f_equal; exact IH | exact IH].
Qed.

Lemma mask_predictions (rows : list row) :
  map fst (filter snd
    (combine (y_pred_of rows)
             (map (fun x => negb (PyCells.isnan x)) (y_true_of rows))))
  = map Some (observed_predictions rows).
Proof.
  induction rows as [|[t p | p] rows IH]; cbn;
    [reflexivity | f_equal; exact IH | exact IH].
Qed.

Lemma finite_values (l : list R) : PyCells.finite (map Some l) = Return l.
Proof.
  induction l as [|x l IH]; cbn; [reflexivity|]. now rewrite IH.
Qed.

Lemma observed_lengths (rows : list row) :
  length (observed_targets rows) = length (observed_predictions rows).
Proof.
  induction rows as [|[t p | p] rows IH]; cbn; auto.
Qed.

(** X10.  [logloss] of the uplift notebook scores the rows with a target
    only: rows whose target is NaN are dropped together with their
    predictions, whatever these are (also NaN), and the remaining targets
    and predictions are handed to the metric library.  With binary targets
    of both classes the result is their log-loss. *)
Theorem X10_logloss_skips_missing_targets :
  forall (eps : R) (rows : list row),
    PyCells.logloss eps (y_true_of rows) (y_pred_of rows)
    = Py.log_loss (observed_targets rows)
        (PyCells.as_column (observed_predictions rows)) eps
    /\ (binary (observed_targets rows) ->
        In 0 (observed_targets rows) -> In 1 (observed_targets rows) ->
        PyCells.logloss eps (y_true_of rows) (y_pred_of rows)
        = Return (logloss_of eps (observed_targets rows)
                    (observed_predictions rows))).
Proof.
  intros eps rows.
  assert (Hmask : PyCells.logloss eps (y_true_of rows) (y_pred_of rows)
                  = Py.log_loss (observed_targets rows)
                      (PyCells.as_column (observed_predictions rows)) eps).
  { unfold PyCells.logloss, PyCells.getitem_mask.
    rewrite mask_targets, mask_predictions.
    assert (Ht : length (y_true_of rows) = length rows)
      by (unfold y_true_of; apply length_map).
    assert (Hp : length (y_pred_of rows) = length rows)
      by (unfold y_pred_of; apply length_map).
    rewrite !length_map, Ht, Hp, Nat.eqb_refl.
    cbn [bind]. rewrite !finite_values. reflexivity. }
  split; [exact Hmask|].
  intros _ H0 _. rewrite Hmask.
  apply py_log_loss_vector; [apply observed_lengths|].
  destruct (observed_targets rows); [destruct H0 | cbn; lia].
Qed.

Lemma X10_logloss_skips_missing_targets_witness :
  PyCells.logloss 0.025
    (y_true_of [Observed 0 (1 / 10); Missing None; Observed 1 (9 / 10)])
    (y_pred_of [Observed 0 (1 / 10); Missing None; Observed 1 (9 / 10)])
  = Return (logloss_of 0.025 [0; 1] [1 / 10; 9 / 10]).
Proof.
  apply (proj2 (X10_logloss_skips_missing_targets 0.025
           [Observed 0 (1 / 10); Missing None; Observed 1 (9 / 10)])).
  - cbn. binary.
  - cbn. auto.
  - cbn. auto.
Defined.

Lemma finite_masked_targets (y_true : list (option R)) :
  exists l,
    PyCells.finite
      (map fst (filter snd
         (combine y_true (map (fun x => negb (PyCells.isnan x)) y_true))))
    = Return l.
Proof.
  induction y_true as [|[t|] y_true (l & IH)]; cbn.
  - now exists [].
  - rewrite IH. now eexists.
  - now exists l.
Qed.

Lemma finite_with_nan (l : list (option R)) :
  In None l -> PyCells.finite l = Raise Py.LibraryValueError.
Proof.
  induction l as [|[x|] l IH]; intros Hin; cbn.
  - destruct Hin.
  - destruct Hin as [H | H]; [discriminate|]. now rewrite IH.
  - reflexivity.
Qed.

Lemma masked_in (y_true y_pred : list (option R)) (j : nat) (t : R)
  (p : option R) :
  nth_error y_true j = Some (Some t) -> nth_error y_pred j = Some p ->
  In p (map fst (filter snd
          (combine y_pred (map (fun x => negb (PyCells.isnan x)) y_true)))).
Proof.
  revert y_true y_pred. induction j as [|j IH]; intros [|a y_true] [|b y_pred];
    cbn [nth_error]; try discriminate.
  - intros Ha Hb. injection Ha as ->. injection Hb as ->. cbn. now left.
  - intros Ha Hb. cbn [map combine filter snd].
    destruct (negb (PyCells.isnan a)); cbn [map fst]; [right|]; now apply IH.
Qed.

(** X11.  [logloss] of the uplift notebook raises [IndexError] when the
    predictions are not as many as the targets, and the error of the
    metric library when a prediction is NaN where the target is not. *)
Theorem X11_logloss_errors :
  (forall (eps : R) (y_true y_pred : list (option R)),
      length y_pred <> length y_true ->
      PyCells.logloss eps y_true y_pred = Raise Py.IndexError)
  /\ (forall (eps : R) (y_true y_pred : list (option R)) (j : nat) (t : R),
      length y_pred = length y_true ->
      nth_error y_true j = Some (Some t) ->
      nth_error y_pred j = Some None ->
      PyCells.logloss eps y_true y_pred = Raise Py.LibraryValueError).
Proof.
  split.
  - intros eps y_true y_pred Hlen. unfold PyCells.logloss, PyCells.getitem_mask.
    rewrite !length_map, Nat.eqb_refl. cbn [bind].
    now rewrite (proj2 (Nat.eqb_neq _ _) Hlen).
  - intros eps y_true y_pred j t Hlen Ht Hp.
    unfold PyCells.logloss, PyCells.getitem_mask.
    rewrite !length_map, Hlen, Nat.eqb_refl. cbn [bind].
    destruct (finite_masked_targets y_true) as (l & Hl). rewrite Hl.
    cbn [bind]. now rewrite (finite_with_nan _ (masked_in _ _ j t None Ht Hp)).
Qed.

Lemma X11_logloss_errors_witness :
  PyCells.logloss 0.025 [Some 0; Some 1] [Some (1 / 2)] = Raise Py.IndexError
  /\ PyCells.logloss 0.025 [Some 0; Some 1] [Some (1 / 2); None]
     = Raise Py.LibraryValueError.
Proof.
  split.
  - apply (proj1 X11_logloss_errors). cbn. lia.
  - apply (proj2 X11_logloss_errors 0.025 [Some 0; Some 1]
             [Some (1 / 2); None] 1%nat 1); reflexivity.
Defined.

(** ** The feature names of the demand notebooks *)

Lemma map_flat_map {A B C : Type} (f : B -> C) (g : A -> list B) (l : list A) :
  map f (flat_map g l) = flat_map (fun x => map f (g x)) l.
Proof.
  induction l as [|x l IH]; cbn; [reflexivity|].
  now rewrite map_app, IH.
Qed.

Lemma map_nth_seq_string (l : list string) :
  map (fun j => nth j l "") (seq 0 (length l)) = l.
Proof.
  apply nth_error_ext. intros k.
  destruct (Nat.lt_ge_cases k (length l)) as [Hk | Hk].
  - rewrite nth_error_map_seq by exact Hk. symmetry.
    now apply nth_error_nth'.
  - rewrite (proj2 (nth_error_None l k)) by exact Hk.
    apply nth_error_None. now rewrite length_map, length_seq.
Qed.

Lemma flat_map_seq_shift {B : Type} (f : nat -> list B) (a n : nat) :
  flat_map f (seq a n) = flat_map (fun k => f (a + k)%nat) (seq 0 n).
Proof.
  revert a. induction n as [|n IH]; intros a; [reflexivity|].
  rewrite !seq_S, !flat_map_app, IH. cbn. reflexivity.
Qed.

(** With five names or more the filter of the R notebook compares every
    name with the left-out name at its own position, counted modulo 5. *)
Lemma r_feature_names_long (names : list string) :
  (5 <= length names)%nat ->
  RCells.feature_names names
  = flat_map (fun i =>
      if String.eqb (nth i names "") (nth (i mod 5) left_out "")
      then [] else [Some (nth i names "")])
      (seq 0 (length names)).
Proof.
  intros Hlen. unfold RCells.feature_names, RCells.neq.
  destruct names as [|x names'] eqn:En; [cbn in Hlen; lia|].
  rewrite <- En in *. clear En x names'.
  change (length ["Quantity"; "revenue"; "UnitPrice"; "dLnP"; "dLnQ"])
    with 5%nat.
  rewrite Nat.max_l by exact Hlen.
  set (g := fun i => negb (String.eqb (nth (i mod length names) names "")
      (nth (i mod 5) ["Quantity"; "revenue"; "UnitPrice"; "dLnP"; "dLnQ"] ""))).
  unfold RCells.index_logical.
  destruct (map g (seq 0 (length names))) as [|m0 mask] eqn:Em.
  - apply (f_equal (@length bool)) in Em.
    rewrite length_map, length_seq in Em. cbn in Em. lia.
  - rewrite <- Em. clear Em m0 mask.
    rewrite length_map, length_seq, Nat.max_id.
    apply flat_map_ext_seq. intros i Hi.
    rewrite Nat.mod_small by lia.
    rewrite (nth_map_in g (seq 0 (length names)) i 0%nat false)
      by (rewrite length_seq; lia).
    rewrite seq_nth by lia. cbn [Nat.add]. unfold g.
    rewrite Nat.mod_small by lia.
    rewrite (nth_error_nth' names "") by lia.
    unfold left_out. now destruct (String.eqb _ _).
Qed.

(** X12.  The filter of the R demand notebook works by position: with five
    names or more it returns no [NA], and it keeps exactly the names that
    differ from the left-out name standing at their own position modulo 5
    in the vector ("Quantity", "revenue", "UnitPrice", "dLnP", "dLnQ").  A
    left-out name at any other position is kept. *)
Theorem X12_feature_names_by_position :
  forall names : list string,
    (5 <= length names)%nat ->
    exists kept,
      RCells.feature_names names = map Some kept /\
      forall s, In s kept <->
        exists i, nth_error names i = Some s /\
                  nth (i mod 5) left_out "" <> s.
Proof.
  intros names Hlen.
  exists (flat_map (fun i =>
            if String.eqb (nth i names "") (nth (i mod 5) left_out "")
            then [] else [nth i names ""]) (seq 0 (length names))).
  split.
  - rewrite (r_feature_names_long names Hlen), map_flat_map.
    apply flat_map_ext. intros i. now destruct (String.eqb _ _).
  - intros s. rewrite in_flat_map. split.
    + intros (i & Hi & Hin). apply in_seq in Hi. exists i.
      destruct (String.eqb_spec (nth i names "") (nth (i mod 5) left_out ""))
        as [Heq | Hne]; [destruct Hin|].
      destruct Hin as [<- | []]. split.
      * apply nth_error_nth'. lia.
      * congruence.
    + intros (i & Hnth & Hne). exists i.
      assert (Hi : (i < length names)%nat)
        by (apply nth_error_Some; congruence).
      split; [apply in_seq; lia|].
      rewrite (nth_error_nth names i "" Hnth).
      destruct (String.eqb_spec s (nth (i mod 5) left_out ""))
        as [Heq | _]; [congruence | now left].
Qed.

Lemma X12_feature_names_by_position_witness :
  exists kept,
    RCells.feature_names
      ["dLnQ"; "Quantity"; "revenue"; "UnitPrice"; "dLnP"; "x"]
    = map Some kept /\
    forall s, In s kept <->
      exists i,
        nth_error ["dLnQ"; "Quantity"; "revenue"; "UnitPrice"; "dLnP"; "x"] i
        = Some s /\
        nth (i mod 5) left_out "" <> s.
Proof.
  apply (X12_feature_names_by_position
           ["dLnQ"; "Quantity"; "revenue"; "UnitPrice"; "dLnP"; "x"]).
  cbn. lia.
Defined.

Lemma not_in_existsb (s : string) (l : list string) :
  ~ In s l -> existsb (String.eqb s) l = false.
Proof.
  intros H. destruct (existsb (String.eqb s) l) eqn:E; [|reflexivity].
  apply existsb_exists in E. destruct E as (x & Hx & Heq).
  apply String.eqb_eq in Heq. subst x. contradiction.
Qed.

(** X13.  When the five left-out columns come first, in the order of the
    R notebook, and no later column bears one of their names, the R filter
    and the Python [drop] both return exactly the later columns. *)
Theorem X13_feature_names_agree :
  forall rest : list string,
    (forall s, In s rest -> ~ In s left_out) ->
    RCells.feature_names (left_out ++ rest) = map Some rest /\
    PyCells.feature_names (left_out ++ rest) = Return rest.
Proof.
  intros rest Hrest. split.
  - rewrite r_feature_names_long by (rewrite length_app; cbn; lia).
    rewrite length_app. change (length left_out) with 5%nat.
    rewrite seq_app, flat_map_app. cbn [Nat.add].
    replace (flat_map _ (seq 0 5)) with (@nil (option string))
      by reflexivity.
    cbn [app]. rewrite flat_map_seq_shift.
    rewrite <- (map_nth_seq_string rest) at 2. rewrite map_map.
    rewrite <- flat_map_singleton. apply flat_map_ext_seq. intros k Hk.
    rewrite app_nth2 by (cbn; lia).
    change (length left_out) with 5%nat.
    replace (5 + k - 5)%nat with k by lia.
    destruct (String.eqb_spec (nth k rest "")
                (nth ((5 + k) mod 5) left_out "")) as [Heq | _];
      [|reflexivity].
    exfalso. apply (Hrest (nth k rest "")).
    + apply nth_In. lia.
    + rewrite Heq. apply nth_In. change (length left_out) with 5%nat.
      apply Nat.mod_upper_bound. lia.
  - unfold PyCells.feature_names, PyCells.drop.
    replace (forallb _ _) with true by reflexivity.
    rewrite filter_app.
    replace (filter _ left_out) with (@nil string) by reflexivity.
    cbn [app]. f_equal. apply forallb_filter_id.
    apply forallb_forall. intros s Hs. apply negb_true_iff.
    apply not_in_existsb. intros Hin. apply (Hrest s Hs).
    cbn in Hin. cbn. tauto.
Qed.

Lemma X13_feature_names_agree_witness :
  RCells.feature_names (left_out ++ ["month"; "DoM"])
  = map Some ["month"; "DoM"]
  /\ PyCells.feature_names (left_out ++ ["month"; "DoM"])
     = Return ["month"; "DoM"].
Proof.
  apply (X13_feature_names_agree ["month"; "DoM"]).
  intros s [<- | [<- | []]]; cbn; intros H;
    repeat (destruct H as [H | H]; [discriminate|]); exact H.
Defined.

(** ** The covariates of the A/B test notebooks *)

Lemma grep_shifted (c : Ascii.ascii) (pre names : list string) :
  map (nth_error (pre ++ names))
      (filter (fun i => RCells.has_char c (nth i (pre ++ names) ""))
              (seq (length pre) (length names)))
  = map Some (filter (RCells.has_char c) names).
Proof.
  revert pre. induction names as [|x names IH]; intros pre; [reflexivity|].
  cbn [length seq filter].
  rewrite (app_nth2 pre (x :: names)) by lia.
  rewrite Nat.sub_diag. cbn [nth].
  specialize (IH (pre ++ [x])).
  rewrite <- app_assoc, length_app in IH. cbn [length app] in IH.
  rewrite Nat.add_1_r in IH.
  destruct (RCells.has_char c x); cbn [map]; rewrite IH; [|reflexivity].
  f_equal. rewrite nth_error_app2 by lia.
  now rewrite Nat.sub_diag.
Qed.

(** The R cell returns, in column order and without [NA], the column
    names that contain the letter V. *)
Lemma r_features_base_filter (colnames : list string) :
  RCells.features_base colnames
  = map Some (filter (RCells.has_char "V"%char) colnames).
Proof.
  exact (grep_shifted "V"%char [] colnames).
Qed.

(** X14.  The A/B test notebooks pick the covariates by position in Python
    (everything after the first two columns) and by name in R (every
    column whose name contains the letter V).  On a table whose columns
    after the second all hold a V in their name, the two cells select the
    same columns in the same order exactly when neither of the first two
    column names holds a V. *)
Theorem X14_features_base_agree :
  forall (a b : string) (rest : list string),
    Forall (fun s => RCells.has_char "V"%char s = true) rest ->
    RCells.features_base (a :: b :: rest)
    = map Some (PyCells.features_base (a :: b :: rest))
    <-> RCells.has_char "V"%char a = false /\
        RCells.has_char "V"%char b = false.
Proof.
  intros a b rest Hrest.
  assert (Hkeep : filter (RCells.has_char "V"%char) rest = rest).
  { apply forallb_filter_id, forallb_forall.
    intros s Hs. exact (proj1 (Forall_forall _ rest) Hrest s Hs). }
  rewrite r_features_base_filter. unfold PyCells.features_base.
  cbn [filter skipn]. rewrite Hkeep. split.
  - intros Heq. apply (f_equal (@length (option string))) in Heq.
    destruct (RCells.has_char "V"%char a), (RCells.has_char "V"%char b);
      cbn [map length] in Heq; rewrite ?length_map in Heq;
      try lia; now split.
  - intros [-> ->]. reflexivity.
Qed.

Lemma X14_features_base_agree_witness :
  RCells.features_base ["Y"; "A"; "V1"; "V2"]
  = map Some (PyCells.features_base ["Y"; "A"; "V1"; "V2"])
  <-> RCells.has_char "V"%char "Y" = false /\
      RCells.has_char "V"%char "A" = false.
Proof.
  apply (X14_features_base_agree "Y" "A" ["V1"; "V2"]).
  repeat constructor.
Defined.
